(** * Hamlet's Descent: the per-frame simulation core

    A shallow embedding of the player update, the platform oscillation, the
    enemy and boss hit handlers, the Act I combat loop and the adaptive
    difficulty engine of the game scripts, together with the properties the
    specification states about them.

    Numbers.  Python [int] values are modelled in [Z].  Python [float]
    values are modelled as exact rationals in [Q]: every comparison and every
    branch of the scripts is reproduced, rounding of IEEE doubles is not.
    The constants that decide the branches studied here (0.5, 0.25, 12, 10,
    1.0) are exact in both worlds.  Equality on [Q] is [==].

    The framework (pygame) is not part of the scripts.  Three of its
    behaviours are used and written out below: a [Rect] stores integers and
    coerces a float written to one of its attributes by truncation toward
    zero; [colliderect] is the strict overlap test of two axis-aligned
    boxes; [Sprite.kill] removes the sprite from every group it is in. *)

From Stdlib Require Import ZArith QArith Qminmax Qround Qabs.
From Stdlib Require Import List Bool Lia Lqa.
Import ListNotations.

Open Scope Q_scope.

(** ** Python and framework primitives *)

Definition Qltb (a b : Q) : bool := negb (Qle_bool b a).

(** Python's [max(a, b)] and [min(a, b)]: the first argument wins a tie. *)
Definition pymax (a b : Q) : Q := if Qltb a b then b else a.
Definition pymin (a b : Q) : Q := if Qltb b a then b else a.

Definition pyminZ (a b : Z) : Z := if (b <? a)%Z then b else a.

(** The coercion a [Rect] applies to a float: truncation toward zero. *)
Definition to_int (q : Q) : Z := Z.quot (Qnum q) (Zpos (Qden q)).

(** ** Global constants (hamlets_descent034.py, lines 26-39 and 70) *)

Definition SCREEN_WIDTH : Z := 1600.
Definition SCREEN_HEIGHT : Z := 1200.
Definition GRAVITY : Q := 1 # 2.
Definition PLAYER_SPEED : Q := 5.
Definition JUMP_STRENGTH : Q := -12.
Definition COYOTE_TIME : Q := 1 # 10.
Definition JUMP_BUFFER_TIME : Q := 1 # 10.
Definition VARIABLE_JUMP_MULT : Q := 1 # 2.
Definition DASH_SPEED : Q := 15.
Definition DASH_DURATION : Q := 2 # 10.
Definition DASH_COOLDOWN : Q := 1.
Definition COMBO_TIMEOUT : Q := 2.

(** ** Rectangles *)

Module Rect.

Record t : Type := mk { x : Z; y : Z; w : Z; h : Z }.

Definition left (r : t) : Z := x r.
Definition top (r : t) : Z := y r.
Definition right (r : t) : Z := (x r + w r)%Z.
Definition bottom (r : t) : Z := (y r + h r)%Z.

Definition set_x (v : Z) (r : t) : t := mk v (y r) (w r) (h r).
Definition set_y (v : Z) (r : t) : t := mk (x r) v (w r) (h r).

(** [rect.bottom = b] moves the box, its size stays. *)
Definition set_bottom (b : Z) (r : t) : t := set_y (b - h r)%Z r.

(** [rect.x += v] and [rect.y += v] with a float [v]. *)
Definition add_x (v : Q) (r : t) : t := set_x (to_int (inject_Z (x r) + v)) r.
Definition add_y (v : Q) (r : t) : t := set_y (to_int (inject_Z (y r) + v)) r.

Definition colliderect (a b : t) : bool :=
  ((x a <? x b + w b) && (x b <? x a + w a) &&
   (y a <? y b + h b) && (y b <? y a + h a))%Z.

End Rect.

(** ** Input snapshot: the keys read by [pygame.key.get_pressed()] *)

Record Keys : Type := mkKeys {
  K_LEFT : bool; K_RIGHT : bool; K_SPACE : bool;
  K_a : bool; K_s : bool; K_LSHIFT : bool }.

Definition no_keys : Keys := mkKeys false false false false false false.

(** ** Platforms (hamlets_descent034.py, class Platform) *)

Module Platform.

Record t : Type := mk {
  rect : Rect.t; moving : bool; move_range : Z; move_speed : Z;
  start_x : Z; direction : Z }.

(** [Platform(x, y, width, height, moving)] *)
Definition init (x y width height : Z) (mv : bool) : t :=
  mk (Rect.mk x y width height) mv 200 2 x 1.

Definition update (p : t) : t :=
  if moving p then
    let r := Rect.set_x (Rect.x (rect p) + move_speed p * direction p)%Z (rect p) in
    let d := if (move_range p <? Z.abs (Rect.x r - start_x p))%Z
             then (direction p * -1)%Z else direction p in
    mk r (moving p) (move_range p) (move_speed p) (start_x p) d
  else p.

(** Horizontal displacement from the anchor. *)
Definition displacement (p : t) : Z := (Rect.x (rect p) - start_x p)%Z.

Fixpoint updates (n : nat) (p : t) : t :=
  match n with
  | O => p
  | S k => update (updates k p)
  end.

End Platform.

(** ** The player (hamlets_descent034.py, class Player) *)

Inductive AnimState : Type := Idle | Run | Jump | Attack1 | Attack2 | Dash.

(** Keys of the animation table [self.anims]. *)
Inductive AnimKey : Type := KIdle | KRun | KJump | KAttack1 | KAttack2.

Definition AnimState_eqb (a b : AnimState) : bool :=
  match a, b with
  | Idle, Idle | Run, Run | Jump, Jump
  | Attack1, Attack1 | Attack2, Attack2 | Dash, Dash => true
  | _, _ => false
  end.

(** [state.startswith('attack')] *)
Definition is_attack (s : AnimState) : bool :=
  match s with Attack1 | Attack2 => true | _ => false end.

(** [self.anims.get(new, self.anims['idle'])]: no entry for ['dash']. *)
Definition anims_get (s : AnimState) : AnimKey :=
  match s with
  | Idle => KIdle | Run => KRun | Jump => KJump
  | Attack1 => KAttack1 | Attack2 => KAttack2 | Dash => KIdle
  end.

Module Player.

Record t : Type := mk {
  rect : Rect.t; vx : Q; vy : Q; on_ground : bool;
  state : AnimState; frames : AnimKey; idx : nat; timer : Q;
  jump_buffer : Q; coyote : Q;
  health : Z; max_health : Z; invulnerable : Q; facing_right : bool;
  dash_cooldown : Q; dashing : bool; dash_timer : Q;
  damage_multiplier : Q; speed_multiplier : Q;
  powerup_speed : Q; powerup_damage : Q;
  anims : AnimKey -> nat }.

Definition adelay : Q := 15 # 100.

Definition set_rect (v : Rect.t) (p : t) : t :=
  {| rect := v; vx := vx p; vy := vy p; on_ground := on_ground p;
     state := state p; frames := frames p; idx := idx p; timer := timer p;
     jump_buffer := jump_buffer p; coyote := coyote p; health := health p;
     max_health := max_health p; invulnerable := invulnerable p;
     facing_right := facing_right p; dash_cooldown := dash_cooldown p;
     dashing := dashing p; dash_timer := dash_timer p;
     damage_multiplier := damage_multiplier p;
     speed_multiplier := speed_multiplier p;
     powerup_speed := powerup_speed p; powerup_damage := powerup_damage p;
     anims := anims p |}.

Definition set_vx (v : Q) (p : t) : t :=
  {| rect := rect p; vx := v; vy := vy p; on_ground := on_ground p;
     state := state p; frames := frames p; idx := idx p; timer := timer p;
     jump_buffer := jump_buffer p; coyote := coyote p; health := health p;
     max_health := max_health p; invulnerable := invulnerable p;
     facing_right := facing_right p; dash_cooldown := dash_cooldown p;
     dashing := dashing p; dash_timer := dash_timer p;
     damage_multiplier := damage_multiplier p;
     speed_multiplier := speed_multiplier p;
     powerup_speed := powerup_speed p; powerup_damage := powerup_damage p;
     anims := anims p |}.

Definition set_vy (v : Q) (p : t) : t :=
  {| rect := rect p; vx := vx p; vy := v; on_ground := on_ground p;
     state := state p; frames := frames p; idx := idx p; timer := timer p;
     jump_buffer := jump_buffer p; coyote := coyote p; health := health p;
     max_health := max_health p; invulnerable := invulnerable p;
     facing_right := facing_right p; dash_cooldown := dash_cooldown p;
     dashing := dashing p; dash_timer := dash_timer p;
     damage_multiplier := damage_multiplier p;
     speed_multiplier := speed_multiplier p;
     powerup_speed := powerup_speed p; powerup_damage := powerup_damage p;
     anims := anims p |}.

Definition set_on_ground (v : bool) (p : t) : t :=
  {| rect := rect p; vx := vx p; vy := vy p; on_ground := v;
     state := state p; frames := frames p; idx := idx p; timer := timer p;
     jump_buffer := jump_buffer p; coyote := coyote p; health := health p;
     max_health := max_health p; invulnerable := invulnerable p;
     facing_right := facing_right p; dash_cooldown := dash_cooldown p;
     dashing := dashing p; dash_timer := dash_timer p;
     damage_multiplier := damage_multiplier p;
     speed_multiplier := speed_multiplier p;
     powerup_speed := powerup_speed p; powerup_damage := powerup_damage p;
     anims := anims p |}.

Definition set_state (v : AnimState) (p : t) : t :=
  {| rect := rect p; vx := vx p; vy := vy p; on_ground := on_ground p;
     state := v; frames := frames p; idx := idx p; timer := timer p;
     jump_buffer := jump_buffer p; coyote := coyote p; health := health p;
     max_health := max_health p; invulnerable := invulnerable p;
     facing_right := facing_right p; dash_cooldown := dash_cooldown p;
     dashing := dashing p; dash_timer := dash_timer p;
     damage_multiplier := damage_multiplier p;
     speed_multiplier := speed_multiplier p;
     powerup_speed := powerup_speed p; powerup_damage := powerup_damage p;
     anims := anims p |}.

Definition set_frames (v : AnimKey) (p : t) : t :=
  {| rect := rect p; vx := vx p; vy := vy p; on_ground := on_ground p;
     state := state p; frames := v; idx := idx p; timer := timer p;
     jump_buffer := jump_buffer p; coyote := coyote p; health := health p;
     max_health := max_health p; invulnerable := invulnerable p;
     facing_right := facing_right p; dash_cooldown := dash_cooldown p;
     dashing := dashing p; dash_timer := dash_timer p;
     damage_multiplier := damage_multiplier p;
     speed_multiplier := speed_multiplier p;
     powerup_speed := powerup_speed p; powerup_damage := powerup_damage p;
     anims := anims p |}.

Definition set_idx (v : nat) (p : t) : t :=
  {| rect := rect p; vx := vx p; vy := vy p; on_ground := on_ground p;
     state := state p; frames := frames p; idx := v; timer := timer p;
     jump_buffer := jump_buffer p; coyote := coyote p; health := health p;
     max_health := max_health p; invulnerable := invulnerable p;
     facing_right := facing_right p; dash_cooldown := dash_cooldown p;
     dashing := dashing p; dash_timer := dash_timer p;
     damage_multiplier := damage_multiplier p;
     speed_multiplier := speed_multiplier p;
     powerup_speed := powerup_speed p; powerup_damage := powerup_damage p;
     anims := anims p |}.

Definition set_timer (v : Q) (p : t) : t :=
  {| rect := rect p; vx := vx p; vy := vy p; on_ground := on_ground p;
     state := state p; frames := frames p; idx := idx p; timer := v;
     jump_buffer := jump_buffer p; coyote := coyote p; health := health p;
     max_health := max_health p; invulnerable := invulnerable p;
     facing_right := facing_right p; dash_cooldown := dash_cooldown p;
     dashing := dashing p; dash_timer := dash_timer p;
     damage_multiplier := damage_multiplier p;
     speed_multiplier := speed_multiplier p;
     powerup_speed := powerup_speed p; powerup_damage := powerup_damage p;
     anims := anims p |}.

Definition set_jump_buffer (v : Q) (p : t) : t :=
  {| rect := rect p; vx := vx p; vy := vy p; on_ground := on_ground p;
     state := state p; frames := frames p; idx := idx p; timer := timer p;
     jump_buffer := v; coyote := coyote p; health := health p;
     max_health := max_health p; invulnerable := invulnerable p;
     facing_right := facing_right p; dash_cooldown := dash_cooldown p;
     dashing := dashing p; dash_timer := dash_timer p;
     damage_multiplier := damage_multiplier p;
     speed_multiplier := speed_multiplier p;
     powerup_speed := powerup_speed p; powerup_damage := powerup_damage p;
     anims := anims p |}.

Definition set_coyote (v : Q) (p : t) : t :=
  {| rect := rect p; vx := vx p; vy := vy p; on_ground := on_ground p;
     state := state p; frames := frames p; idx := idx p; timer := timer p;
     jump_buffer := jump_buffer p; coyote := v; health := health p;
     max_health := max_health p; invulnerable := invulnerable p;
     facing_right := facing_right p; dash_cooldown := dash_cooldown p;
     dashing := dashing p; dash_timer := dash_timer p;
     damage_multiplier := damage_multiplier p;
     speed_multiplier := speed_multiplier p;
     powerup_speed := powerup_speed p; powerup_damage := powerup_damage p;
     anims := anims p |}.

Definition set_health (v : Z) (p : t) : t :=
  {| rect := rect p; vx := vx p; vy := vy p; on_ground := on_ground p;
     state := state p; frames := frames p; idx := idx p; timer := timer p;
     jump_buffer := jump_buffer p; coyote := coyote p; health := v;
     max_health := max_health p; invulnerable := invulnerable p;
     facing_right := facing_right p; dash_cooldown := dash_cooldown p;
     dashing := dashing p; dash_timer := dash_timer p;
     damage_multiplier := damage_multiplier p;
     speed_multiplier := speed_multiplier p;
     powerup_speed := powerup_speed p; powerup_damage := powerup_damage p;
     anims := anims p |}.

Definition set_invulnerable (v : Q) (p : t) : t :=
  {| rect := rect p; vx := vx p; vy := vy p; on_ground := on_ground p;
     state := state p; frames := frames p; idx := idx p; timer := timer p;
     jump_buffer := jump_buffer p; coyote := coyote p; health := health p;
     max_health := max_health p; invulnerable := v;
     facing_right := facing_right p; dash_cooldown := dash_cooldown p;
     dashing := dashing p; dash_timer := dash_timer p;
     damage_multiplier := damage_multiplier p;
     speed_multiplier := speed_multiplier p;
     powerup_speed := powerup_speed p; powerup_damage := powerup_damage p;
     anims := anims p |}.

Definition set_facing_right (v : bool) (p : t) : t :=
  {| rect := rect p; vx := vx p; vy := vy p; on_ground := on_ground p;
     state := state p; frames := frames p; idx := idx p; timer := timer p;
     jump_buffer := jump_buffer p; coyote := coyote p; health := health p;
     max_health := max_health p; invulnerable := invulnerable p;
     facing_right := v; dash_cooldown := dash_cooldown p;
     dashing := dashing p; dash_timer := dash_timer p;
     damage_multiplier := damage_multiplier p;
     speed_multiplier := speed_multiplier p;
     powerup_speed := powerup_speed p; powerup_damage := powerup_damage p;
     anims := anims p |}.

Definition set_dash_cooldown (v : Q) (p : t) : t :=
  {| rect := rect p; vx := vx p; vy := vy p; on_ground := on_ground p;
     state := state p; frames := frames p; idx := idx p; timer := timer p;
     jump_buffer := jump_buffer p; coyote := coyote p; health := health p;
     max_health := max_health p; invulnerable := invulnerable p;
     facing_right := facing_right p; dash_cooldown := v;
     dashing := dashing p; dash_timer := dash_timer p;
     damage_multiplier := damage_multiplier p;
     speed_multiplier := speed_multiplier p;
     powerup_speed := powerup_speed p; powerup_damage := powerup_damage p;
     anims := anims p |}.

Definition set_dashing (v : bool) (p : t) : t :=
  {| rect := rect p; vx := vx p; vy := vy p; on_ground := on_ground p;
     state := state p; frames := frames p; idx := idx p; timer := timer p;
     jump_buffer := jump_buffer p; coyote := coyote p; health := health p;
     max_health := max_health p; invulnerable := invulnerable p;
     facing_right := facing_right p; dash_cooldown := dash_cooldown p;
     dashing := v; dash_timer := dash_timer p;
     damage_multiplier := damage_multiplier p;
     speed_multiplier := speed_multiplier p;
     powerup_speed := powerup_speed p; powerup_damage := powerup_damage p;
     anims := anims p |}.

Definition set_dash_timer (v : Q) (p : t) : t :=
  {| rect := rect p; vx := vx p; vy := vy p; on_ground := on_ground p;
     state := state p; frames := frames p; idx := idx p; timer := timer p;
     jump_buffer := jump_buffer p; coyote := coyote p; health := health p;
     max_health := max_health p; invulnerable := invulnerable p;
     facing_right := facing_right p; dash_cooldown := dash_cooldown p;
     dashing := dashing p; dash_timer := v;
     damage_multiplier := damage_multiplier p;
     speed_multiplier := speed_multiplier p;
     powerup_speed := powerup_speed p; powerup_damage := powerup_damage p;
     anims := anims p |}.

Definition set_damage_multiplier (v : Q) (p : t) : t :=
  {| rect := rect p; vx := vx p; vy := vy p; on_ground := on_ground p;
     state := state p; frames := frames p; idx := idx p; timer := timer p;
     jump_buffer := jump_buffer p; coyote := coyote p; health := health p;
     max_health := max_health p; invulnerable := invulnerable p;
     facing_right := facing_right p; dash_cooldown := dash_cooldown p;
     dashing := dashing p; dash_timer := dash_timer p;
     damage_multiplier := v; speed_multiplier := speed_multiplier p;
     powerup_speed := powerup_speed p; powerup_damage := powerup_damage p;
     anims := anims p |}.

Definition set_speed_multiplier (v : Q) (p : t) : t :=
  {| rect := rect p; vx := vx p; vy := vy p; on_ground := on_ground p;
     state := state p; frames := frames p; idx := idx p; timer := timer p;
     jump_buffer := jump_buffer p; coyote := coyote p; health := health p;
     max_health := max_health p; invulnerable := invulnerable p;
     facing_right := facing_right p; dash_cooldown := dash_cooldown p;
     dashing := dashing p; dash_timer := dash_timer p;
     damage_multiplier := damage_multiplier p; speed_multiplier := v;
     powerup_speed := powerup_speed p; powerup_damage := powerup_damage p;
     anims := anims p |}.

Definition set_powerup_speed (v : Q) (p : t) : t :=
  {| rect := rect p; vx := vx p; vy := vy p; on_ground := on_ground p;
     state := state p; frames := frames p; idx := idx p; timer := timer p;
     jump_buffer := jump_buffer p; coyote := coyote p; health := health p;
     max_health := max_health p; invulnerable := invulnerable p;
     facing_right := facing_right p; dash_cooldown := dash_cooldown p;
     dashing := dashing p; dash_timer := dash_timer p;
     damage_multiplier := damage_multiplier p;
     speed_multiplier := speed_multiplier p; powerup_speed := v;
     powerup_damage := powerup_damage p; anims := anims p |}.

Definition set_powerup_damage (v : Q) (p : t) : t :=
  {| rect := rect p; vx := vx p; vy := vy p; on_ground := on_ground p;
     state := state p; frames := frames p; idx := idx p; timer := timer p;
     jump_buffer := jump_buffer p; coyote := coyote p; health := health p;
     max_health := max_health p; invulnerable := invulnerable p;
     facing_right := facing_right p; dash_cooldown := dash_cooldown p;
     dashing := dashing p; dash_timer := dash_timer p;
     damage_multiplier := damage_multiplier p;
     speed_multiplier := speed_multiplier p;
     powerup_speed := powerup_speed p; powerup_damage := v;
     anims := anims p |}.

Local Notation "p |> f" := (f p) (at level 71, left associativity, only parsing).

(** [Player(x, y)]: the box of the first idle frame, [width] by [height],
    placed with its bottom centre at [(x, y)]. *)
Definition init (x y width height : Z) (table : AnimKey -> nat) : t :=
  mk (Rect.mk (x - width / 2) (y - height) width height)
     0 0 false Idle KIdle 0 0 0 0 100 100 0 true 0 false 0 1 1 0 0 table.

(** *** The phases of [Player.update], in source order *)

(** Lines 470-475: power-up timers and the multipliers they drive. *)
Definition powerups_phase (dt : Q) (p : t) : t :=
  let s := pymax 0 (powerup_speed p - dt) in
  let d := pymax 0 (powerup_damage p - dt) in
  p |> set_powerup_speed s |> set_powerup_damage d
    |> set_speed_multiplier (if Qltb 0 s then 15 # 10 else 1)
    |> set_damage_multiplier (if Qltb 0 d then 2 else 1).

(** Lines 477-483: dash start. *)
Definition dash_phase (keys : Keys) (dt : Q) (p : t) : t :=
  let p := set_dash_cooldown (pymax 0 (dash_cooldown p - dt)) p in
  if K_LSHIFT keys && Qeq_bool (dash_cooldown p) 0 && negb (dashing p) then
    p |> set_dashing true |> set_dash_timer DASH_DURATION
      |> set_dash_cooldown DASH_COOLDOWN |> set_invulnerable DASH_DURATION
  else p.

(** Lines 485-500: dash motion or normal horizontal movement. *)
Definition move_phase (keys : Keys) (dt : Q) (p : t) : t :=
  if dashing p then
    let p := set_dash_timer (dash_timer p - dt) p in
    if Qle_bool (dash_timer p) 0 then set_dashing false p
    else set_vx (DASH_SPEED * (if facing_right p then 1 else -1)) p
  else
    let p := set_vx 0 p in
    if K_LEFT keys then
      p |> set_vx (- PLAYER_SPEED * speed_multiplier p) |> set_facing_right false
    else if K_RIGHT keys then
      p |> set_vx (PLAYER_SPEED * speed_multiplier p) |> set_facing_right true
    else p.

(** Lines 502-503: the invulnerability countdown. *)
Definition invulnerable_phase (dt : Q) (p : t) : t :=
  set_invulnerable (pymax 0 (invulnerable p - dt)) p.

(** Lines 505-507: coyote and jump-buffer timers. *)
Definition grace_phase (keys : Keys) (dt : Q) (p : t) : t :=
  p |> set_coyote (if on_ground p then COYOTE_TIME else pymax 0 (coyote p - dt))
    |> set_jump_buffer
         (if K_SPACE keys then JUMP_BUFFER_TIME else pymax 0 (jump_buffer p - dt)).

(** Lines 509-512: the jump.  [jump_fires] is the guard of the [if]. *)
Definition jump_fires (p : t) : bool :=
  Qltb 0 (jump_buffer p) && Qltb 0 (coyote p).

Definition jump_phase (p : t) : t :=
  if jump_fires p then
    p |> set_vy JUMP_STRENGTH |> set_on_ground false
      |> set_coyote 0 |> set_jump_buffer 0
  else p.

(** Lines 514-516: gravity, then the vertical move. *)
Definition gravity_phase (p : t) : t :=
  let p := set_vy (vy p + GRAVITY) p in
  set_rect (Rect.add_y (vy p) (rect p)) p.

(** Lines 518-526: landing on platforms; the body of the [for] loop. *)
Definition land_on (p : t) (pl : Platform.t) : t :=
  let r := rect p in
  let pr := Platform.rect pl in
  if Qltb 0 (vy p) && (Rect.top pr <? Rect.bottom r)%Z
     && (Rect.bottom r <? Rect.bottom pr)%Z
     && (Rect.left r <? Rect.right pr)%Z && (Rect.left pr <? Rect.right r)%Z
  then
    p |> set_rect (Rect.set_bottom (Rect.top pr) r) |> set_vy 0
      |> set_on_ground true
  else p.

Definition platform_phase (platforms : list Platform.t) (p : t) : t :=
  fold_left land_on platforms (set_on_ground false p).

(** Lines 528-530: the world floor. *)
Definition ground_phase (p : t) : t :=
  if (SCREEN_HEIGHT <=? Rect.bottom (rect p))%Z then
    p |> set_rect (Rect.set_bottom SCREEN_HEIGHT (rect p)) |> set_vy 0
      |> set_on_ground true
  else p.

(** Lines 532-533: variable jump height. *)
Definition variable_jump_phase (keys : Keys) (p : t) : t :=
  if Qltb (vy p) 0 && negb (K_SPACE keys)
  then set_vy (vy p + GRAVITY * VARIABLE_JUMP_MULT) p else p.

(** Lines 535-536: the horizontal move. *)
Definition horizontal_phase (p : t) : t :=
  set_rect (Rect.add_x (vx p) (rect p)) p.

(** Lines 538-547: the state priority list. *)
Definition select_state (keys : Keys) (p : t) : AnimState :=
  if dashing p then Dash
  else if is_attack (state p) then state p
  else if K_a keys then Attack1
  else if K_s keys then Attack2
  else if negb (on_ground p) then Jump
  else if negb (Qeq_bool (vx p) 0) then Run
  else Idle.

(** Lines 549-552: a change of state restarts the animation. *)
Definition state_phase (keys : Keys) (p : t) : t :=
  let new := select_state keys p in
  if AnimState_eqb new (state p) then p
  else p |> set_state new |> set_frames (anims_get new)
         |> set_idx 0%nat |> set_timer 0.

(** Lines 554-563: frame stepping; an attack ends on its last frame. *)
Definition animate_phase (dt : Q) (p : t) : t :=
  let p := set_timer (timer p + dt) p in
  if Qle_bool adelay (timer p) then
    let n := anims p (frames p) in
    let p := p |> set_timer 0 |> set_idx (Nat.modulo (S (idx p)) n) in
    if is_attack (state p) && Nat.eqb (idx p) (n - 1)
    then p |> set_state Idle |> set_frames KIdle |> set_idx 0%nat
    else p
  else p.

(** The state at the instant the jump guard is evaluated. *)
Definition before_jump (keys : Keys) (dt : Q) (p : t) : t :=
  p |> powerups_phase dt |> dash_phase keys dt |> move_phase keys dt
    |> invulnerable_phase dt |> grace_phase keys dt.

(** Everything after the jump block. *)
Definition after_jump (keys : Keys) (dt : Q) (platforms : list Platform.t)
  (p : t) : t :=
  p |> gravity_phase |> platform_phase platforms |> ground_phase
    |> variable_jump_phase keys |> horizontal_phase
    |> state_phase keys |> animate_phase dt.

(** [Player.update(dt, platforms)] *)
Definition update (keys : Keys) (dt : Q) (platforms : list Platform.t)
  (p : t) : t :=
  after_jump keys dt platforms (jump_phase (before_jump keys dt p)).

End Player.

(** ** The earlier player (Hamlet_descent0319.py, class Player)

    The same kinematic core without dash, power-ups, platforms and health.
    Hamlet_descent0318.py has the same text and one more line, the clamp of
    [rect.x] to the level. *)

Module Player0319.

Record t : Type := mk {
  rect : Rect.t; vx : Q; vy : Q; on_ground : bool;
  state : AnimState; frames : AnimKey; idx : nat; timer : Q;
  jump_buffer : Q; coyote : Q; anims : AnimKey -> nat }.

Definition adelay : Q := 15 # 100.

Definition set_rect (v : Rect.t) (p : t) : t :=
  {| rect := v; vx := vx p; vy := vy p; on_ground := on_ground p;
     state := state p; frames := frames p; idx := idx p; timer := timer p;
     jump_buffer := jump_buffer p; coyote := coyote p; anims := anims p |}.

Definition set_vx (v : Q) (p : t) : t :=
  {| rect := rect p; vx := v; vy := vy p; on_ground := on_ground p;
     state := state p; frames := frames p; idx := idx p; timer := timer p;
     jump_buffer := jump_buffer p; coyote := coyote p; anims := anims p |}.

Definition set_vy (v : Q) (p : t) : t :=
  {| rect := rect p; vx := vx p; vy := v; on_ground := on_ground p;
     state := state p; frames := frames p; idx := idx p; timer := timer p;
     jump_buffer := jump_buffer p; coyote := coyote p; anims := anims p |}.

Definition set_on_ground (v : bool) (p : t) : t :=
  {| rect := rect p; vx := vx p; vy := vy p; on_ground := v;
     state := state p; frames := frames p; idx := idx p; timer := timer p;
     jump_buffer := jump_buffer p; coyote := coyote p; anims := anims p |}.

Definition set_state (v : AnimState) (p : t) : t :=
  {| rect := rect p; vx := vx p; vy := vy p; on_ground := on_ground p;
     state := v; frames := frames p; idx := idx p; timer := timer p;
     jump_buffer := jump_buffer p; coyote := coyote p; anims := anims p |}.

Definition set_frames (v : AnimKey) (p : t) : t :=
  {| rect := rect p; vx := vx p; vy := vy p; on_ground := on_ground p;
     state := state p; frames := v; idx := idx p; timer := timer p;
     jump_buffer := jump_buffer p; coyote := coyote p; anims := anims p |}.

Definition set_idx (v : nat) (p : t) : t :=
  {| rect := rect p; vx := vx p; vy := vy p; on_ground := on_ground p;
     state := state p; frames := frames p; idx := v; timer := timer p;
     jump_buffer := jump_buffer p; coyote := coyote p; anims := anims p |}.

Definition set_timer (v : Q) (p : t) : t :=
  {| rect := rect p; vx := vx p; vy := vy p; on_ground := on_ground p;
     state := state p; frames := frames p; idx := idx p; timer := v;
     jump_buffer := jump_buffer p; coyote := coyote p; anims := anims p |}.

Definition set_jump_buffer (v : Q) (p : t) : t :=
  {| rect := rect p; vx := vx p; vy := vy p; on_ground := on_ground p;
     state := state p; frames := frames p; idx := idx p; timer := timer p;
     jump_buffer := v; coyote := coyote p; anims := anims p |}.

Definition set_coyote (v : Q) (p : t) : t :=
  {| rect := rect p; vx := vx p; vy := vy p; on_ground := on_ground p;
     state := state p; frames := frames p; idx := idx p; timer := timer p;
     jump_buffer := jump_buffer p; coyote := v; anims := anims p |}.

Local Notation "p |> f" := (f p) (at level 71, left associativity, only parsing).

(** Line 204. *)
Definition move_phase (keys : Keys) (p : t) : t :=
  set_vx (if K_LEFT keys then - PLAYER_SPEED
          else if K_RIGHT keys then PLAYER_SPEED else 0) p.

(** Lines 206-207. *)
Definition grace_phase (keys : Keys) (dt : Q) (p : t) : t :=
  p |> set_coyote (if on_ground p then COYOTE_TIME else pymax 0 (coyote p - dt))
    |> set_jump_buffer
         (if K_SPACE keys then JUMP_BUFFER_TIME else pymax 0 (jump_buffer p - dt)).

(** Lines 209-211. *)
Definition jump_fires (p : t) : bool :=
  Qltb 0 (jump_buffer p) && Qltb 0 (coyote p).

Definition jump_phase (p : t) : t :=
  if jump_fires p then
    p |> set_vy JUMP_STRENGTH |> set_on_ground false
      |> set_coyote 0 |> set_jump_buffer 0
  else p.

(** Line 213. *)
Definition gravity_phase (p : t) : t :=
  let p := set_vy (vy p + GRAVITY) p in
  set_rect (Rect.add_y (vy p) (rect p)) p.

(** Lines 215-216. *)
Definition ground_phase (p : t) : t :=
  if (SCREEN_HEIGHT <=? Rect.bottom (rect p))%Z then
    p |> set_rect (Rect.set_bottom SCREEN_HEIGHT (rect p)) |> set_vy 0
      |> set_on_ground true
  else p.

(** Line 218. *)
Definition variable_jump_phase (keys : Keys) (p : t) : t :=
  if Qltb (vy p) 0 && negb (K_SPACE keys)
  then set_vy (vy p + GRAVITY * VARIABLE_JUMP_MULT) p else p.

(** Line 220. *)
Definition horizontal_phase (p : t) : t :=
  set_rect (Rect.add_x (vx p) (rect p)) p.

(** Lines 222-227 (Hamlet_descent0318.py, lines 178-183). *)
Definition select_state (keys : Keys) (p : t) : AnimState :=
  if is_attack (state p) then state p
  else if K_a keys then Attack1
  else if negb (on_ground p) then Jump
  else if negb (Qeq_bool (vx p) 0) then Run
  else Idle.

(** Lines 228-229. *)
Definition state_phase (keys : Keys) (p : t) : t :=
  let new := select_state keys p in
  if AnimState_eqb new (state p) then p
  else p |> set_state new |> set_frames (anims_get new)
         |> set_idx 0%nat |> set_timer 0.

(** Lines 231-238. *)
Definition animate_phase (dt : Q) (p : t) : t :=
  let p := set_timer (timer p + dt) p in
  if Qle_bool adelay (timer p) then
    let n := anims p (frames p) in
    let p := p |> set_timer 0 |> set_idx (Nat.modulo (S (idx p)) n) in
    if is_attack (state p) && Nat.eqb (idx p) (n - 1)
    then p |> set_state Idle |> set_frames KIdle |> set_idx 0%nat
    else p
  else p.

Definition before_jump (keys : Keys) (dt : Q) (p : t) : t :=
  p |> move_phase keys |> grace_phase keys dt.

Definition after_jump (keys : Keys) (dt : Q) (p : t) : t :=
  p |> gravity_phase |> ground_phase |> variable_jump_phase keys
    |> horizontal_phase |> state_phase keys |> animate_phase dt.

(** [Player.update(dt)] *)
Definition update (keys : Keys) (dt : Q) (p : t) : t :=
  after_jump keys dt (jump_phase (before_jump keys dt p)).

End Player0319.

(** ** Ghost enemies (hamlets_descent034.py, classes GhostEnemy, SwordGhost)

    A sprite is an object: [gid] is its identity.  [alive] is
    [Sprite.alive()], cleared by [kill()]; a group drops a sprite that is
    no longer alive. *)

Module GhostEnemy.

Record t : Type := mk {
  gid : nat; sword : bool; rect : Rect.t; speed : Q; health : Z;
  row : Z; idx : nat; timer : Q; bob : Q; bob_dir : Z;
  attack_cooldown : Q; alive : bool }.

Definition delay : Q := 2 # 10.

Definition set_rect (v : Rect.t) (g : t) : t :=
  {| gid := gid g; sword := sword g; rect := v; speed := speed g;
     health := health g; row := row g; idx := idx g; timer := timer g;
     bob := bob g; bob_dir := bob_dir g;
     attack_cooldown := attack_cooldown g; alive := alive g |}.

Definition set_health (v : Z) (g : t) : t :=
  {| gid := gid g; sword := sword g; rect := rect g; speed := speed g;
     health := v; row := row g; idx := idx g; timer := timer g; bob := bob g;
     bob_dir := bob_dir g; attack_cooldown := attack_cooldown g;
     alive := alive g |}.

Definition set_row (v : Z) (g : t) : t :=
  {| gid := gid g; sword := sword g; rect := rect g; speed := speed g;
     health := health g; row := v; idx := idx g; timer := timer g;
     bob := bob g; bob_dir := bob_dir g;
     attack_cooldown := attack_cooldown g; alive := alive g |}.

Definition set_idx (v : nat) (g : t) : t :=
  {| gid := gid g; sword := sword g; rect := rect g; speed := speed g;
     health := health g; row := row g; idx := v; timer := timer g;
     bob := bob g; bob_dir := bob_dir g;
     attack_cooldown := attack_cooldown g; alive := alive g |}.

Definition set_timer (v : Q) (g : t) : t :=
  {| gid := gid g; sword := sword g; rect := rect g; speed := speed g;
     health := health g; row := row g; idx := idx g; timer := v;
     bob := bob g; bob_dir := bob_dir g;
     attack_cooldown := attack_cooldown g; alive := alive g |}.

Definition set_bob (v : Q) (g : t) : t :=
  {| gid := gid g; sword := sword g; rect := rect g; speed := speed g;
     health := health g; row := row g; idx := idx g; timer := timer g;
     bob := v; bob_dir := bob_dir g; attack_cooldown := attack_cooldown g;
     alive := alive g |}.

Definition set_bob_dir (v : Z) (g : t) : t :=
  {| gid := gid g; sword := sword g; rect := rect g; speed := speed g;
     health := health g; row := row g; idx := idx g; timer := timer g;
     bob := bob g; bob_dir := v; attack_cooldown := attack_cooldown g;
     alive := alive g |}.

Definition set_attack_cooldown (v : Q) (g : t) : t :=
  {| gid := gid g; sword := sword g; rect := rect g; speed := speed g;
     health := health g; row := row g; idx := idx g; timer := timer g;
     bob := bob g; bob_dir := bob_dir g; attack_cooldown := v;
     alive := alive g |}.

Definition set_alive (v : bool) (g : t) : t :=
  {| gid := gid g; sword := sword g; rect := rect g; speed := speed g;
     health := health g; row := row g; idx := idx g; timer := timer g;
     bob := bob g; bob_dir := bob_dir g;
     attack_cooldown := attack_cooldown g; alive := v |}.

Local Notation "g |> f" := (f g) (at level 71, left associativity, only parsing).

(** The frame box: 204 by 341 scaled by 0.3 from the sheet, or the 60 by 60
    fallback drawing. *)
Definition frame_size (sheet : bool) : Z * Z :=
  if sheet then (61, 102)%Z else (60, 60)%Z.

(** [GhostEnemy(x, y, speed)] and [SwordGhost(x, y, speed)] *)
Definition init (id : nat) (is_sword sheet : bool) (x y : Z) (spd : Q) : t :=
  let (width, height) := frame_size sheet in
  mk id is_sword (Rect.mk (x - width / 2) (y - height) width height) spd
     (if is_sword then 5 else 3) 0 0 0 0 1 0 true.

Definition kill (g : t) : t := set_alive false g.

(** [GhostEnemy.update(dt)] *)
Definition update (dt : Q) (g : t) : t :=
  let g := set_bob (bob g + dt * 20 * inject_Z (bob_dir g)) g in
  let g := if Qltb 6 (Qabs (bob g)) then set_bob_dir (bob_dir g * -1)%Z g else g in
  let g := set_rect (Rect.add_y (dt * 20 * inject_Z (bob_dir g)) (rect g)) g in
  let g := set_rect (Rect.add_x (- speed g) (rect g)) g in
  let g := set_timer (timer g + dt) g in
  let g := if Qle_bool delay (timer g)
           then g |> set_idx (Nat.modulo (S (idx g)) 5) |> set_timer 0 else g in
  let g := if (Rect.right (rect g) <? 0)%Z then kill g else g in
  set_attack_cooldown (pymax 0 (attack_cooldown g - dt)) g.

(** [GhostEnemy.take_hit()]: the ghost after the hit and the points. *)
Definition take_hit (g : t) : t * Z :=
  let g := set_health (health g - 1)%Z g in
  if (0 <? health g)%Z then
    (g |> set_row (pyminZ 2 (3 - health g)%Z) |> set_idx 0%nat, 10%Z)
  else (kill g, 20%Z).

End GhostEnemy.

(** ** The boss (hamlets_descent034.py, class Boss) *)

Module Boss.

Record t : Type := mk {
  health : Q; max_health : Q; phase : Z;
  attack_timer : Q; attack_pattern : Z; alive : bool }.

(** [Boss(x, y)] *)
Definition init : t := mk 50 50 1 0 0 true.

(** [Boss.take_hit(damage)]: the boss after the hit and the points. *)
Definition take_hit (damage : Q) (b : t) : t * Z :=
  let h := health b - damage in
  if Qle_bool h 0 then
    (mk h (max_health b) (phase b) (attack_timer b) (attack_pattern b) false,
     100%Z)
  else
    (mk h (max_health b) (phase b) (attack_timer b) (attack_pattern b)
        (alive b), 5%Z).

End Boss.

(** ** Adaptive difficulty (class AdaptiveEngine) *)

Module AdaptiveEngine.

Record t : Type := mk { diff : Q; espeed : Q; spawn_rate : Q }.

(** The [perf] dictionary passed to [update]. *)
Record Perf : Type := mkPerf { perf_deaths : Z; perf_time : Q }.

Definition init : t := mk 1 2 (1 # 100).

(** hamlets_descent034.py, lines 578-586. *)
Definition update (perf : Perf) (a : t) : t :=
  if (3 <? perf_deaths perf)%Z then
    mk (pymax (1 # 2) (diff a * (9 # 10)))
       (pymax 1 (espeed a * (9 # 10)))
       (pymax (5 # 1000) (spawn_rate a * (9 # 10)))
  else if (perf_deaths perf =? 0)%Z && Qltb (perf_time perf) 60 then
    mk (pymin 2 (diff a * (11 # 10)))
       (pymin 5 (espeed a * (11 # 10)))
       (pymin (2 # 100) (spawn_rate a * (11 # 10)))
  else a.

(** Hamlet_descent0319.py, lines 243-247: no spawn rate in that version. *)
Definition update0319 (perf : Perf) (a : t) : t :=
  if (3 <? perf_deaths perf)%Z then
    mk (pymax (1 # 2) (diff a * (9 # 10))) (pymax 1 (espeed a * (9 # 10)))
       (spawn_rate a)
  else if (perf_deaths perf =? 0)%Z && Qltb (perf_time perf) 60 then
    mk (pymin 2 (diff a * (11 # 10))) (pymin 5 (espeed a * (11 # 10)))
       (spawn_rate a)
  else a.

End AdaptiveEngine.

(** ** Sprite groups of ghosts *)

Module Group.

Definition t : Type := list GhostEnemy.t.

Definition ids (grp : t) : list nat := map GhostEnemy.gid grp.

Definition same (g h : GhostEnemy.t) : bool :=
  Nat.eqb (GhostEnemy.gid g) (GhostEnemy.gid h).

(** [group.add(g)] *)
Definition add (g : GhostEnemy.t) (grp : t) : t := grp ++ [g].

(** Write back sprite [g] after one of its methods ran: a killed sprite
    leaves the group, a live one replaces its former value. *)
Definition put (g : GhostEnemy.t) (grp : t) : t :=
  if GhostEnemy.alive g
  then map (fun h => if same g h then g else h) grp
  else filter (fun h => negb (same g h)) grp.

(** [group.update(dt)] *)
Definition update (dt : Q) (grp : t) : t :=
  filter GhostEnemy.alive (map (GhostEnemy.update dt) grp).

(** [pygame.sprite.spritecollide(player, group, False)] *)
Definition spritecollide (r : Rect.t) (grp : t) : list GhostEnemy.t :=
  filter (fun g => Rect.colliderect r (GhostEnemy.rect g)) grp.

End Group.

(** ** The Act I loop (hamlets_descent034.py, main, lines 1051-1176) *)

Inductive PowerUpType : Type := PHealth | PSpeed | PDamage.

Module Main.

Record t : Type := mk {
  player : Player.t; ghosts : Group.t; platforms : list Platform.t;
  adaptive : AdaptiveEngine.t;
  score : Z; deaths : Z; combo_count : Z; combo_timer : Q;
  start_x : Z; next_id : nat; ghost_sheet : bool; running : bool }.

(** What one iteration reads from outside the simulation: the clock, the
    event queue, the keyboard, the random draws of the ghost spawner, the
    power-ups the collision test hands over, and the wall clock. *)
Record Input : Type := mkInput {
  dt : Q; quit : bool; keys : Keys;
  spawn : option (bool * Z);
  collected : list PowerUpType;
  elapsed : Q }.

Definition set_player (v : Player.t) (w : t) : t :=
  {| player := v; ghosts := ghosts w; platforms := platforms w;
     adaptive := adaptive w; score := score w; deaths := deaths w;
     combo_count := combo_count w; combo_timer := combo_timer w;
     start_x := start_x w; next_id := next_id w;
     ghost_sheet := ghost_sheet w; running := running w |}.

Definition set_ghosts (v : list GhostEnemy.t) (w : t) : t :=
  {| player := player w; ghosts := v; platforms := platforms w;
     adaptive := adaptive w; score := score w; deaths := deaths w;
     combo_count := combo_count w; combo_timer := combo_timer w;
     start_x := start_x w; next_id := next_id w;
     ghost_sheet := ghost_sheet w; running := running w |}.

Definition set_platforms (v : list Platform.t) (w : t) : t :=
  {| player := player w; ghosts := ghosts w; platforms := v;
     adaptive := adaptive w; score := score w; deaths := deaths w;
     combo_count := combo_count w; combo_timer := combo_timer w;
     start_x := start_x w; next_id := next_id w;
     ghost_sheet := ghost_sheet w; running := running w |}.

Definition set_adaptive (v : AdaptiveEngine.t) (w : t) : t :=
  {| player := player w; ghosts := ghosts w; platforms := platforms w;
     adaptive := v; score := score w; deaths := deaths w;
     combo_count := combo_count w; combo_timer := combo_timer w;
     start_x := start_x w; next_id := next_id w;
     ghost_sheet := ghost_sheet w; running := running w |}.

Definition set_score (v : Z) (w : t) : t :=
  {| player := player w; ghosts := ghosts w; platforms := platforms w;
     adaptive := adaptive w; score := v; deaths := deaths w;
     combo_count := combo_count w; combo_timer := combo_timer w;
     start_x := start_x w; next_id := next_id w;
     ghost_sheet := ghost_sheet w; running := running w |}.

Definition set_deaths (v : Z) (w : t) : t :=
  {| player := player w; ghosts := ghosts w; platforms := platforms w;
     adaptive := adaptive w; score := score w; deaths := v;
     combo_count := combo_count w; combo_timer := combo_timer w;
     start_x := start_x w; next_id := next_id w;
     ghost_sheet := ghost_sheet w; running := running w |}.

Definition set_combo_count (v : Z) (w : t) : t :=
  {| player := player w; ghosts := ghosts w; platforms := platforms w;
     adaptive := adaptive w; score := score w; deaths := deaths w;
     combo_count := v; combo_timer := combo_timer w; start_x := start_x w;
     next_id := next_id w; ghost_sheet := ghost_sheet w;
     running := running w |}.

Definition set_combo_timer (v : Q) (w : t) : t :=
  {| player := player w; ghosts := ghosts w; platforms := platforms w;
     adaptive := adaptive w; score := score w; deaths := deaths w;
     combo_count := combo_count w; combo_timer := v; start_x := start_x w;
     next_id := next_id w; ghost_sheet := ghost_sheet w;
     running := running w |}.

Definition set_next_id (v : nat) (w : t) : t :=
  {| player := player w; ghosts := ghosts w; platforms := platforms w;
     adaptive := adaptive w; score := score w; deaths := deaths w;
     combo_count := combo_count w; combo_timer := combo_timer w;
     start_x := start_x w; next_id := v; ghost_sheet := ghost_sheet w;
     running := running w |}.

Definition set_running (v : bool) (w : t) : t :=
  {| player := player w; ghosts := ghosts w; platforms := platforms w;
     adaptive := adaptive w; score := score w; deaths := deaths w;
     combo_count := combo_count w; combo_timer := combo_timer w;
     start_x := start_x w; next_id := next_id w;
     ghost_sheet := ghost_sheet w; running := v |}.

Local Notation "w |> f" := (f w) (at level 71, left associativity, only parsing).

(** Lines 1026-1048: the state the loop starts from. *)
Definition init (width height : Z) (table : AnimKey -> nat)
  (plats : list Platform.t) (sheet : bool) : t :=
  let p := Player.init 100 (SCREEN_HEIGHT - 100) width height table in
  mk p [] plats AdaptiveEngine.init 0 0 0 0 (Rect.x (Player.rect p)) 0 sheet
     true.

Definition transition_x (w : t) : Z := (start_x w + 5 * SCREEN_WIDTH)%Z.

(** Lines 1055-1058. *)
Definition combo_phase (i : Input) (w : t) : t :=
  let w := set_combo_timer (pymax 0 (combo_timer w - dt i)) w in
  if Qeq_bool (combo_timer w) 0 then set_combo_count 0%Z w else w.

(** Lines 1060-1062. *)
Definition event_phase (i : Input) (w : t) : t :=
  if quit i then set_running false w else w.

(** Lines 1064-1067. *)
Definition update_phase (i : Input) (w : t) : t :=
  w |> set_player (Player.update (keys i) (dt i) (platforms w) (player w))
    |> set_ghosts (Group.update (dt i) (ghosts w))
    |> set_platforms (map Platform.update (platforms w)).

(** Lines 1072-1078: a new ghost is a new object. *)
Definition spawn_phase (i : Input) (w : t) : t :=
  match spawn i with
  | Some (is_sword, y) =>
      let spd := if is_sword then AdaptiveEngine.espeed (adaptive w) * (8 # 10)
                 else AdaptiveEngine.espeed (adaptive w) in
      let g := GhostEnemy.init (next_id w) is_sword (ghost_sheet w)
                 (Rect.x (Player.rect (player w)) + SCREEN_WIDTH)%Z y spd in
      w |> set_ghosts (Group.add g (ghosts w)) |> set_next_id (S (next_id w))
  | None => w
  end.

(** Lines 1092-1096: the body of the attack loop. *)
Definition attack_hit (w : t) (g : GhostEnemy.t) : t :=
  let (g', points) := GhostEnemy.take_hit g in
  w |> set_ghosts (Group.put g' (ghosts w))
    |> set_score (score w + points * (combo_count w + 1))%Z
    |> set_combo_count (combo_count w + 1)%Z
    |> set_combo_timer COMBO_TIMEOUT.

(** Lines 1089-1096. *)
Definition attack_phase (w : t) : t :=
  if is_attack (Player.state (player w)) then
    fold_left attack_hit
      (Group.spritecollide (Player.rect (player w)) (ghosts w)) w
  else w.

(** Lines 1114-1118: the respawn. *)
Definition respawn (w : t) : t :=
  let p := player w in
  w |> set_deaths (deaths w + 1)%Z
    |> set_player
         (p |> Player.set_health (Player.max_health p)
            |> Player.set_rect (Rect.set_x (start_x w) (Player.rect p)))
    |> set_combo_count 0%Z.

(** Lines 1109-1118: the body of the contact loop. *)
Definition contact_hit (w : t) (g : GhostEnemy.t) : t :=
  let p := player w in
  let p := p |> Player.set_health (Player.health p - 10)%Z
             |> Player.set_invulnerable 1 in
  let w := w |> set_player p
             |> set_ghosts (Group.put (GhostEnemy.kill g) (ghosts w)) in
  if (Player.health p <=? 0)%Z then respawn w else w.

(** Lines 1105-1118. *)
Definition contact_phase (w : t) : t :=
  if Qle_bool (Player.invulnerable (player w)) 0 then
    fold_left contact_hit
      (Group.spritecollide (Player.rect (player w)) (ghosts w)) w
  else w.

(** The ghosts that deal contact damage in [contact_phase]: those the loop
    runs over, none while the guard of line 1106 is closed. *)
Definition contact_hits (w : t) : list GhostEnemy.t :=
  if Qle_bool (Player.invulnerable (player w)) 0
  then Group.spritecollide (Player.rect (player w)) (ghosts w)
  else [].

(** Lines 1122-1131: the body of the collection loop. *)
Definition collect (p : Player.t) (k : PowerUpType) : Player.t :=
  match k with
  | PHealth =>
      Player.set_health
        (pyminZ (Player.max_health p) (Player.health p + 30)%Z) p
  | PSpeed => Player.set_powerup_speed 10 p
  | PDamage => Player.set_powerup_damage 10 p
  end.

Definition collect_phase (i : Input) (w : t) : t :=
  set_player (fold_left collect (collected i) (player w)) w.

(** Lines 1148-1151 and 1175: leaving Act I. *)
Definition transition_phase (i : Input) (w : t) : t :=
  if (transition_x w <=? Rect.x (Player.rect (player w)))%Z then
    w |> set_adaptive
           (AdaptiveEngine.update
              (AdaptiveEngine.mkPerf (deaths w) (elapsed i)) (adaptive w))
      |> set_running false
  else w.

(** The simulation up to the contact test of one iteration. *)
Definition before_contact (i : Input) (w : t) : t :=
  w |> combo_phase i |> event_phase i |> update_phase i |> spawn_phase i
    |> attack_phase.

(** One iteration of [while running]. *)
Definition frame (i : Input) (w : t) : t :=
  w |> before_contact i |> contact_phase |> collect_phase i
    |> transition_phase i.

(** The loop over a finite stream of inputs; it stops with [running]. *)
Fixpoint run (inputs : list Input) (w : t) : t :=
  match inputs with
  | [] => w
  | i :: rest => if running w then run rest (frame i w) else w
  end.

End Main.

(** ** The boss-battle player with a block state (bossbattle101.py) *)

Module BossBattle101.

Definition PLAYER_SPEED : Q := 5.
Definition JUMP_STRENGTH : Q := -10.
Definition GRAVITY : Q := 1 # 2.
Definition animation_delay : Q := 15 # 100.

Inductive State : Type := idle | run | jump | attack1 | attack2 | block.

Definition State_eqb (a b : State) : bool :=
  match a, b with
  | idle, idle | run, run | jump, jump
  | attack1, attack1 | attack2, attack2 | block, block => true
  | _, _ => false
  end.

(** [state in ("attack1", "attack2")] *)
Definition in_attack (s : State) : bool :=
  match s with attack1 | attack2 => true | _ => false end.

(** [state in ("attack1", "attack2", "block")] *)
Definition in_attack_or_block (s : State) : bool :=
  match s with attack1 | attack2 | block => true | _ => false end.

(** [animations] gives, for each state, the sizes of its frames. *)
Record t : Type := mk {
  health : Z; state : State; current_frame : nat; rect : Rect.t;
  world_x : Q; world_y : Q; vel_x : Q; vel_y : Q; on_ground : bool;
  jump_pressed : bool; jump_count : Z; max_jumps : Z;
  animation_timer : Q; animations : State -> list (Z * Z) }.

Definition set_state (v : State) (p : t) : t :=
  {| health := health p; state := v; current_frame := current_frame p;
     rect := rect p; world_x := world_x p; world_y := world_y p;
     vel_x := vel_x p; vel_y := vel_y p; on_ground := on_ground p;
     jump_pressed := jump_pressed p; jump_count := jump_count p;
     max_jumps := max_jumps p; animation_timer := animation_timer p;
     animations := animations p |}.

Definition set_current_frame (v : nat) (p : t) : t :=
  {| health := health p; state := state p; current_frame := v;
     rect := rect p; world_x := world_x p; world_y := world_y p;
     vel_x := vel_x p; vel_y := vel_y p; on_ground := on_ground p;
     jump_pressed := jump_pressed p; jump_count := jump_count p;
     max_jumps := max_jumps p; animation_timer := animation_timer p;
     animations := animations p |}.

Definition set_rect (v : Rect.t) (p : t) : t :=
  {| health := health p; state := state p; current_frame := current_frame p;
     rect := v; world_x := world_x p; world_y := world_y p; vel_x := vel_x p;
     vel_y := vel_y p; on_ground := on_ground p;
     jump_pressed := jump_pressed p; jump_count := jump_count p;
     max_jumps := max_jumps p; animation_timer := animation_timer p;
     animations := animations p |}.

Definition set_world_x (v : Q) (p : t) : t :=
  {| health := health p; state := state p; current_frame := current_frame p;
     rect := rect p; world_x := v; world_y := world_y p; vel_x := vel_x p;
     vel_y := vel_y p; on_ground := on_ground p;
     jump_pressed := jump_pressed p; jump_count := jump_count p;
     max_jumps := max_jumps p; animation_timer := animation_timer p;
     animations := animations p |}.

Definition set_world_y (v : Q) (p : t) : t :=
  {| health := health p; state := state p; current_frame := current_frame p;
     rect := rect p; world_x := world_x p; world_y := v; vel_x := vel_x p;
     vel_y := vel_y p; on_ground := on_ground p;
     jump_pressed := jump_pressed p; jump_count := jump_count p;
     max_jumps := max_jumps p; animation_timer := animation_timer p;
     animations := animations p |}.

Definition set_vel_x (v : Q) (p : t) : t :=
  {| health := health p; state := state p; current_frame := current_frame p;
     rect := rect p; world_x := world_x p; world_y := world_y p; vel_x := v;
     vel_y := vel_y p; on_ground := on_ground p;
     jump_pressed := jump_pressed p; jump_count := jump_count p;
     max_jumps := max_jumps p; animation_timer := animation_timer p;
     animations := animations p |}.

Definition set_vel_y (v : Q) (p : t) : t :=
  {| health := health p; state := state p; current_frame := current_frame p;
     rect := rect p; world_x := world_x p; world_y := world_y p;
     vel_x := vel_x p; vel_y := v; on_ground := on_ground p;
     jump_pressed := jump_pressed p; jump_count := jump_count p;
     max_jumps := max_jumps p; animation_timer := animation_timer p;
     animations := animations p |}.

Definition set_on_ground (v : bool) (p : t) : t :=
  {| health := health p; state := state p; current_frame := current_frame p;
     rect := rect p; world_x := world_x p; world_y := world_y p;
     vel_x := vel_x p; vel_y := vel_y p; on_ground := v;
     jump_pressed := jump_pressed p; jump_count := jump_count p;
     max_jumps := max_jumps p; animation_timer := animation_timer p;
     animations := animations p |}.

Definition set_jump_pressed (v : bool) (p : t) : t :=
  {| health := health p; state := state p; current_frame := current_frame p;
     rect := rect p; world_x := world_x p; world_y := world_y p;
     vel_x := vel_x p; vel_y := vel_y p; on_ground := on_ground p;
     jump_pressed := v; jump_count := jump_count p; max_jumps := max_jumps p;
     animation_timer := animation_timer p; animations := animations p |}.

Definition set_jump_count (v : Z) (p : t) : t :=
  {| health := health p; state := state p; current_frame := current_frame p;
     rect := rect p; world_x := world_x p; world_y := world_y p;
     vel_x := vel_x p; vel_y := vel_y p; on_ground := on_ground p;
     jump_pressed := jump_pressed p; jump_count := v;
     max_jumps := max_jumps p; animation_timer := animation_timer p;
     animations := animations p |}.

Definition set_animation_timer (v : Q) (p : t) : t :=
  {| health := health p; state := state p; current_frame := current_frame p;
     rect := rect p; world_x := world_x p; world_y := world_y p;
     vel_x := vel_x p; vel_y := vel_y p; on_ground := on_ground p;
     jump_pressed := jump_pressed p; jump_count := jump_count p;
     max_jumps := max_jumps p; animation_timer := v;
     animations := animations p |}.

Local Notation "p |> f" := (f p) (at level 71, left associativity, only parsing).

(** Lines 220-227: input moves the player unless it attacks or blocks. *)
Definition move_phase (keys : Keys) (p : t) : t :=
  let p :=
    if negb (in_attack_or_block (state p)) then
      set_vel_x (if K_LEFT keys then - PLAYER_SPEED
                 else if K_RIGHT keys then PLAYER_SPEED else 0) p
    else p in
  set_world_x (world_x p + vel_x p) p.

(** Lines 228-236: gravity and the floor. *)
Definition gravity_phase (p : t) : t :=
  let p := set_vel_y (vel_y p + GRAVITY) p in
  let p := set_world_y (world_y p + vel_y p) p in
  if Qle_bool (inject_Z SCREEN_HEIGHT) (world_y p + inject_Z (Rect.h (rect p)))
  then
    p |> set_world_y (inject_Z SCREEN_HEIGHT - inject_Z (Rect.h (rect p)))
      |> set_vel_y 0 |> set_on_ground true |> set_jump_count 0%Z
  else set_on_ground false p.

(** Lines 237-245: up to [max_jumps] jumps, one per key press. *)
Definition jump_phase (keys : Keys) (p : t) : t :=
  if K_SPACE keys then
    if negb (jump_pressed p) && (jump_count p <? max_jumps p)%Z then
      p |> set_vel_y JUMP_STRENGTH |> set_jump_count (jump_count p + 1)%Z
        |> set_jump_pressed true
    else p
  else set_jump_pressed false p.

(** Lines 246-258: the state priority list. *)
Definition select_state (keys : Keys) (p : t) : State :=
  if in_attack (state p) then state p
  else if K_a keys then attack1
  else if K_s keys then block
  else if negb (on_ground p) then jump
  else if negb (Qeq_bool (vel_x p) 0) then run
  else idle.

(** Lines 259-262. *)
Definition state_phase (keys : Keys) (p : t) : t :=
  let new_state := select_state keys p in
  if State_eqb new_state (state p) then p
  else p |> set_state new_state |> set_current_frame 0%nat
         |> set_animation_timer 0.

(** Lines 263-270: frame stepping; no state ever ends here. *)
Definition animate_phase (dt : Q) (p : t) : t :=
  let p := set_animation_timer (animation_timer p + dt) p in
  if Qle_bool animation_delay (animation_timer p) then
    let old_bottom := Rect.bottom (rect p) in
    let fs := animations p (state p) in
    let k := Nat.modulo (S (current_frame p)) (length fs) in
    let (width, height) := nth k fs (0, 0)%Z in
    p |> set_animation_timer 0 |> set_current_frame k
      |> set_rect (Rect.set_bottom old_bottom (Rect.mk 0 0 width height))
  else p.

(** Lines 271-272. *)
Definition sync_phase (p : t) : t :=
  set_rect (Rect.set_y (to_int (world_y p))
              (Rect.set_x (to_int (world_x p)) (rect p))) p.

(** [Player.update(dt)] *)
Definition update (keys : Keys) (dt : Q) (p : t) : t :=
  p |> move_phase keys |> gravity_phase |> jump_phase keys
    |> state_phase keys |> animate_phase dt |> sync_phase.

Fixpoint updates (inputs : list (Keys * Q)) (p : t) : t :=
  match inputs with
  | [] => p
  | (keys, dt) :: rest => updates rest (update keys dt p)
  end.

End BossBattle101.

(** ** Scenarios

    Concrete states and inputs used to run the definitions.  The player box
    is the 50 by 50 fallback frame scaled by [PLAYER_SCALE] (2.475), that is
    123 by 123. *)

Module Scenario.

Definition table3 (k : AnimKey) : nat := 3%nat.

Definition hold_jump : Keys := mkKeys false false true false false false.

(** The player as [main] creates it: bottom edge 100 above the floor. *)
Definition airborne : Player.t :=
  Player.init 100 (SCREEN_HEIGHT - 100) 123 123 table3.

(** The player standing on the floor at x = 100. *)
Definition standing : Player.t :=
  Player.set_on_ground true (Player.init 100 SCREEN_HEIGHT 123 123 table3).

Definition standing0319 : Player0319.t :=
  Player0319.mk (Rect.mk 39 1077 123 123) 0 0 true Idle KIdle 0 0 0 0 table3.

Definition airborne0319 : Player0319.t :=
  Player0319.mk (Rect.mk 39 977 123 123) 0 0 false Idle KIdle 0 0 0 0 table3.

(** A moving platform of the second act: [Platform(400, 1000, 200, 20, True)]. *)
Definition moving_platform : Platform.t := Platform.init 400 1000 200 20 true.

(** The boss-battle player on the floor, holding a block.
    [Player(200, SCREEN_HEIGHT)], three frames of 123 by 123 per state. *)
Definition frames101 (s : BossBattle101.State) : list (Z * Z) :=
  [(123, 123); (123, 123); (123, 123)]%Z.

Definition blocking : BossBattle101.t :=
  BossBattle101.mk 100 BossBattle101.block 0 (Rect.mk 200 1077 123 123)
    200 1077 0 0 true false 0 3 0 frames101.

(** Act I worlds.  The player stands at x = 839; the segment starts at
    x = 39.  Ghosts 0 and 1 overlap the player's box. *)
Definition ghost0 : GhostEnemy.t :=
  GhostEnemy.mk 0 false (Rect.mk 880 1098 61 102) 2 3 0 0 0 0 1 0 true.

Definition ghost1 : GhostEnemy.t :=
  GhostEnemy.mk 1 true (Rect.mk 800 1098 61 102) (16 # 10) 5 0 0 0 0 1 0 true.

Definition player_at_839 : Player.t :=
  Player.set_rect (Rect.mk 839 1077 123 123) standing.

(** Health 10, invulnerability 0, one ghost in contact. *)
Definition last_stand : Main.t :=
  Main.mk (Player.set_health 10 player_at_839) [ghost0] []
    AdaptiveEngine.init 50 0 2 (3 # 2) 39 1 true true.

(** Full health, invulnerability 0, two ghosts in contact. *)
Definition swarmed : Main.t :=
  Main.mk player_at_839 [ghost0; ghost1] [] AdaptiveEngine.init
    0 0 0 0 39 2 true true.

(** The player attacks while ghost 0 overlaps its box; the countdown of the
    player is running, so that no contact damage interferes. *)
Definition striking : Main.t :=
  Main.mk (Player.set_invulnerable 1 (Player.set_state Attack1 player_at_839))
    [ghost0] [] AdaptiveEngine.init 0 0 0 0 39 1 true true.

(** An iteration of 1/60 s with no key, no event, no spawn, no power-up. *)
Definition quiet : Main.Input :=
  Main.mkInput (1 # 60) false no_keys None [] 0.

(** The damage of the hits of a boss fight: one hit without the damage
    power-up, then twenty-five with it. *)
Definition boss_hits : list Q := 1 :: repeat 2 25.

Definition boss_after (hits : list Q) : Boss.t :=
  fold_left (fun b d => fst (Boss.take_hit d b)) hits Boss.init.

End Scenario.

(** ** Vocabulary of the statements *)

(** What the jump block promises, for a player type with its guard, its
    jump block and its fields. *)
Definition jump_contract {S : Type} (fires : S -> bool) (phase : S -> S)
  (coyote jump_buffer vy : S -> Q) (on_ground : S -> bool) (q : S) : Prop :=
  (fires q = true <-> 0 < coyote q /\ 0 < jump_buffer q) /\
  (fires q = true ->
     vy (phase q) = JUMP_STRENGTH /\ on_ground (phase q) = false /\
     coyote (phase q) = 0 /\ jump_buffer (phase q) = 0) /\
  (fires q = false <-> phase q = q).

(** Two player states with the same box, vertical velocity, ground flag and
    grace timers. *)
Definition same_vertical (p q : Player.t) : Prop :=
  Player.rect q = Player.rect p /\ Player.vy q = Player.vy p /\
  Player.on_ground q = Player.on_ground p /\
  Player.coyote q = Player.coyote p /\
  Player.jump_buffer q = Player.jump_buffer p.

(** A player at rest on the floor: bottom edge on the floor line, no
    velocity, no dash in progress, no jump request pending. *)
Definition at_rest (p : Player.t) : Prop :=
  Rect.bottom (Player.rect p) = SCREEN_HEIGHT /\
  Player.vx p == 0 /\ Player.vy p == 0 /\
  Player.dashing p = false /\ Player.jump_buffer p <= 0.

(** The same for the earlier player, which has no dash and no platforms. *)
Definition at_rest0319 (p : Player0319.t) : Prop :=
  Rect.bottom (Player0319.rect p) = SCREEN_HEIGHT /\
  Player0319.vx p == 0 /\ Player0319.vy p == 0 /\
  Player0319.jump_buffer p <= 0.

(** No movement, jump or dash key is held. *)
Definition idle_keys (keys : Keys) : Prop :=
  K_LEFT keys = false /\ K_RIGHT keys = false /\
  K_SPACE keys = false /\ K_LSHIFT keys = false.

(** Every platform lies above the floor line. *)
Definition above_floor (pls : list Platform.t) : Prop :=
  Forall (fun pl => (Rect.bottom (Platform.rect pl) <= SCREEN_HEIGHT)%Z) pls.

(** The three cases of the difficulty update, for an update function. *)
Definition adaptive_contract
  (upd : AdaptiveEngine.Perf -> AdaptiveEngine.t -> AdaptiveEngine.t)
  (perf : AdaptiveEngine.Perf) (a : AdaptiveEngine.t) : Prop :=
  let deaths := AdaptiveEngine.perf_deaths perf in
  let time := AdaptiveEngine.perf_time perf in
  ((3 < deaths)%Z ->
     AdaptiveEngine.diff (upd perf a)
     == Qmax (1 # 2) (AdaptiveEngine.diff a * (9 # 10)) /\
     AdaptiveEngine.espeed (upd perf a)
     == Qmax 1 (AdaptiveEngine.espeed a * (9 # 10))) /\
  ((deaths <= 3)%Z -> deaths = 0%Z -> time < 60 ->
     AdaptiveEngine.diff (upd perf a)
     == Qmin 2 (AdaptiveEngine.diff a * (11 # 10)) /\
     AdaptiveEngine.espeed (upd perf a)
     == Qmin 5 (AdaptiveEngine.espeed a * (11 # 10))) /\
  ((deaths <= 3)%Z -> deaths <> 0%Z \/ 60 <= time ->
     AdaptiveEngine.diff (upd perf a) = AdaptiveEngine.diff a /\
     AdaptiveEngine.espeed (upd perf a) = AdaptiveEngine.espeed a).

(** The invariant of an oscillating platform: it is within one step of its
    range and, when beyond the range, already heading back. *)
Definition platform_inv (p : Platform.t) : Prop :=
  (Platform.direction p = 1 \/ Platform.direction p = -1)%Z /\
  (0 <= Platform.move_speed p)%Z /\ (0 <= Platform.move_range p)%Z /\
  (Z.abs (Platform.displacement p)
   <= Platform.move_range p + Platform.move_speed p)%Z /\
  (Platform.move_range p < Platform.displacement p ->
   Platform.direction p = -1)%Z /\
  (Platform.displacement p < - Platform.move_range p ->
   Platform.direction p = 1)%Z.

(** The priority list of the state machine, first match wins: a current
    attack is kept, then the attack input, then the second input, then an
    airborne body, then a moving body, then idle. *)
Definition priority {S : Type} (attacking : bool) (current : S)
  (attack_input second_input on_ground moving : bool)
  (s_attack s_second s_jump s_run s_idle : S) : S :=
  if attacking then current
  else if attack_input then s_attack
  else if second_input then s_second
  else if negb on_ground then s_jump
  else if moving then s_run
  else s_idle.

(** The first rule as the specification words it for the block variant: a
    current attack or block state is kept. *)
Definition select_state_claimed (keys : Keys) (p : BossBattle101.t)
  : BossBattle101.State :=
  priority (BossBattle101.in_attack_or_block (BossBattle101.state p))
    (BossBattle101.state p) (K_a keys) (K_s keys)
    (BossBattle101.on_ground p)
    (negb (Qeq_bool (BossBattle101.vel_x p) 0))
    BossBattle101.attack1 BossBattle101.block BossBattle101.jump
    BossBattle101.run BossBattle101.idle.

(** The ghosts of a world are distinct objects, all created before the
    next one to come. *)
Definition distinct_ghosts (w : Main.t) : Prop :=
  NoDup (Group.ids (Main.ghosts w)) /\
  forall id, In id (Group.ids (Main.ghosts w)) -> (id < Main.next_id w)%nat.

(** The identities of the ghosts that deal contact damage in the iteration
    run on input [i] from world [w]. *)
Definition damagers (i : Main.Input) (w : Main.t) : list nat :=
  Group.ids (Main.contact_hits (Main.before_contact i w)).

(** The damagers of every iteration of a run, in order. *)
Fixpoint damage_log (inputs : list Main.Input) (w : Main.t)
  : list (list nat) :=
  match inputs with
  | [] => []
  | i :: rest =>
      if Main.running w
      then damagers i w :: damage_log rest (Main.frame i w)
      else []
  end.

(** The player's health after one contact hit on world [w]. *)
Definition health_after_contact (w : Main.t) : Z :=
  let h := (Player.health (Main.player w) - 10)%Z in
  if (h <=? 0)%Z then Player.max_health (Main.player w) else h.

(** Group [grp'] holds no sprite that [grp] did not hold, and holds each
    at most once if [grp] does. *)
Definition shrinks (grp' grp : Group.t) : Prop :=
  incl (Group.ids grp') (Group.ids grp) /\
  (NoDup (Group.ids grp) -> NoDup (Group.ids grp')).


(** ** Vocabulary of the further properties *)

(** The frame list shown belongs to the state and the frame index is one
    of its frames. *)
Definition anim_valid (p : Player.t) : Prop :=
  Player.frames p = anims_get (Player.state p) /\
  (Player.idx p < Player.anims p (Player.frames p))%nat.

Definition anim_valid0319 (p : Player0319.t) : Prop :=
  Player0319.frames p = anims_get (Player0319.state p) /\
  (Player0319.idx p < Player0319.anims p (Player0319.frames p))%nat.

(** The guard of the dash start (hamlets_descent034.py, line 479), at the
    instant it is evaluated in an update of [p]. *)
Definition dash_starts (keys : Keys) (dt : Q) (p : Player.t) : bool :=
  K_LSHIFT keys && Qeq_bool (pymax 0 (Player.dash_cooldown p - dt)) 0
  && negb (Player.dashing p).

(** A run of updates, each with its keys, time step and platforms. *)
Fixpoint player_run (inputs : list (Keys * Q * list Platform.t))
  (p : Player.t) : Player.t :=
  match inputs with
  | [] => p
  | (keys, dt, pls) :: rest => player_run rest (Player.update keys dt pls p)
  end.

(** Does a dash start in some update of the run? *)
Fixpoint dash_starts_in_run (inputs : list (Keys * Q * list Platform.t))
  (p : Player.t) : bool :=
  match inputs with
  | [] => false
  | (keys, dt, pls) :: rest =>
      dash_starts keys dt p
      || dash_starts_in_run rest (Player.update keys dt pls p)
  end.

(** The time a run takes. *)
Fixpoint run_time (inputs : list (Keys * Q * list Platform.t)) : Q :=
  match inputs with
  | [] => 0
  | (_, dt, _) :: rest => dt + run_time rest
  end.


(** Two player states with the same animation fields and the same health. *)
Definition same_animation (p q : Player.t) : Prop :=
  Player.state q = Player.state p /\ Player.frames q = Player.frames p /\
  Player.idx q = Player.idx p /\ Player.timer q = Player.timer p /\
  Player.anims q = Player.anims p /\
  Player.health q = Player.health p /\
  Player.max_health q = Player.max_health p.


(** Two player states with the same countdowns outside the jump. *)
Definition same_countdowns (p q : Player.t) : Prop :=
  Player.invulnerable q = Player.invulnerable p /\
  Player.dash_cooldown q = Player.dash_cooldown p /\
  Player.powerup_speed q = Player.powerup_speed p /\
  Player.powerup_damage q = Player.powerup_damage p.

(** Every time step of the run is nonnegative. *)
Definition forward_in_time (inputs : list (Keys * Q * list Platform.t))
  : Prop :=
  Forall (fun i => 0 <= snd (fst i)) inputs.


(** ** The player of Hamlet_descent0318.py

    Its update (lines 155-197) is, statement for statement, the update of
    Hamlet_descent0319.py followed by the clamp of [rect.x] to the level. *)

Module Player0318.

Definition LEVEL_WIDTH : Z := 10 * SCREEN_WIDTH.

(** Line 197: [rect.x = max(0, min(rect.x, LEVEL_WIDTH - rect.width))]. *)
Definition clamp_x (x width : Z) : Z :=
  let m := pyminZ x (LEVEL_WIDTH - width) in
  if (0 <? m)%Z then m else 0%Z.

Definition clamp_phase (p : Player0319.t) : Player0319.t :=
  Player0319.set_rect
    (Rect.set_x
       (clamp_x (Rect.x (Player0319.rect p)) (Rect.w (Player0319.rect p)))
       (Player0319.rect p)) p.

Definition update (keys : Keys) (dt : Q) (p : Player0319.t) : Player0319.t :=
  clamp_phase (Player0319.update keys dt p).

End Player0318.

(** ** Runs of ghost methods *)

(** [n] hits in a row on a ghost, with the points they return; a ghost that
    was killed is in no group and is hit no more. *)
Fixpoint take_hits (n : nat) (g : GhostEnemy.t) : GhostEnemy.t * Z :=
  match n with
  | O => (g, 0%Z)
  | S k =>
      let (g1, points) := take_hits k g in
      if GhostEnemy.alive g1 then
        let (g2, more) := GhostEnemy.take_hit g1 in (g2, (points + more)%Z)
      else (g1, points)
  end.

(** The updates of a ghost over the time steps [dts]. *)
Fixpoint ghost_updates (dts : list Q) (g : GhostEnemy.t) : GhostEnemy.t :=
  match dts with
  | [] => g
  | dt :: rest => ghost_updates rest (GhostEnemy.update dt g)
  end.

(** The lookup [self.frames[self.row][self.idx]] of a ghost is in range:
    three rows (a row index from -3 to 2 in Python, here from -1) of five
    frames. *)
Definition ghost_frame_ok (g : GhostEnemy.t) : Prop :=
  (GhostEnemy.idx g < 5)%nat /\
  (-1 <= GhostEnemy.row g <= 2)%Z /\ (GhostEnemy.health g <= 5)%Z.


(** ** Runs of the difficulty engine *)

(** The engine after the updates of several segments. *)
Fixpoint adaptive_updates (perfs : list AdaptiveEngine.Perf)
  (a : AdaptiveEngine.t) : AdaptiveEngine.t :=
  match perfs with
  | [] => a
  | perf :: rest => adaptive_updates rest (AdaptiveEngine.update perf a)
  end.

(** The three knobs are within the bounds written in the update. *)
Definition adaptive_in_range (a : AdaptiveEngine.t) : Prop :=
  (1 # 2 <= AdaptiveEngine.diff a /\ AdaptiveEngine.diff a <= 2) /\
  (1 <= AdaptiveEngine.espeed a /\ AdaptiveEngine.espeed a <= 5) /\
  (5 # 1000 <= AdaptiveEngine.spawn_rate a /\
   AdaptiveEngine.spawn_rate a <= 2 # 100).

(** The player's health is positive and at most its maximum. *)
Definition health_in_range (p : Player.t) : Prop :=
  (0 < Player.health p <= Player.max_health p)%Z.


(** ** Crows (hamlets_descent034.py, class EnemyCrow)

    The class has [__init__] and [update] and no [take_hit].  The draw
    [random.random() < 0.005] of the dive, made only while the crow is not
    diving, is the input [roll]. *)

Module EnemyCrow.

Record t : Type := mk {
  gid : nat; rect : Rect.t; speed : Q; idx : nat; timer : Q;
  dive_speed : Q; diving : bool; alive : bool }.

Definition delay : Q := 15 # 100.

Definition set_rect (v : Rect.t) (c : t) : t :=
  {| gid := gid c; rect := v; speed := speed c; idx := idx c;
     timer := timer c; dive_speed := dive_speed c; diving := diving c;
     alive := alive c |}.

Definition set_idx (v : nat) (c : t) : t :=
  {| gid := gid c; rect := rect c; speed := speed c; idx := v;
     timer := timer c; dive_speed := dive_speed c; diving := diving c;
     alive := alive c |}.

Definition set_timer (v : Q) (c : t) : t :=
  {| gid := gid c; rect := rect c; speed := speed c; idx := idx c;
     timer := v; dive_speed := dive_speed c; diving := diving c;
     alive := alive c |}.

Definition set_dive_speed (v : Q) (c : t) : t :=
  {| gid := gid c; rect := rect c; speed := speed c; idx := idx c;
     timer := timer c; dive_speed := v; diving := diving c;
     alive := alive c |}.

Definition set_diving (v : bool) (c : t) : t :=
  {| gid := gid c; rect := rect c; speed := speed c; idx := idx c;
     timer := timer c; dive_speed := dive_speed c; diving := v;
     alive := alive c |}.

Definition set_alive (v : bool) (c : t) : t :=
  {| gid := gid c; rect := rect c; speed := speed c; idx := idx c;
     timer := timer c; dive_speed := dive_speed c; diving := diving c;
     alive := v |}.

(** [EnemyCrow(x, y, speed)], for a frame of [width] by [height]. *)
Definition init (id : nat) (x y width height : Z) (spd : Q) : t :=
  mk id (Rect.mk x y width height) spd 0 0 0 false true.

Definition kill (c : t) : t := set_alive false c.

(** Lines 316-325: the dive. *)
Definition dive_phase (roll : bool) (c : t) : t :=
  let c := if negb (diving c) && roll
           then set_dive_speed 8 (set_diving true c) else c in
  if diving c then
    let c := set_rect (Rect.add_y (dive_speed c) (rect c)) c in
    let c := set_dive_speed (pymax (-8) (dive_speed c - (3 # 10))) c in
    if Qltb (dive_speed c) (-7) then set_diving false c else c
  else c.

(** [EnemyCrow.update(dt)] *)
Definition update (roll : bool) (dt : Q) (c : t) : t :=
  let c := set_rect (Rect.add_x (- speed c) (rect c)) c in
  let c := dive_phase roll c in
  let c := set_timer (timer c + dt) c in
  let c := if Qle_bool delay (timer c)
           then set_timer 0 (set_idx (Nat.modulo (S (idx c)) 2) c) else c in
  if (Rect.right (rect c) <? 0)%Z || (SCREEN_HEIGHT <? Rect.top (rect c))%Z
  then kill c else c.

End EnemyCrow.

(** ** The enemies of Act II: ghosts and crows in one group *)

Inductive Enemy : Type :=
| Ghost (g : GhostEnemy.t)
| Crow (c : EnemyCrow.t).

(** The result of a statement that may raise: a method looked up on an
    object whose class does not define it raises [AttributeError], which
    nothing in the scripts catches. *)
Inductive Result (A : Type) : Type :=
| Ok (a : A)
| AttributeError.

Arguments Ok {A} a.
Arguments AttributeError {A}.

Module Enemies.

Definition gid (e : Enemy) : nat :=
  match e with Ghost g => GhostEnemy.gid g | Crow c => EnemyCrow.gid c end.

Definition rect (e : Enemy) : Rect.t :=
  match e with Ghost g => GhostEnemy.rect g | Crow c => EnemyCrow.rect c end.

Definition alive (e : Enemy) : bool :=
  match e with Ghost g => GhostEnemy.alive g | Crow c => EnemyCrow.alive c end.

Definition is_crow (e : Enemy) : bool :=
  match e with Ghost _ => false | Crow _ => true end.

Definition kill (e : Enemy) : Enemy :=
  match e with
  | Ghost g => Ghost (GhostEnemy.kill g)
  | Crow c => Crow (EnemyCrow.kill c)
  end.

(** [enemy.update(dt)]; [rolls] gives the dive draw of each crow. *)
Definition update (rolls : nat -> bool) (dt : Q) (e : Enemy) : Enemy :=
  match e with
  | Ghost g => Ghost (GhostEnemy.update dt g)
  | Crow c => Crow (EnemyCrow.update (rolls (EnemyCrow.gid c)) dt c)
  end.

(** [enemy.take_hit()] *)
Definition take_hit (e : Enemy) : Result (Enemy * Z) :=
  match e with
  | Ghost g => let (g', points) := GhostEnemy.take_hit g in
               Ok (Ghost g', points)
  | Crow _ => AttributeError
  end.

Definition same (e f : Enemy) : bool := Nat.eqb (gid e) (gid f).

(** Write back a sprite after one of its methods ran. *)
Definition put (e : Enemy) (grp : list Enemy) : list Enemy :=
  if alive e
  then map (fun f => if same e f then e else f) grp
  else filter (fun f => negb (same e f)) grp.

Definition group_update (rolls : nat -> bool) (dt : Q) (grp : list Enemy)
  : list Enemy :=
  filter alive (map (update rolls dt) grp).

Definition spritecollide (r : Rect.t) (grp : list Enemy) : list Enemy :=
  filter (fun e => Rect.colliderect r (rect e)) grp.

End Enemies.

(** ** The Act II loop (hamlets_descent034.py, main_level2, lines 853-991) *)

Inductive EnemyKind : Type := KCrow | KGhost | KSword.

(** How an iteration of a level loop ends: the loop goes on, the function
    returns [(score, False)] or [(score, True)], the process exits on a QUIT
    event, or an exception leaves the function. *)
Inductive Outcome (W : Type) : Type :=
| Running (w : W)
| GameOver (w : W)
| Victory (w : W)
| Exited
| Raised.

Arguments Running {W} w.
Arguments GameOver {W} w.
Arguments Victory {W} w.
Arguments Exited {W}.
Arguments Raised {W}.

Module Level2.

Record t : Type := mk {
  player : Player.t; enemies : list Enemy; platforms : list Platform.t;
  adaptive : AdaptiveEngine.t;
  score : Z; combo_count : Z; combo_timer : Q; combo_master : bool;
  next_id : nat; ghost_sheet : bool; crow_width : Z; crow_height : Z }.

(** What one iteration reads from outside the simulation: the clock, the
    event queue, the keyboard, the dive draw of each crow, the draws of the
    spawner and the power-ups the collision test hands over. *)
Record Input : Type := mkInput {
  dt : Q; quit : bool; keys : Keys;
  rolls : nat -> bool;
  spawn : option (EnemyKind * Z);
  collected : list PowerUpType }.

Definition set_player (v : Player.t) (w : t) : t :=
  {| player := v; enemies := enemies w; platforms := platforms w;
     adaptive := adaptive w; score := score w; combo_count := combo_count w;
     combo_timer := combo_timer w; combo_master := combo_master w;
     next_id := next_id w; ghost_sheet := ghost_sheet w;
     crow_width := crow_width w; crow_height := crow_height w |}.

Definition set_enemies (v : list Enemy) (w : t) : t :=
  {| player := player w; enemies := v; platforms := platforms w;
     adaptive := adaptive w; score := score w; combo_count := combo_count w;
     combo_timer := combo_timer w; combo_master := combo_master w;
     next_id := next_id w; ghost_sheet := ghost_sheet w;
     crow_width := crow_width w; crow_height := crow_height w |}.

Definition set_platforms (v : list Platform.t) (w : t) : t :=
  {| player := player w; enemies := enemies w; platforms := v;
     adaptive := adaptive w; score := score w; combo_count := combo_count w;
     combo_timer := combo_timer w; combo_master := combo_master w;
     next_id := next_id w; ghost_sheet := ghost_sheet w;
     crow_width := crow_width w; crow_height := crow_height w |}.

Definition set_score (v : Z) (w : t) : t :=
  {| player := player w; enemies := enemies w; platforms := platforms w;
     adaptive := adaptive w; score := v; combo_count := combo_count w;
     combo_timer := combo_timer w; combo_master := combo_master w;
     next_id := next_id w; ghost_sheet := ghost_sheet w;
     crow_width := crow_width w; crow_height := crow_height w |}.

Definition set_combo_count (v : Z) (w : t) : t :=
  {| player := player w; enemies := enemies w; platforms := platforms w;
     adaptive := adaptive w; score := score w; combo_count := v;
     combo_timer := combo_timer w; combo_master := combo_master w;
     next_id := next_id w; ghost_sheet := ghost_sheet w;
     crow_width := crow_width w; crow_height := crow_height w |}.

Definition set_combo_timer (v : Q) (w : t) : t :=
  {| player := player w; enemies := enemies w; platforms := platforms w;
     adaptive := adaptive w; score := score w; combo_count := combo_count w;
     combo_timer := v; combo_master := combo_master w; next_id := next_id w;
     ghost_sheet := ghost_sheet w; crow_width := crow_width w;
     crow_height := crow_height w |}.

Definition set_combo_master (v : bool) (w : t) : t :=
  {| player := player w; enemies := enemies w; platforms := platforms w;
     adaptive := adaptive w; score := score w; combo_count := combo_count w;
     combo_timer := combo_timer w; combo_master := v; next_id := next_id w;
     ghost_sheet := ghost_sheet w; crow_width := crow_width w;
     crow_height := crow_height w |}.

Definition set_next_id (v : nat) (w : t) : t :=
  {| player := player w; enemies := enemies w; platforms := platforms w;
     adaptive := adaptive w; score := score w; combo_count := combo_count w;
     combo_timer := combo_timer w; combo_master := combo_master w;
     next_id := v; ghost_sheet := ghost_sheet w; crow_width := crow_width w;
     crow_height := crow_height w |}.

Local Notation "w |> f" := (f w) (at level 71, left associativity, only parsing).

(** Lines 856-859. *)
Definition combo_phase (i : Input) (w : t) : t :=
  let w := set_combo_timer (pymax 0 (combo_timer w - dt i)) w in
  if Qeq_bool (combo_timer w) 0 then set_combo_count 0%Z w else w.

(** Lines 865-868. *)
Definition update_phase (i : Input) (w : t) : t :=
  w |> set_player (Player.update (keys i) (dt i) (platforms w) (player w))
    |> set_platforms (map Platform.update (platforms w))
    |> set_enemies (Enemies.group_update (rolls i) (dt i) (enemies w)).

(** Lines 874-883: a new enemy is a new object. *)
Definition spawn_phase (i : Input) (w : t) : t :=
  match spawn i with
  | Some (kind, y) =>
      let x := (Rect.x (Player.rect (player w)) + SCREEN_WIDTH)%Z in
      let spd := AdaptiveEngine.espeed (adaptive w) in
      let e :=
        match kind with
        | KCrow => Crow (EnemyCrow.init (next_id w) x y (crow_width w)
                           (crow_height w) spd)
        | KGhost => Ghost (GhostEnemy.init (next_id w) false (ghost_sheet w)
                             x y spd)
        | KSword => Ghost (GhostEnemy.init (next_id w) true (ghost_sheet w)
                             x y (spd * (7 # 10)))
        end in
      w |> set_enemies (enemies w ++ [e]) |> set_next_id (S (next_id w))
  | None => w
  end.

(** Lines 898-912: the body of the attack loop. *)
Definition attack_hit (w : t) (e : Enemy) : Result t :=
  match Enemies.take_hit e with
  | Ok (e', points) =>
      let w := w |> set_enemies (Enemies.put e' (enemies w))
                 |> set_score (score w + points * (combo_count w + 1))%Z
                 |> set_combo_count (combo_count w + 1)%Z
                 |> set_combo_timer COMBO_TIMEOUT in
      Ok (if (5 <=? combo_count w)%Z && negb (combo_master w)
          then set_combo_master true w else w)
  | AttributeError => AttributeError
  end.

Fixpoint attack_loop (hits : list Enemy) (w : t) : Result t :=
  match hits with
  | [] => Ok w
  | e :: rest =>
      match attack_hit w e with
      | Ok w' => attack_loop rest w'
      | AttributeError => AttributeError
      end
  end.

(** Lines 895-912. *)
Definition attack_phase (w : t) : Result t :=
  if is_attack (Player.state (player w)) then
    attack_loop (Enemies.spritecollide (Player.rect (player w)) (enemies w)) w
  else Ok w.

(** Lines 918-922: the body of the contact loop. *)
Definition contact_hit (w : t) (e : Enemy) : t :=
  let p := player w in
  w |> set_player (p |> Player.set_health (Player.health p - 10)%Z
                     |> Player.set_invulnerable 1)
    |> set_enemies (Enemies.put (Enemies.kill e) (enemies w)).

(** The enemies the contact loop runs over. *)
Definition contact_hits (w : t) : list Enemy :=
  if Qle_bool (Player.invulnerable (player w)) 0
  then Enemies.spritecollide (Player.rect (player w)) (enemies w)
  else [].

(** Lines 915-922. *)
Definition contact_phase (w : t) : t :=
  fold_left contact_hit (contact_hits w) w.

(** Lines 925-934. *)
Definition collect_phase (i : Input) (w : t) : t :=
  set_player (fold_left Main.collect (collected i) (player w)) w.

(** The simulation up to the attack test of one iteration. *)
Definition before_attack (i : Input) (w : t) : t :=
  w |> combo_phase i |> update_phase i |> spawn_phase i.

(** One iteration of the loop, lines 854-991. *)
Definition frame (i : Input) (w : t) : Outcome t :=
  let w := combo_phase i w in
  if quit i then Exited else
  let w := w |> update_phase i |> spawn_phase i in
  match attack_phase w with
  | AttributeError => Raised
  | Ok w =>
      let w := w |> contact_phase |> collect_phase i in
      if (Player.health (player w) <=? 0)%Z then GameOver w else Running w
  end.

End Level2.

(** ** Projectiles (hamlets_descent034.py, class Projectile) *)

Definition LEVEL_WIDTH : Z := 10 * SCREEN_WIDTH.

Module Projectile.

Record t : Type := mk {
  gid : nat; rect : Rect.t; vx : Q; vy : Q; alive : bool }.

(** [Projectile(x, y, vx, vy)]: a 10 by 10 box centred on [(x, y)]. *)
Definition init (id : nat) (x y : Z) (vx vy : Q) : t :=
  mk id (Rect.mk (x - 5) (y - 5) 10 10) vx vy true.

(** [Projectile.update(dt)] *)
Definition update (p : t) : t :=
  let r := Rect.add_y (vy p) (Rect.add_x (vx p) (rect p)) in
  mk (gid p) r (vx p) (vy p)
     (if (Rect.right r <? 0)%Z || (LEVEL_WIDTH <? Rect.left r)%Z ||
         (Rect.bottom r <? 0)%Z || (SCREEN_HEIGHT <? Rect.top r)%Z
      then false else alive p).

End Projectile.

(** ** The boss's attack patterns (class Boss, update and execute_attack)

    The boss of the record [Boss.t] together with its box.  The hover value
    [math.sin(pygame.time.get_ticks() * 0.002) * 2] is the input [hover];
    the velocities [math.cos(angle) * 5] and [math.sin(angle) * 5] of shot
    number [i] are the input table [octant].  The argument [player_pos] is
    read into [dx] and [dy], which are not used. *)

Inductive Attack : Type :=
| Shot (x y : Z) (vx vy : Q)
| Summon (x y : Z).

Module BossAI.

Record t : Type := mk { boss : Boss.t; rect : Rect.t }.

Definition size : Z := 150.

(** [Boss(x, y)]: a 150 by 150 box centred on [(x, y)]. *)
Definition init (x y : Z) : t :=
  mk Boss.init (Rect.mk (x - size / 2) (y - size / 2) size size).

Definition centerx (r : Rect.t) : Z := (Rect.x r + Rect.w r / 2)%Z.
Definition centery (r : Rect.t) : Z := (Rect.y r + Rect.h r / 2)%Z.

(** [Boss.execute_attack()] *)
Definition execute_attack (octant : nat -> Q * Q) (s : t) : list Attack :=
  let cx := centerx (rect s) in
  let cy := centery (rect s) in
  if (Boss.attack_pattern (boss s) =? 0)%Z then
    map (fun i => Shot cx cy (fst (octant i)) (snd (octant i))) (seq 0 8)
  else if (Boss.attack_pattern (boss s) =? 1)%Z then
    map (fun i => Summon (cx + (i - 1) * 100)%Z cy) [0; 1; 2]%Z
  else [].

(** The attack of lines 372-375 and 378-381: next pattern, timer back to
    zero. *)
Definition fire (patterns : Z) (octant : nat -> Q * Q) (s : t)
  : t * list Attack :=
  let b := boss s in
  let s := mk (Boss.mk (Boss.health b) (Boss.max_health b) (Boss.phase b) 0
                 ((Boss.attack_pattern b + 1) mod patterns)%Z (Boss.alive b))
              (rect s) in
  (s, execute_attack octant s).

(** Lines 366-368: the change of phase. *)
Definition phase_step (b : Boss.t) : Boss.t :=
  if Qltb (Boss.health b) (Boss.max_health b * (1 # 2)) &&
     (Boss.phase b =? 1)%Z
  then Boss.mk (Boss.health b) (Boss.max_health b) 2 (Boss.attack_timer b)
         (Boss.attack_pattern b) (Boss.alive b)
  else b.

(** [Boss.update(dt, player_pos)]: the boss and the attacks it returns. *)
Definition update (dt hover : Q) (octant : nat -> Q * Q) (s : t)
  : t * list Attack :=
  let r := Rect.add_y hover (rect s) in
  let b := boss s in
  let b := Boss.mk (Boss.health b) (Boss.max_health b) (Boss.phase b)
             (Boss.attack_timer b + dt) (Boss.attack_pattern b)
             (Boss.alive b) in
  let b := phase_step b in
  let s := mk b r in
  if (Boss.phase b =? 1)%Z then
    if Qltb 3 (Boss.attack_timer b) then fire 2 octant s else (s, [])
  else
    if Qltb 2 (Boss.attack_timer b) then fire 3 octant s else (s, []).

End BossAI.

(** ** The boss fight (hamlets_descent034.py, boss_fight, lines 656-832)

    [Sprite.alive()] of the framework tells whether the sprite belongs to at
    least one group.  [boss_grouped] records that for the boss; the flag
    [Boss.alive] records that [kill()] has not been called.  [Boss(...)] is
    created in no group (line 658) and no line of [boss_fight] adds it to
    one. *)

Module BossFight.

Record t : Type := mk {
  player : Player.t; boss : BossAI.t; boss_grouped : bool;
  enemies : Group.t; projectiles : list Projectile.t;
  platforms : list Platform.t; adaptive : AdaptiveEngine.t;
  score : Z; combo_count : Z; boss_defeated : bool;
  next_id : nat; ghost_sheet : bool }.

(** What one iteration reads from outside the simulation. *)
Record Input : Type := mkInput {
  dt : Q; quit : bool; keys : Keys;
  hover : Q; octant : nat -> Q * Q }.

Definition set_player (v : Player.t) (w : t) : t :=
  {| player := v; boss := boss w; boss_grouped := boss_grouped w;
     enemies := enemies w; projectiles := projectiles w;
     platforms := platforms w; adaptive := adaptive w; score := score w;
     combo_count := combo_count w; boss_defeated := boss_defeated w;
     next_id := next_id w; ghost_sheet := ghost_sheet w |}.

Definition set_boss (v : BossAI.t) (w : t) : t :=
  {| player := player w; boss := v; boss_grouped := boss_grouped w;
     enemies := enemies w; projectiles := projectiles w;
     platforms := platforms w; adaptive := adaptive w; score := score w;
     combo_count := combo_count w; boss_defeated := boss_defeated w;
     next_id := next_id w; ghost_sheet := ghost_sheet w |}.

Definition set_enemies (v : Group.t) (w : t) : t :=
  {| player := player w; boss := boss w; boss_grouped := boss_grouped w;
     enemies := v; projectiles := projectiles w; platforms := platforms w;
     adaptive := adaptive w; score := score w; combo_count := combo_count w;
     boss_defeated := boss_defeated w; next_id := next_id w;
     ghost_sheet := ghost_sheet w |}.

Definition set_projectiles (v : list Projectile.t) (w : t) : t :=
  {| player := player w; boss := boss w; boss_grouped := boss_grouped w;
     enemies := enemies w; projectiles := v; platforms := platforms w;
     adaptive := adaptive w; score := score w; combo_count := combo_count w;
     boss_defeated := boss_defeated w; next_id := next_id w;
     ghost_sheet := ghost_sheet w |}.

Definition set_platforms (v : list Platform.t) (w : t) : t :=
  {| player := player w; boss := boss w; boss_grouped := boss_grouped w;
     enemies := enemies w; projectiles := projectiles w; platforms := v;
     adaptive := adaptive w; score := score w; combo_count := combo_count w;
     boss_defeated := boss_defeated w; next_id := next_id w;
     ghost_sheet := ghost_sheet w |}.

Definition set_score (v : Z) (w : t) : t :=
  {| player := player w; boss := boss w; boss_grouped := boss_grouped w;
     enemies := enemies w; projectiles := projectiles w;
     platforms := platforms w; adaptive := adaptive w; score := v;
     combo_count := combo_count w; boss_defeated := boss_defeated w;
     next_id := next_id w; ghost_sheet := ghost_sheet w |}.

Definition set_boss_defeated (v : bool) (w : t) : t :=
  {| player := player w; boss := boss w; boss_grouped := boss_grouped w;
     enemies := enemies w; projectiles := projectiles w;
     platforms := platforms w; adaptive := adaptive w; score := score w;
     combo_count := combo_count w; boss_defeated := v; next_id := next_id w;
     ghost_sheet := ghost_sheet w |}.

Definition set_next_id (v : nat) (w : t) : t :=
  {| player := player w; boss := boss w; boss_grouped := boss_grouped w;
     enemies := enemies w; projectiles := projectiles w;
     platforms := platforms w; adaptive := adaptive w; score := score w;
     combo_count := combo_count w; boss_defeated := boss_defeated w;
     next_id := v; ghost_sheet := ghost_sheet w |}.

Local Notation "w |> f" := (f w) (at level 71, left associativity, only parsing).

(** Lines 658-671: the state the loop starts from. *)
Definition init (p : Player.t) (sc cc : Z) (a : AdaptiveEngine.t)
  (sheet : bool) : t :=
  mk p (BossAI.init (SCREEN_WIDTH / 2 + 400) (SCREEN_HEIGHT / 2)) false [] []
     [Platform.init (SCREEN_WIDTH / 4) (SCREEN_HEIGHT - 200) 200 20 false;
      Platform.init (3 * SCREEN_WIDTH / 4) (SCREEN_HEIGHT - 300) 200 20 false;
      Platform.init (SCREEN_WIDTH / 2) (SCREEN_HEIGHT - 400) 300 20 true]
     a sc cc false 0 sheet.

(** [boss.alive()] *)
Definition boss_alive (w : t) : bool :=
  boss_grouped w && Boss.alive (BossAI.boss (boss w)).

(** [player.rect.colliderect(boss.rect)] *)
Definition touches_boss (w : t) : bool :=
  Rect.colliderect (Player.rect (player w)) (BossAI.rect (boss w)).

Definition hits_player (w : t) (p : Projectile.t) : bool :=
  Rect.colliderect (Player.rect (player w)) (Projectile.rect p).

(** Lines 688-691. *)
Definition update_phase (i : Input) (w : t) : t :=
  w |> set_player (Player.update (keys i) (dt i) (platforms w) (player w))
    |> set_platforms (map Platform.update (platforms w))
    |> set_enemies (Group.update (dt i) (enemies w))
    |> set_projectiles
         (filter Projectile.alive (map Projectile.update (projectiles w))).

(** Lines 696-700: the body of the loop over the attacks. *)
Definition launch (w : t) (a : Attack) : t :=
  match a with
  | Shot x y vx vy =>
      w |> set_projectiles
             (projectiles w ++ [Projectile.init (next_id w) x y vx vy])
        |> set_next_id (S (next_id w))
  | Summon x y =>
      w |> set_enemies
             (Group.add
                (GhostEnemy.init (next_id w) false (ghost_sheet w) x y
                   (AdaptiveEngine.espeed (adaptive w))) (enemies w))
        |> set_next_id (S (next_id w))
  end.

(** Lines 694-702. *)
Definition boss_phase (i : Input) (w : t) : t :=
  if boss_alive w then
    let (b, attacks) := BossAI.update (dt i) (hover i) (octant i) (boss w) in
    fold_left launch attacks (set_boss b w)
  else set_boss_defeated true w.

(** Lines 710-713. *)
Definition strike_boss (w : t) : t :=
  if boss_alive w && touches_boss w then
    let (b, points) :=
      Boss.take_hit (Player.damage_multiplier (player w))
        (BossAI.boss (boss w)) in
    w |> set_boss (BossAI.mk b (BossAI.rect (boss w)))
      |> set_score (score w + points)%Z
  else w.

(** Lines 723-725: the body of the loop over the enemies hit. *)
Definition strike_enemy (w : t) (g : GhostEnemy.t) : t :=
  let (g', points) := GhostEnemy.take_hit g in
  w |> set_enemies (Group.put g' (enemies w))
    |> set_score (score w + points * (combo_count w + 1))%Z.

(** Lines 708-731. *)
Definition combat_phase (w : t) : t :=
  if is_attack (Player.state (player w)) then
    let w := strike_boss w in
    fold_left strike_enemy
      (Group.spritecollide (Player.rect (player w)) (enemies w)) w
  else w.

Definition hurt (amount : Z) (grace : Q) (w : t) : t :=
  let p := player w in
  set_player (p |> Player.set_health (Player.health p - amount)%Z
                |> Player.set_invulnerable grace) w.

(** Lines 734-748. *)
Definition damage_phase (w : t) : t :=
  if Qle_bool (Player.invulnerable (player w)) 0 then
    let enemy_hits :=
      Group.spritecollide (Player.rect (player w)) (enemies w) in
    let proj_hits := filter (hits_player w) (projectiles w) in
    let w := set_projectiles
               (filter (fun p => negb (hits_player w p)) (projectiles w)) w in
    let w := match enemy_hits, proj_hits with
             | [], [] => w
             | _, _ => hurt 10 1 w
             end in
    if boss_alive w && touches_boss w then hurt 20 (15 # 10) w else w
  else w.

(** The body of the loop, lines 681-829. *)
Definition body (i : Input) (w : t) : Outcome t :=
  if quit i then Exited else
  let w := w |> update_phase i |> boss_phase i |> combat_phase
             |> damage_phase in
  if (Player.health (player w) <=? 0)%Z then GameOver w else Running w.

(** [boss_fight] over a finite stream of inputs: the loop runs while
    [boss_defeated] is false and the function returns [(score, True)] when
    it ends. *)
Fixpoint run (inputs : list Input) (w : t) : Outcome t :=
  if boss_defeated w then Victory w else
  match inputs with
  | [] => Running w
  | i :: rest =>
      match body i w with
      | Running w' => run rest w'
      | o => o
      end
  end.

End BossFight.

(** The dive speed of a crow stays where the dive puts it: at most 8, and
    not below -7 while the dive goes on. *)
Definition crow_inv (c : EnemyCrow.t) : Prop :=
  - (73 # 10) <= EnemyCrow.dive_speed c <= 8 /\
  (EnemyCrow.diving c = true -> -7 <= EnemyCrow.dive_speed c).

(** The crows among a list of enemies. *)
Definition crows (l : list Enemy) : list Enemy := filter Enemies.is_crow l.

(** The enemies of a group that are not in [hits]. *)
Definition spared (hits grp : list Enemy) : list Enemy :=
  filter (fun e => negb (existsb (Enemies.same e) hits)) grp.

(** [y] is one of the three volleys the boss has: nothing, eight shots from
    its centre, or three summons. *)
Definition is_shot (a : Attack) : bool :=
  match a with Shot _ _ _ _ => true | Summon _ _ => false end.

Definition volley_shape (pattern : Z) (attacks : list Attack) : Prop :=
  (pattern = 0%Z /\ length attacks = 8%nat /\ forallb is_shot attacks = true) \/
  (pattern = 1%Z /\ length attacks = 3%nat /\
   forallb (fun a => negb (is_shot a)) attacks = true) \/
  (pattern = 2%Z /\ attacks = []).


(** Act II and boss-fight data for the examples. *)
Module Scenario2.

Definition hold_attack : Keys := mkKeys false false false true false false.

(** A crow and a second one, both over the player's box at x = 839. *)
Definition crow0 : EnemyCrow.t :=
  EnemyCrow.mk 0 (Rect.mk 880 1100 90 60) 2 0 0 0 false true.

Definition crow1 : EnemyCrow.t :=
  EnemyCrow.mk 1 (Rect.mk 800 1090 90 60) 2 0 0 0 false true.

(** A crow half way through a dive. *)
Definition diving_crow : EnemyCrow.t :=
  EnemyCrow.mk 2 (Rect.mk 2000 300 90 60) 2 1 (1 # 10) (1 # 2) true true.

(** The player stands among one crow and one ghost. *)
Definition act2 : Level2.t :=
  Level2.mk Scenario.player_at_839 [Ghost Scenario.ghost0; Crow crow0] []
    AdaptiveEngine.init 0 0 0 false 2 true 90 60.

(** Health 10 and two crows in contact. *)
Definition act2_swarmed : Level2.t :=
  Level2.mk (Player.set_health 10 Scenario.player_at_839)
    [Crow crow0; Crow crow1] [] AdaptiveEngine.init 0 0 0 false 2 true 90 60.

(** An iteration of 1/60 s with the attack key held. *)
Definition strike : Level2.Input :=
  Level2.mkInput (1 # 60) false hold_attack (fun _ => false) None [].

(** The velocities of the eight shots, to the nearest 1/1000. *)
Definition octant8 (i : nat) : Q * Q :=
  nth i [(5, 0); (3536 # 1000, 3536 # 1000); (0, 5);
         (- (3536 # 1000), 3536 # 1000); (-5, 0);
         (- (3536 # 1000), - (3536 # 1000)); (0, -5);
         (3536 # 1000, - (3536 # 1000))] (0, 0).

Definition boss_input : BossFight.Input :=
  BossFight.mkInput (1 # 60) false no_keys 1 octant8.

(** A boss fight with the boss in a group, for the phases that test
    [boss.alive()]: the player's box overlaps the boss and a projectile. *)
Definition arena : BossFight.t :=
  BossFight.mk (Player.set_rect (Rect.mk 1100 500 123 123) Scenario.standing)
    (BossAI.init 1200 600) true [] [Projectile.init 0 1150 550 5 0] []
    AdaptiveEngine.init 0 0 false 1 true.

(** The boss after three seconds in phase 1. *)
Definition boss_ready : BossAI.t :=
  BossAI.mk (Boss.mk 50 50 1 3 0 true) (Rect.mk 1125 525 150 150).

End Scenario2.

(** * Properties *)

(** ** Facts about the primitives *)

Lemma Qltb_lt (a b : Q) : Qltb a b = true <-> a < b.
Proof.
  unfold Qltb. rewrite negb_true_iff, <- not_true_iff_false, Qle_bool_iff.
  split; [apply Qnot_le_lt | apply Qlt_not_le].
Qed.

Lemma Qltb_ge (a b : Q) : Qltb a b = false <-> b <= a.
Proof.
  unfold Qltb. rewrite negb_false_iff. apply Qle_bool_iff.
Qed.

Lemma Qltb_irrefl (a : Q) : Qltb a a = false.
Proof. apply Qltb_ge, Qle_refl. Qed.

Lemma pymax_0_nonneg (a : Q) : 0 <= pymax 0 a.
Proof.
  unfold pymax. destruct (Qltb 0 a) eqn:E.
  - apply Qlt_le_weak, Qltb_lt, E.
  - apply Qle_refl.
Qed.

Lemma pymax_0_pos (a : Q) : 0 < pymax 0 a <-> 0 < a.
Proof.
  unfold pymax. destruct (Qltb 0 a) eqn:E.
  - tauto.
  - apply Qltb_ge in E. split; intros H.
    + exfalso. apply (Qlt_irrefl 0), H.
    + exfalso. apply (Qlt_irrefl 0). apply Qlt_le_trans with a; assumption.
Qed.

(** Tactic: split on every conditional of the goal. *)
Ltac split_ifs :=
  repeat match goal with
         | |- context [if ?c then _ else _] => destruct c eqn:?
         end.

(** ** The jump (Player.update) *)

Lemma jump_contract_034 (q : Player.t) :
  jump_contract Player.jump_fires Player.jump_phase
    Player.coyote Player.jump_buffer Player.vy Player.on_ground q.
Proof.
  unfold jump_contract, Player.jump_phase, Player.jump_fires.
  split; [| split].
  - rewrite andb_true_iff, !Qltb_lt. tauto.
  - intros ->. cbn. repeat split.
  - destruct (Qltb 0 (Player.jump_buffer q) && Qltb 0 (Player.coyote q)) eqn:E.
    + split; [discriminate |]. intros H. exfalso.
      apply andb_true_iff in E. destruct E as [_ E]. apply Qltb_lt in E.
      rewrite <- H in E. cbn in E. discriminate E.
    + split; reflexivity.
Qed.

Lemma jump_contract_0319 (q : Player0319.t) :
  jump_contract Player0319.jump_fires Player0319.jump_phase
    Player0319.coyote Player0319.jump_buffer Player0319.vy
    Player0319.on_ground q.
Proof.
  unfold jump_contract, Player0319.jump_phase, Player0319.jump_fires.
  split; [| split].
  - rewrite andb_true_iff, !Qltb_lt. tauto.
  - intros ->. cbn. repeat split.
  - destruct (Qltb 0 (Player0319.jump_buffer q) && Qltb 0 (Player0319.coyote q)) eqn:E.
    + split; [discriminate |]. intros H. exfalso.
      apply andb_true_iff in E. destruct E as [_ E]. apply Qltb_lt in E.
      rewrite <- H in E. cbn in E. discriminate E.
    + split; reflexivity.
Qed.

(** Nothing after the jump block writes the two grace timers. *)
Lemma land_on_timers (pls : list Platform.t) (p : Player.t) :
  Player.coyote (fold_left Player.land_on pls p) = Player.coyote p /\
  Player.jump_buffer (fold_left Player.land_on pls p) = Player.jump_buffer p.
Proof.
  revert p. induction pls as [|pl pls IH]; intros p; cbn [fold_left].
  - split; reflexivity.
  - destruct (IH (Player.land_on p pl)) as [-> ->].
    unfold Player.land_on. split_ifs; split; reflexivity.
Qed.

Lemma after_jump_timers (keys : Keys) (dt : Q) (pls : list Platform.t)
  (p : Player.t) :
  Player.coyote (Player.after_jump keys dt pls p) = Player.coyote p /\
  Player.jump_buffer (Player.after_jump keys dt pls p) = Player.jump_buffer p.
Proof.
  unfold Player.after_jump, Player.animate_phase, Player.state_phase,
    Player.horizontal_phase, Player.variable_jump_phase, Player.ground_phase,
    Player.platform_phase.
  set (q := fold_left _ _ _).
  assert (Hq : Player.coyote q = Player.coyote p /\
               Player.jump_buffer q = Player.jump_buffer p).
  { subst q. destruct (land_on_timers pls
      (Player.set_on_ground false (Player.gravity_phase p))) as [-> ->].
    split; reflexivity. }
  destruct Hq as [<- <-]. clearbody q.
  split_ifs; split; reflexivity.
Qed.

Lemma after_jump_timers_0319 (keys : Keys) (dt : Q) (p : Player0319.t) :
  Player0319.coyote (Player0319.after_jump keys dt p) = Player0319.coyote p /\
  Player0319.jump_buffer (Player0319.after_jump keys dt p)
  = Player0319.jump_buffer p.
Proof.
  unfold Player0319.after_jump, Player0319.animate_phase,
    Player0319.state_phase, Player0319.horizontal_phase,
    Player0319.variable_jump_phase, Player0319.ground_phase.
  split_ifs; split; reflexivity.
Qed.

(** C1.  In every update the jump block runs exactly when, at the instant
    its guard is evaluated, the coyote timer and the jump-buffer timer are
    both strictly positive.  When it runs it sets [vy] to [JUMP_STRENGTH],
    clears [on_ground] and zeroes both timers, which are still zero when the
    update returns; the block leaves the state as it was exactly when it
    does not run.
    Stated for [Player.update] of hamlets_descent034.py and of
    Hamlet_descent0319.py. *)
Theorem jump_only_in_grace_window :
  (forall (keys : Keys) (dt : Q) (pls : list Platform.t) (p : Player.t),
     let q := Player.before_jump keys dt p in
     jump_contract Player.jump_fires Player.jump_phase
       Player.coyote Player.jump_buffer Player.vy Player.on_ground q /\
     (Player.jump_fires q = true ->
      Player.coyote (Player.update keys dt pls p) = 0 /\
      Player.jump_buffer (Player.update keys dt pls p) = 0)) /\
  (forall (keys : Keys) (dt : Q) (p : Player0319.t),
     let q := Player0319.before_jump keys dt p in
     jump_contract Player0319.jump_fires Player0319.jump_phase
       Player0319.coyote Player0319.jump_buffer Player0319.vy
       Player0319.on_ground q /\
     (Player0319.jump_fires q = true ->
      Player0319.coyote (Player0319.update keys dt p) = 0 /\
      Player0319.jump_buffer (Player0319.update keys dt p) = 0)).
Proof.
  split.
  - intros keys dt pls p q. split; [apply jump_contract_034 |].
    intros Hf. unfold Player.update. fold q.
    destruct (after_jump_timers keys dt pls (Player.jump_phase q)) as [-> ->].
    destruct (jump_contract_034 q) as (_ & H & _).
    destruct (H Hf) as (_ & _ & Hc & Hb). split; assumption.
  - intros keys dt p q. split; [apply jump_contract_0319 |].
    intros Hf. unfold Player0319.update. fold q.
    destruct (after_jump_timers_0319 keys dt (Player0319.jump_phase q))
      as [-> ->].
    destruct (jump_contract_0319 q) as (_ & H & _).
    destruct (H Hf) as (_ & _ & Hc & Hb). split; assumption.
Qed.

Lemma jump_only_in_grace_window_witness :
  Player.jump_fires
    (Player.before_jump Scenario.hold_jump (1 # 60) Scenario.standing) = true /\
  Player.coyote
    (Player.update Scenario.hold_jump (1 # 60) [] Scenario.standing) = 0 /\
  Player.jump_buffer
    (Player.update Scenario.hold_jump (1 # 60) [] Scenario.standing) = 0.
Proof.
  split; [reflexivity |].
  destruct jump_only_in_grace_window as [H _].
  destruct (H Scenario.hold_jump (1 # 60) [] Scenario.standing) as [_ H2].
  apply H2. reflexivity.
Defined.

(** ** One frame of a jump from the floor *)

Lemma to_int_inject (z : Z) : to_int (inject_Z z + 0) = z.
Proof.
  unfold to_int. cbn. rewrite Z.mul_1_r, Z.add_0_r. apply Z.quot_1_r.
Qed.

(** Moving up by the first frame of a jump: the box rises. *)
Lemma to_int_rise (z : Z) :
  (to_int (inject_Z z + (JUMP_STRENGTH + GRAVITY)) < z)%Z.
Proof.
  unfold to_int. cbn. Z.to_euclidean_division_equations. lia.
Qed.

(** Half a pixel of gravity does not move a box that stands on the floor
    past the clamp: its bottom edge is still at or below the floor line. *)
Lemma to_int_half (z : Z) :
  (z <= to_int (inject_Z z + (0 + GRAVITY)) <= z + 1)%Z.
Proof.
  unfold to_int. cbn. Z.to_euclidean_division_equations. lia.
Qed.

Lemma to_int_floor_ceiling (q : Q) :
  to_int q = if Qle_bool 0 q then Qfloor q else Qceiling q.
Proof.
  destruct q as [n d]. unfold to_int, Qle_bool, Qceiling, Qfloor. cbn.
  rewrite Z.mul_1_r. destruct (0 <=? n)%Z eqn:E.
  - apply Z.quot_div_nonneg; lia.
  - apply Z.leb_gt in E.
    rewrite <- (Z.opp_involutive n) at 1.
    rewrite Z.quot_opp_l by lia. f_equal.
    apply Z.quot_div_nonneg; lia.
Qed.

#[local] Instance to_int_comp : Proper (Qeq ==> eq) to_int.
Proof.
  intros a b E. rewrite !to_int_floor_ceiling.
  rewrite (Qleb_comp 0 0 (Qeq_refl 0) a b E).
  rewrite (Qfloor_comp a b E), (Qceiling_comp a b E). reflexivity.
Qed.

(** *** What each part of the update does to the kinematic fields *)

Ltac player_simpl :=
  cbn [
    Player.rect Player.vx Player.vy Player.on_ground Player.state
    Player.frames Player.idx Player.timer Player.jump_buffer Player.coyote
    Player.health Player.max_health Player.invulnerable Player.facing_right
    Player.dash_cooldown Player.dashing Player.dash_timer
    Player.damage_multiplier Player.speed_multiplier Player.powerup_speed
    Player.powerup_damage Player.anims Player.set_rect Player.set_vx
    Player.set_vy Player.set_on_ground Player.set_state Player.set_frames
    Player.set_idx Player.set_timer Player.set_jump_buffer Player.set_coyote
    Player.set_health Player.set_invulnerable Player.set_facing_right
    Player.set_dash_cooldown Player.set_dashing Player.set_dash_timer
    Player.set_damage_multiplier Player.set_speed_multiplier
    Player.set_powerup_speed Player.set_powerup_damage
  ] in *.

Ltac same_vertical_phase :=
  unfold same_vertical; player_simpl; split_ifs; player_simpl;
  repeat split; reflexivity.

Lemma same_vertical_trans (p q r : Player.t) :
  same_vertical p q -> same_vertical q r -> same_vertical p r.
Proof.
  unfold same_vertical. intros (a1 & a2 & a3 & a4 & a5) (b1 & b2 & b3 & b4 & b5).
  repeat split; congruence.
Qed.

Lemma powerups_phase_vertical (dt : Q) (p : Player.t) :
  same_vertical p (Player.powerups_phase dt p).
Proof. unfold Player.powerups_phase. same_vertical_phase. Qed.

Lemma dash_phase_vertical (keys : Keys) (dt : Q) (p : Player.t) :
  same_vertical p (Player.dash_phase keys dt p).
Proof. unfold Player.dash_phase. same_vertical_phase. Qed.

Lemma move_phase_vertical (keys : Keys) (dt : Q) (p : Player.t) :
  same_vertical p (Player.move_phase keys dt p).
Proof. unfold Player.move_phase. same_vertical_phase. Qed.

Lemma invulnerable_phase_vertical (dt : Q) (p : Player.t) :
  same_vertical p (Player.invulnerable_phase dt p).
Proof. unfold Player.invulnerable_phase. same_vertical_phase. Qed.

(** Before the jump block only [vx], the timers and the dash fields move. *)
Lemma before_jump_fields (keys : Keys) (dt : Q) (p : Player.t) :
  let q := Player.before_jump keys dt p in
  Player.rect q = Player.rect p /\ Player.vy q = Player.vy p /\
  Player.on_ground q = Player.on_ground p /\
  Player.coyote q
  = (if Player.on_ground p then COYOTE_TIME
     else pymax 0 (Player.coyote p - dt)) /\
  Player.jump_buffer q
  = (if K_SPACE keys then JUMP_BUFFER_TIME
     else pymax 0 (Player.jump_buffer p - dt)).
Proof.
  unfold Player.before_jump.
  set (p4 := Player.invulnerable_phase dt _).
  assert (H : same_vertical p p4).
  { subst p4.
    eapply same_vertical_trans; [| apply invulnerable_phase_vertical].
    eapply same_vertical_trans; [| apply move_phase_vertical].
    eapply same_vertical_trans; [| apply dash_phase_vertical].
    apply powerups_phase_vertical. }
  destruct H as (Hr & Hv & Hg & Hc & Hj). clearbody p4.
  unfold Player.grace_phase. player_simpl.
  rewrite Hr, Hv, Hg, Hc, Hj. repeat split.
Qed.

(** A player that is not moving down lands on no platform. *)
Lemma land_on_not_falling (pls : list Platform.t) (p : Player.t) :
  Player.vy p <= 0 -> fold_left Player.land_on pls p = p.
Proof.
  intros H. induction pls as [|pl pls IH]; cbn [fold_left]; [reflexivity |].
  assert (E : Player.land_on p pl = p).
  { unfold Player.land_on. apply Qltb_ge in H. rewrite H. reflexivity. }
  rewrite E. exact IH.
Qed.

(** The last three phases leave the vertical kinematics alone. *)
Lemma tail_fields (keys : Keys) (dt : Q) (p : Player.t) :
  let q := Player.animate_phase dt
             (Player.state_phase keys (Player.horizontal_phase p)) in
  Player.vx q = Player.vx p /\ Player.vy q = Player.vy p /\
  Player.on_ground q = Player.on_ground p /\
  Player.rect q = Rect.add_x (Player.vx p) (Player.rect p) /\
  Player.dashing q = Player.dashing p /\
  Player.jump_buffer q = Player.jump_buffer p.
Proof.
  unfold Player.animate_phase, Player.state_phase, Player.horizontal_phase.
  player_simpl. split_ifs; player_simpl; repeat split.
Qed.

(** The frame in which the jump fires, from the jump block on, for a player
    whose box is not below the floor line. *)
Lemma after_jump_of_jump (keys : Keys) (dt : Q) (pls : list Platform.t)
  (q : Player.t) :
  K_SPACE keys = true ->
  Player.vy q = JUMP_STRENGTH ->
  (Rect.bottom (Player.rect q) <= SCREEN_HEIGHT)%Z ->
  Player.vy (Player.after_jump keys dt pls q) = JUMP_STRENGTH + GRAVITY /\
  Player.on_ground (Player.after_jump keys dt pls q) = false.
Proof.
  intros Hk Hv Hb. unfold Player.after_jump.
  set (g := Player.gravity_phase q).
  assert (Hgv : Player.vy g = JUMP_STRENGTH + GRAVITY)
    by (subst g; cbn; rewrite Hv; reflexivity).
  assert (Hgb : (Rect.bottom (Player.rect g) < SCREEN_HEIGHT)%Z).
  { subst g. cbn. rewrite Hv. unfold Rect.bottom in *. cbn.
    pose proof (to_int_rise (Rect.y (Player.rect q))). lia. }
  clearbody g. unfold Player.platform_phase.
  rewrite land_on_not_falling
    by (player_simpl; rewrite Hgv; discriminate).
  unfold Player.ground_phase. player_simpl.
  apply Z.leb_gt in Hgb. rewrite Hgb.
  unfold Player.variable_jump_phase. rewrite Hk, andb_false_r.
  destruct (tail_fields keys dt (Player.set_on_ground false g))
    as (_ & -> & -> & _).
  player_simpl. split; [exact Hgv | reflexivity].
Qed.

(** C2 (as amended).  From a player standing on the floor ([on_ground]
    set, bottom edge not below the floor line) with the jump key held, one
    update, whatever [dt], the other keys and the platforms, ends with [vy]
    equal to [JUMP_STRENGTH + GRAVITY], that is -11.5, and with [on_ground]
    cleared: gravity is added in the frame of the jump. *)
Theorem jump_frame_velocity (keys : Keys) (dt : Q) (pls : list Platform.t)
  (p : Player.t) :
  K_SPACE keys = true ->
  Player.on_ground p = true ->
  (Rect.bottom (Player.rect p) <= SCREEN_HEIGHT)%Z ->
  Player.vy (Player.update keys dt pls p) == JUMP_STRENGTH + GRAVITY /\
  Player.vy (Player.update keys dt pls p) == - (23 # 2) /\
  Player.on_ground (Player.update keys dt pls p) = false.
Proof.
  intros Hk Hg Hb. unfold Player.update.
  destruct (before_jump_fields keys dt p) as (Hr & _ & _ & Hc & Hj).
  rewrite Hg in Hc. rewrite Hk in Hj.
  set (q := Player.before_jump keys dt p) in *.
  assert (Hf : Player.jump_fires q = true)
    by (unfold Player.jump_fires; rewrite Hc, Hj; reflexivity).
  destruct (jump_contract_034 q) as (_ & H & _).
  destruct (H Hf) as (Hv & _).
  assert (Hjr : Player.rect (Player.jump_phase q) = Player.rect q)
    by (unfold Player.jump_phase; rewrite Hf; reflexivity).
  destruct (after_jump_of_jump keys dt pls (Player.jump_phase q) Hk Hv)
    as [-> ->].
  - rewrite Hjr, Hr. exact Hb.
  - repeat split; reflexivity.
Qed.

Lemma jump_frame_velocity_witness :
  Player.vy (Player.update Scenario.hold_jump (1 # 60) [] Scenario.standing)
  == - (23 # 2).
Proof.
  apply (jump_frame_velocity Scenario.hold_jump (1 # 60) [] Scenario.standing).
  - reflexivity.
  - reflexivity.
  - vm_compute. discriminate.
Defined.

(** C2 as stated fails: after the frame of the jump [vy] is -11.5, not
    [JUMP_STRENGTH]. *)
Lemma jump_frame_vy_is_not_jump_strength :
  Player.vy Scenario.standing == 0 /\
  Player.on_ground Scenario.standing = true /\
  Rect.bottom (Player.rect Scenario.standing) = SCREEN_HEIGHT /\
  K_SPACE Scenario.hold_jump = true /\
  ~ (Player.vy
       (Player.update Scenario.hold_jump (1 # 60) [] Scenario.standing)
     == JUMP_STRENGTH /\
     Player.on_ground
       (Player.update Scenario.hold_jump (1 # 60) [] Scenario.standing)
     = false).
Proof.
  repeat split. intros [H _]. vm_compute in H. discriminate H.
Qed.

(** ** Updates with a zero time step *)

Lemma before_jump_idle (keys : Keys) (dt : Q) (p : Player.t) :
  idle_keys keys -> Player.dashing p = false ->
  Player.vx (Player.before_jump keys dt p) = 0 /\
  Player.dashing (Player.before_jump keys dt p) = false.
Proof.
  intros (Hl & Hr & _ & Hs) Hd.
  unfold Player.before_jump, Player.grace_phase, Player.invulnerable_phase.
  player_simpl.
  set (p1 := Player.powerups_phase dt p).
  assert (H1 : Player.dashing p1 = false) by (subst p1; exact Hd).
  clearbody p1.
  set (p2 := Player.dash_phase keys dt p1).
  assert (H2 : Player.dashing p2 = false).
  { subst p2. unfold Player.dash_phase. rewrite Hs. player_simpl.
    cbn [andb]. player_simpl. exact H1. }
  clearbody p2.
  unfold Player.move_phase. rewrite H2, Hl, Hr. player_simpl.
  split; [reflexivity | exact H2].
Qed.

(** A falling player whose bottom edge is at or below the floor line is not
    caught by a platform that lies above the floor line. *)
Lemma land_on_at_floor (pls : list Platform.t) (p : Player.t) :
  above_floor pls ->
  (SCREEN_HEIGHT <= Rect.bottom (Player.rect p))%Z ->
  fold_left Player.land_on pls p = p.
Proof.
  intros Hp Hb. induction Hp as [|pl pls Hpl _ IH]; cbn [fold_left];
    [reflexivity |].
  assert (E : Player.land_on p pl = p).
  { unfold Player.land_on.
    assert (F : (Rect.bottom (Player.rect p)
                 <? Rect.bottom (Platform.rect pl))%Z = false)
      by (apply Z.ltb_ge; lia).
    rewrite F, andb_false_r. reflexivity. }
  rewrite E. exact IH.
Qed.

(** One update of a player at rest, with no key held: nothing moves. *)
Lemma rest_step (keys : Keys) (dt : Q) (pls : list Platform.t)
  (p : Player.t) :
  0 <= dt -> idle_keys keys -> above_floor pls -> at_rest p ->
  at_rest (Player.update keys dt pls p) /\
  Player.rect (Player.update keys dt pls p) = Player.rect p /\
  Player.vx (Player.update keys dt pls p) = 0 /\
  Player.vy (Player.update keys dt pls p) = 0.
Proof.
  intros Hdt Hk Hp (Hb & Hvx & Hvy & Hd & Hj).
  destruct (before_jump_fields keys dt p) as (Hr & Hv & _ & _ & Hjb).
  destruct (before_jump_idle keys dt p Hk Hd) as (Hx & Hdash).
  destruct Hk as (_ & _ & Hs & _). rewrite Hs in Hjb.
  unfold Player.update.
  set (q := Player.before_jump keys dt p) in *.
  assert (Hnf : Player.jump_fires q = false).
  { unfold Player.jump_fires. rewrite Hjb.
    assert (E : Qltb 0 (pymax 0 (Player.jump_buffer p - dt)) = false).
    { apply not_true_iff_false. rewrite Qltb_lt, pymax_0_pos. lra. }
    rewrite E. reflexivity. }
  destruct (jump_contract_034 q) as (_ & _ & H). rewrite (proj1 H Hnf).
  clearbody q. clear H Hnf.
  unfold Player.after_jump.
  set (g := Player.gravity_phase q).
  assert (Hgr : Player.rect g
                = Rect.add_y (Player.vy q + GRAVITY) (Player.rect q))
    by reflexivity.
  assert (Hgv : Player.vy g = Player.vy q + GRAVITY) by reflexivity.
  assert (Hgx : Player.vx g = 0) by exact Hx.
  assert (Hgd : Player.dashing g = false) by exact Hdash.
  assert (Hgj : Player.jump_buffer g = Player.jump_buffer q) by reflexivity.
  assert (Hy : (Rect.y (Player.rect p) <= Rect.y (Player.rect g))%Z).
  { rewrite Hgr, Hr, Hv. unfold Rect.add_y. cbn [Rect.y Rect.set_y].
    assert (E : inject_Z (Rect.y (Player.rect p)) + (Player.vy p + GRAVITY)
                == inject_Z (Rect.y (Player.rect p)) + (0 + GRAVITY))
      by (rewrite Hvy; reflexivity).
    rewrite E. apply to_int_half. }
  assert (Hh : Rect.h (Player.rect g) = Rect.h (Player.rect p))
    by (rewrite Hgr, Hr; reflexivity).
  assert (Hgb : (SCREEN_HEIGHT <= Rect.bottom (Player.rect g))%Z)
    by (unfold Rect.bottom in *; lia).
  assert (Hgxw : Rect.x (Player.rect g) = Rect.x (Player.rect p) /\
                 Rect.w (Player.rect g) = Rect.w (Player.rect p))
    by (rewrite Hgr, Hr; split; reflexivity).
  clearbody g. unfold Player.platform_phase.
  rewrite land_on_at_floor by (player_simpl; assumption).
  unfold Player.ground_phase. player_simpl.
  apply Z.leb_le in Hgb. rewrite Hgb.
  unfold Player.variable_jump_phase. player_simpl.
  rewrite Qltb_irrefl. cbn [andb].
  match goal with
  | |- context [Player.animate_phase dt (Player.state_phase keys
                  (Player.horizontal_phase ?s))] =>
      destruct (tail_fields keys dt s) as (Tx & Tv & Tg & Tr & Td & Tj);
      set (r := Player.animate_phase dt (Player.state_phase keys
                  (Player.horizontal_phase s))) in *
  end.
  player_simpl. clearbody r.
  assert (Rr : Player.rect r = Player.rect p).
  { rewrite Tr, Hgx. unfold Rect.add_x, Rect.set_bottom.
    cbn [Rect.x Rect.y Rect.w Rect.h Rect.set_x Rect.set_y].
    rewrite to_int_inject. destruct Hgxw as [Hgx' Hgw].
    destruct (Player.rect g) as [x' y' w' h'].
    destruct (Player.rect p) as [x y w h]. unfold Rect.bottom in Hb.
    unfold Rect.set_x, Rect.set_y.
    cbn [Rect.x Rect.y Rect.w Rect.h] in *. subst. f_equal. lia. }
  repeat split.
  - rewrite Rr. exact Hb.
  - rewrite Tx, Hgx. reflexivity.
  - rewrite Tv. reflexivity.
  - rewrite Td. exact Hgd.
  - rewrite Tj, Hgj, Hjb. unfold pymax.
    destruct (Qltb 0 (Player.jump_buffer p - dt)) eqn:E.
    + apply Qltb_lt in E. lra.
    + apply Qle_refl.
  - exact Rr.
  - rewrite Tx. exact Hgx.
  - exact Tv.
Qed.

(** C3 (as amended).  For a player at rest on the floor (bottom edge on the
    floor line, zero velocity, no dash in progress, no pending jump
    request), with no movement, jump or dash key held and every platform
    above the floor line, two updates in a row with [dt = 0] change neither
    the position nor the velocity. *)
Theorem zero_dt_twice_at_rest (keys : Keys) (pls : list Platform.t)
  (p : Player.t) :
  idle_keys keys -> above_floor pls -> at_rest p ->
  let q := Player.update keys 0 pls (Player.update keys 0 pls p) in
  Player.rect q = Player.rect p /\
  Player.vx q == Player.vx p /\ Player.vy q == Player.vy p.
Proof.
  intros Hk Hp Hr q. subst q.
  destruct (rest_step keys 0 pls p (Qle_refl 0) Hk Hp Hr)
    as (Hr1 & E1 & _ & _).
  destruct (rest_step keys 0 pls _ (Qle_refl 0) Hk Hp Hr1)
    as (_ & E2 & X2 & Y2).
  destruct Hr as (_ & Hx & Hy & _).
  split; [congruence |].
  rewrite X2, Y2, Hx, Hy. split; reflexivity.
Qed.

Lemma zero_dt_twice_at_rest_witness :
  Player.rect
    (Player.update no_keys 0 [] (Player.update no_keys 0 [] Scenario.standing))
  = Player.rect Scenario.standing.
Proof.
  apply (zero_dt_twice_at_rest no_keys [] Scenario.standing).
  - repeat split.
  - constructor.
  - repeat split; vm_compute; discriminate.
Defined.

(** C3 as stated fails: gravity is added once per call whatever [dt] is.
    The player as [main] creates it, in the air with no key held, has moved
    down and gained speed after two updates with [dt = 0]. *)
Lemma zero_dt_twice_moves_airborne :
  let q := Player.update no_keys 0 []
             (Player.update no_keys 0 [] Scenario.airborne) in
  Rect.y (Player.rect Scenario.airborne) = 977%Z /\
  Rect.y (Player.rect q) = 978%Z /\
  Player.vy Scenario.airborne == 0 /\ Player.vy q == 1 /\
  ~ (Player.rect q = Player.rect Scenario.airborne /\
     Player.vx q == Player.vx Scenario.airborne /\
     Player.vy q == Player.vy Scenario.airborne).
Proof.
  cbv zeta. repeat split.
  intros (H & _). vm_compute in H. discriminate H.
Qed.

(** ** Adaptive difficulty *)

Lemma pymax_Qmax (a b : Q) : pymax a b == Qmax a b.
Proof.
  unfold pymax. destruct (Qltb a b) eqn:E.
  - apply Qltb_lt in E. symmetry. apply Q.max_r, Qlt_le_weak, E.
  - apply Qltb_ge in E. symmetry. apply Q.max_l, E.
Qed.

Lemma pymin_Qmin (a b : Q) : pymin a b == Qmin a b.
Proof.
  unfold pymin. destruct (Qltb b a) eqn:E.
  - apply Qltb_lt in E. symmetry. apply Q.min_r, Qlt_le_weak, E.
  - apply Qltb_ge in E. symmetry. apply Q.min_l, E.
Qed.

Lemma adaptive_contract_034 (perf : AdaptiveEngine.Perf)
  (a : AdaptiveEngine.t) :
  adaptive_contract AdaptiveEngine.update perf a.
Proof.
  unfold adaptive_contract, AdaptiveEngine.update. cbv zeta.
  destruct (3 <? AdaptiveEngine.perf_deaths perf)%Z eqn:E3;
    [apply Z.ltb_lt in E3 | apply Z.ltb_ge in E3].
  - split; [| split]; try (intros; lia).
    intros _. cbn. split; [apply pymax_Qmax | apply pymax_Qmax].
  - destruct (AdaptiveEngine.perf_deaths perf =? 0)%Z eqn:E0;
      [apply Z.eqb_eq in E0 | apply Z.eqb_neq in E0].
    + destruct (Qltb (AdaptiveEngine.perf_time perf) 60) eqn:Et;
        [apply Qltb_lt in Et | apply Qltb_ge in Et]; cbn [andb].
      * split; [| split]; try (intros; lia).
        -- intros _ _ _. cbn. split; apply pymin_Qmin.
        -- intros _ [H | H]; [contradiction |].
           exfalso. apply (Qlt_irrefl 60).
           apply Qle_lt_trans with (AdaptiveEngine.perf_time perf); assumption.
      * split; [| split]; try (intros; lia).
        -- intros _ _ H. exfalso. apply (Qlt_irrefl 60).
           apply Qle_lt_trans with (AdaptiveEngine.perf_time perf); assumption.
        -- intros _ _. split; reflexivity.
    + cbn [andb]. split; [| split]; try (intros; lia).
      intros _ _. split; reflexivity.
Qed.

Lemma update0319_agrees (perf : AdaptiveEngine.Perf) (a : AdaptiveEngine.t) :
  AdaptiveEngine.diff (AdaptiveEngine.update0319 perf a)
  = AdaptiveEngine.diff (AdaptiveEngine.update perf a) /\
  AdaptiveEngine.espeed (AdaptiveEngine.update0319 perf a)
  = AdaptiveEngine.espeed (AdaptiveEngine.update perf a).
Proof.
  unfold AdaptiveEngine.update0319, AdaptiveEngine.update.
  split_ifs; split; reflexivity.
Qed.

(** C4.  [AdaptiveEngine.update]: with more than 3 deaths, [diff] and
    [espeed] are multiplied by 0.9 and floored at 0.5 and 1; otherwise, with
    no death and less than 60 seconds elapsed, they are multiplied by 1.1
    and capped at 2.0 and 5; otherwise both are unchanged.  Stated for the
    update of hamlets_descent034.py and of Hamlet_descent0319.py. *)
Theorem adaptive_update_cases (perf : AdaptiveEngine.Perf)
  (a : AdaptiveEngine.t) :
  adaptive_contract AdaptiveEngine.update perf a /\
  adaptive_contract AdaptiveEngine.update0319 perf a.
Proof.
  split; [apply adaptive_contract_034 |].
  pose proof (adaptive_contract_034 perf a) as H.
  unfold adaptive_contract in *. cbv zeta in *.
  destruct (update0319_agrees perf a) as [-> ->]. exact H.
Qed.

Lemma adaptive_update_cases_witness :
  AdaptiveEngine.diff
    (AdaptiveEngine.update (AdaptiveEngine.mkPerf 4 200) AdaptiveEngine.init)
  == 9 # 10 /\
  AdaptiveEngine.espeed
    (AdaptiveEngine.update (AdaptiveEngine.mkPerf 4 200) AdaptiveEngine.init)
  == 18 # 10.
Proof.
  destruct (adaptive_update_cases (AdaptiveEngine.mkPerf 4 200)
              AdaptiveEngine.init) as [(H & _) _].
  destruct H as [Hd He]; [cbn; lia |].
  rewrite Hd, He. split; reflexivity.
Defined.

(** ** Oscillating platforms *)

Lemma platform_update_fields (p : Platform.t) :
  Platform.move_range (Platform.update p) = Platform.move_range p /\
  Platform.move_speed (Platform.update p) = Platform.move_speed p /\
  Platform.start_x (Platform.update p) = Platform.start_x p /\
  Platform.moving (Platform.update p) = Platform.moving p.
Proof.
  unfold Platform.update. destruct (Platform.moving p) eqn:E; cbn;
    repeat split; try reflexivity; exact E.
Qed.

Lemma platform_inv_init (x y width height : Z) (mv : bool) :
  platform_inv (Platform.init x y width height mv).
Proof.
  unfold platform_inv, Platform.displacement, Platform.init. cbn.
  repeat split; try lia.
Qed.

Lemma platform_inv_update (p : Platform.t) :
  platform_inv p -> platform_inv (Platform.update p).
Proof.
  unfold platform_inv, Platform.displacement, Platform.update.
  intros (Hd & Hs & Hr & Ha & Hhi & Hlo).
  destruct (Platform.moving p); [| repeat split; assumption].
  cbn [Platform.rect Platform.direction Platform.move_speed
       Platform.move_range Platform.start_x Rect.x Rect.set_x].
  set (x := Rect.x (Platform.rect p)) in *.
  set (s := Platform.move_speed p) in *.
  set (r := Platform.move_range p) in *.
  set (a := Platform.start_x p) in *.
  set (d := Platform.direction p) in *.
  clearbody x s r a d.
  destruct (r <? Z.abs (x + s * d - a))%Z eqn:E;
    [apply Z.ltb_lt in E | apply Z.ltb_ge in E];
    destruct Hd as [-> | ->]; repeat split; lia.
Qed.

Lemma platform_inv_updates (n : nat) (p : Platform.t) :
  platform_inv p -> platform_inv (Platform.updates n p).
Proof.
  intros H. induction n as [|n IH]; cbn [Platform.updates];
    [exact H | apply platform_inv_update, IH].
Qed.

(** C9 (as amended).  After any number of updates of a platform created by
    [Platform(x, y, width, height, moving)], the distance between its
    position and its anchor [start_x] is at most [move_range + move_speed],
    that is 202: the direction flips only after the range was exceeded, so
    the platform overshoots the range by one step. *)
Theorem platform_displacement_bound (x y width height : Z) (mv : bool)
  (n : nat) :
  let p := Platform.updates n (Platform.init x y width height mv) in
  (Z.abs (Platform.displacement p)
   <= Platform.move_range p + Platform.move_speed p)%Z /\
  (Platform.move_range p + Platform.move_speed p = 202)%Z.
Proof.
  intros p.
  destruct (platform_inv_updates n _ (platform_inv_init x y width height mv))
    as (_ & _ & _ & Ha & _).
  split; [exact Ha |].
  subst p. clear Ha. induction n as [|n IH]; cbn [Platform.updates].
  - reflexivity.
  - destruct (platform_update_fields
                (Platform.updates n (Platform.init x y width height mv)))
      as (-> & -> & _). exact IH.
Qed.

(** C9 as stated fails: after 101 updates the moving platform is 202 away
    from its anchor, more than its [move_range] of 200. *)
Lemma platform_overshoots_range :
  let p := Platform.updates 101 Scenario.moving_platform in
  Platform.moving p = true /\ Platform.move_range p = 200%Z /\
  Platform.displacement p = 202%Z /\
  ~ (Z.abs (Platform.displacement p) <= Platform.move_range p)%Z.
Proof.
  cbv zeta. repeat split. vm_compute. intros H. apply H. reflexivity.
Qed.

(** ** The state machine *)

Lemma animate101_state (dt : Q) (p : BossBattle101.t) :
  BossBattle101.state (BossBattle101.animate_phase dt p)
  = BossBattle101.state p.
Proof.
  unfold BossBattle101.animate_phase.
  cbn [BossBattle101.animation_timer BossBattle101.set_animation_timer].
  destruct (Qle_bool _ _); [| reflexivity].
  destruct (nth _ _ _) as [width height]. reflexivity.
Qed.

Lemma state_phase101_state (keys : Keys) (p : BossBattle101.t) :
  BossBattle101.state (BossBattle101.state_phase keys p)
  = BossBattle101.select_state keys p.
Proof.
  unfold BossBattle101.state_phase.
  destruct (BossBattle101.State_eqb _ _) eqn:E; [| reflexivity].
  destruct (BossBattle101.select_state keys p), (BossBattle101.state p);
    (reflexivity || discriminate E).
Qed.

(** In bossbattle101.py nothing after the selection writes [state]. *)
Lemma update101_state (keys : Keys) (dt : Q) (p : BossBattle101.t) :
  BossBattle101.state (BossBattle101.update keys dt p)
  = BossBattle101.select_state keys
      (BossBattle101.jump_phase keys
         (BossBattle101.gravity_phase (BossBattle101.move_phase keys p))).
Proof.
  unfold BossBattle101.update, BossBattle101.sync_phase.
  cbn [BossBattle101.state BossBattle101.set_rect].
  rewrite animate101_state. apply state_phase101_state.
Qed.

Lemma pre_select101_state (keys : Keys) (p : BossBattle101.t) :
  BossBattle101.state
    (BossBattle101.jump_phase keys
       (BossBattle101.gravity_phase (BossBattle101.move_phase keys p)))
  = BossBattle101.state p.
Proof.
  unfold BossBattle101.jump_phase, BossBattle101.gravity_phase,
    BossBattle101.move_phase.
  cbn. split_ifs; reflexivity.
Qed.

(** C5 (as amended).  The state is selected by a fixed priority, first
    match wins: a current attack state is kept; else the attack key selects
    attack1; else the S key selects block (bossbattle101.py) or attack2
    (hamlets_descent034.py), Hamlet_descent0318.py having no second input;
    else an airborne body selects jump; else a nonzero horizontal velocity
    selects run; else idle.  Only attack states are kept: a block state
    lasts while its key is held.  In hamlets_descent034.py the list applies
    when no dash is in progress.  In bossbattle101.py the update ends in the
    selected state, so an attack state, once entered, is kept by every
    later update. *)
Theorem state_priority :
  (forall (keys : Keys) (p : BossBattle101.t),
     BossBattle101.select_state keys p
     = priority (BossBattle101.in_attack (BossBattle101.state p))
         (BossBattle101.state p) (K_a keys) (K_s keys)
         (BossBattle101.on_ground p)
         (negb (Qeq_bool (BossBattle101.vel_x p) 0))
         BossBattle101.attack1 BossBattle101.block BossBattle101.jump
         BossBattle101.run BossBattle101.idle) /\
  (forall (keys : Keys) (dt : Q) (p : BossBattle101.t),
     BossBattle101.state (BossBattle101.update keys dt p)
     = BossBattle101.select_state keys
         (BossBattle101.jump_phase keys
            (BossBattle101.gravity_phase (BossBattle101.move_phase keys p))) /\
     (BossBattle101.in_attack (BossBattle101.state p) = true ->
      BossBattle101.state (BossBattle101.update keys dt p)
      = BossBattle101.state p)) /\
  (forall (keys : Keys) (p : Player.t),
     Player.dashing p = false ->
     Player.select_state keys p
     = priority (is_attack (Player.state p)) (Player.state p)
         (K_a keys) (K_s keys) (Player.on_ground p)
         (negb (Qeq_bool (Player.vx p) 0))
         Attack1 Attack2 Jump Run Idle) /\
  (forall (keys : Keys) (p : Player0319.t),
     Player0319.select_state keys p
     = priority (is_attack (Player0319.state p)) (Player0319.state p)
         (K_a keys) false (Player0319.on_ground p)
         (negb (Qeq_bool (Player0319.vx p) 0))
         Attack1 Attack2 Jump Run Idle).
Proof.
  split; [| split; [| split]].
  - intros keys p. unfold BossBattle101.select_state, priority.
    split_ifs; reflexivity.
  - intros keys dt p. split; [apply update101_state |].
    intros Ha. rewrite update101_state.
    unfold BossBattle101.select_state.
    rewrite pre_select101_state, Ha. reflexivity.
  - intros keys p Hd. unfold Player.select_state, priority. rewrite Hd.
    split_ifs; reflexivity.
  - intros keys p. unfold Player0319.select_state, priority.
    split_ifs; reflexivity.
Qed.

Lemma state_priority_witness :
  Player.select_state (mkKeys false false false false true false)
    Scenario.standing = Attack2.
Proof.
  destruct state_priority as (_ & _ & H & _).
  rewrite (H _ Scenario.standing); reflexivity.
Defined.

(** C5 as stated fails on its first rule: a block state is not kept.  The
    boss-battle player holding a block on the floor, after one update of
    1/60 s with no key held, is idle, although the block animation (three
    frames of 0.15 s) is not over. *)
Lemma block_state_not_kept :
  let q := BossBattle101.update no_keys (1 # 60) Scenario.blocking in
  BossBattle101.state Scenario.blocking = BossBattle101.block /\
  BossBattle101.current_frame q = 0%nat /\
  BossBattle101.state q = BossBattle101.idle /\
  BossBattle101.state q
  <> select_state_claimed no_keys
       (BossBattle101.jump_phase no_keys
          (BossBattle101.gravity_phase
             (BossBattle101.move_phase no_keys Scenario.blocking))).
Proof.
  cbv zeta. repeat split. vm_compute. discriminate.
Qed.

(** In hamlets_descent034.py an attack ends in the animation step: when the
    frame index reaches the last frame of the attack, the state is idle
    again; until then the step keeps the state. *)
Lemma attack_ends_on_last_frame (dt : Q) (p : Player.t) :
  is_attack (Player.state p) = true ->
  Player.state (Player.animate_phase dt p)
  = (if Qle_bool Player.adelay (Player.timer p + dt)
        && Nat.eqb (Nat.modulo (S (Player.idx p))
                      (Player.anims p (Player.frames p)))
                   (Player.anims p (Player.frames p) - 1)
     then Idle else Player.state p).
Proof.
  intros Ha. unfold Player.animate_phase. player_simpl. rewrite Ha.
  cbn [andb].
  destruct (Qle_bool Player.adelay (Player.timer p + dt)); cbn [andb];
    [| reflexivity].
  destruct (Nat.eqb _ _); reflexivity.
Qed.

(** ** The contact loop of Act I *)

Ltac world_simpl :=
  cbn [
    Main.player Main.ghosts Main.platforms Main.adaptive Main.score
    Main.deaths Main.combo_count Main.combo_timer Main.start_x Main.next_id
    Main.ghost_sheet Main.running Main.set_player Main.set_ghosts
    Main.set_platforms Main.set_adaptive Main.set_score Main.set_deaths
    Main.set_combo_count Main.set_combo_timer Main.set_next_id
    Main.set_running
  ] in *.

Ltac ghost_simpl :=
  cbn [
    GhostEnemy.gid GhostEnemy.sword GhostEnemy.rect GhostEnemy.speed
    GhostEnemy.health GhostEnemy.row GhostEnemy.idx GhostEnemy.timer
    GhostEnemy.bob GhostEnemy.bob_dir GhostEnemy.attack_cooldown
    GhostEnemy.alive GhostEnemy.set_rect GhostEnemy.set_health
    GhostEnemy.set_row GhostEnemy.set_idx GhostEnemy.set_timer
    GhostEnemy.set_bob GhostEnemy.set_bob_dir GhostEnemy.set_attack_cooldown
    GhostEnemy.set_alive GhostEnemy.kill
  ] in *.

(** One contact hit, field by field. *)
Lemma contact_hit_fields (w : Main.t) (g : GhostEnemy.t) :
  let w' := Main.contact_hit w g in
  Main.ghosts w' = Group.put (GhostEnemy.kill g) (Main.ghosts w) /\
  Main.start_x w' = Main.start_x w /\ Main.next_id w' = Main.next_id w /\
  Main.running w' = Main.running w /\
  Player.invulnerable (Main.player w') = 1 /\
  Player.max_health (Main.player w') = Player.max_health (Main.player w) /\
  Player.health (Main.player w') = health_after_contact w.
Proof.
  unfold Main.contact_hit, Main.respawn, health_after_contact.
  player_simpl. world_simpl.
  destruct (Player.health (Main.player w) - 10 <=? 0)%Z;
    player_simpl; world_simpl; repeat split.
Qed.

Lemma contact_hit_lethal (w : Main.t) (g : GhostEnemy.t) :
  (Player.health (Main.player w) - 10 <= 0)%Z ->
  let w' := Main.contact_hit w g in
  Main.deaths w' = (Main.deaths w + 1)%Z /\
  Player.health (Main.player w') = Player.max_health (Main.player w) /\
  Main.combo_count w' = 0%Z /\
  Rect.x (Player.rect (Main.player w')) = Main.start_x w.
Proof.
  intros H. apply Z.leb_le in H.
  unfold Main.contact_hit, Main.respawn. player_simpl. world_simpl.
  rewrite H. player_simpl. world_simpl. repeat split.
Qed.

Lemma contact_hit_not_lethal (w : Main.t) (g : GhostEnemy.t) :
  (0 < Player.health (Main.player w) - 10)%Z ->
  let w' := Main.contact_hit w g in
  Main.deaths w' = Main.deaths w /\
  Main.combo_count w' = Main.combo_count w /\
  Player.rect (Main.player w') = Player.rect (Main.player w).
Proof.
  intros H. apply Z.leb_gt in H.
  unfold Main.contact_hit, Main.respawn. player_simpl. world_simpl.
  rewrite H. player_simpl. world_simpl. repeat split.
Qed.

(** Along the contact loop: either nobody died yet, or the last death left
    the combo counter at 0 and the player at the start coordinate. *)
Lemma contact_loop_respawn (hits : list GhostEnemy.t) (w0 w : Main.t) :
  Main.start_x w = Main.start_x w0 ->
  (Main.deaths w0 <= Main.deaths w)%Z ->
  (Main.deaths w0 < Main.deaths w ->
   Main.combo_count w = 0 /\
   Rect.x (Player.rect (Main.player w)) = Main.start_x w0)%Z ->
  let w' := fold_left Main.contact_hit hits w in
  (Main.deaths w0 <= Main.deaths w')%Z /\
  (Main.deaths w0 < Main.deaths w' ->
   Main.combo_count w' = 0 /\
   Rect.x (Player.rect (Main.player w')) = Main.start_x w0)%Z.
Proof.
  revert w. induction hits as [|g hits IH]; intros w Hs Hd Hr; cbn [fold_left].
  - split; assumption.
  - destruct (contact_hit_fields w g) as (_ & Hs' & _).
    apply IH.
    + rewrite Hs'. exact Hs.
    + destruct (Z_le_gt_dec (Player.health (Main.player w) - 10) 0) as [L | L].
      * destruct (contact_hit_lethal w g L) as (-> & _). lia.
      * destruct (contact_hit_not_lethal w g) as (-> & _); lia.
    + destruct (Z_le_gt_dec (Player.health (Main.player w) - 10) 0) as [L | L].
      * destruct (contact_hit_lethal w g L) as (_ & _ & -> & ->).
        intros _. split; [reflexivity | exact Hs].
      * destruct (contact_hit_not_lethal w g) as (-> & -> & ->); [lia |].
        exact Hr.
Qed.

(** C8.  In the Act I loop a contact hit that takes the player's health to
    0 or below is followed at once, in the same iteration, by the respawn:
    the death counter goes up by one, the health is back at its maximum, the
    combo counter is 0 and the player's x coordinate is the start
    coordinate.  When the contact loop of an iteration is over and a death
    was counted in it, the combo counter is still 0 and the player is still
    at the start coordinate. *)
Theorem lethal_hit_respawns :
  (forall (w : Main.t) (g : GhostEnemy.t),
     (Player.health (Main.player w) - 10 <= 0)%Z ->
     let w' := Main.contact_hit w g in
     Main.deaths w' = (Main.deaths w + 1)%Z /\
     Player.health (Main.player w') = Player.max_health (Main.player w) /\
     Main.combo_count w' = 0%Z /\
     Rect.x (Player.rect (Main.player w')) = Main.start_x w) /\
  (forall w : Main.t,
     let w' := Main.contact_phase w in
     (Main.deaths w <= Main.deaths w')%Z /\
     (Main.deaths w < Main.deaths w' ->
      Main.combo_count w' = 0 /\
      Rect.x (Player.rect (Main.player w')) = Main.start_x w)%Z).
Proof.
  split; [exact contact_hit_lethal |].
  intros w. unfold Main.contact_phase.
  destruct (Qle_bool (Player.invulnerable (Main.player w)) 0).
  - apply contact_loop_respawn; [reflexivity | lia | lia].
  - cbv zeta. split; lia.
Qed.

Lemma lethal_hit_respawns_witness :
  let w' := Main.contact_hit Scenario.last_stand Scenario.ghost0 in
  Main.contact_phase Scenario.last_stand = w' /\
  Main.deaths w' = 1%Z /\ Player.health (Main.player w') = 100%Z /\
  Main.combo_count w' = 0%Z /\ Rect.x (Player.rect (Main.player w')) = 39%Z.
Proof.
  split; [reflexivity |].
  destruct lethal_hit_respawns as [H _].
  apply (H Scenario.last_stand Scenario.ghost0).
  vm_compute. discriminate.
Defined.

(** ** Health after a hit *)

Lemma boss_take_hit_fields (damage : Q) (b : Boss.t) :
  let b' := fst (Boss.take_hit damage b) in
  Boss.health b' = Boss.health b - damage /\
  (Boss.health b - damage <= 0 -> Boss.alive b' = false) /\
  (0 < Boss.health b - damage -> Boss.alive b' = Boss.alive b).
Proof.
  unfold Boss.take_hit.
  destruct (Qle_bool (Boss.health b - damage) 0) eqn:E; cbn.
  - apply Qle_bool_iff in E. repeat split. intros H.
    exfalso. apply (Qlt_irrefl 0).
    apply Qlt_le_trans with (Boss.health b - damage); assumption.
  - repeat split. intros H. apply Qle_bool_iff in H. congruence.
Qed.

Lemma ghost_take_hit_fields (g : GhostEnemy.t) :
  let g' := fst (GhostEnemy.take_hit g) in
  GhostEnemy.gid g' = GhostEnemy.gid g /\
  GhostEnemy.health g' = (GhostEnemy.health g - 1)%Z /\
  GhostEnemy.attack_cooldown g' = GhostEnemy.attack_cooldown g /\
  (GhostEnemy.health g - 1 <= 0 -> GhostEnemy.alive g' = false)%Z /\
  (0 < GhostEnemy.health g - 1 ->
   GhostEnemy.alive g' = GhostEnemy.alive g)%Z.
Proof.
  unfold GhostEnemy.take_hit. ghost_simpl.
  destruct (0 <? GhostEnemy.health g - 1)%Z eqn:E;
    [apply Z.ltb_lt in E | apply Z.ltb_ge in E];
    cbn [fst]; ghost_simpl; repeat split; intros; lia.
Qed.

Lemma health_after_contact_pos (w : Main.t) :
  (0 < Player.max_health (Main.player w))%Z ->
  (0 < health_after_contact w)%Z.
Proof.
  unfold health_after_contact. intros H.
  destruct (Player.health (Main.player w) - 10 <=? 0)%Z eqn:E;
    [exact H | apply Z.leb_gt in E; exact E].
Qed.

Lemma contact_loop_health (hits : list GhostEnemy.t) (w : Main.t) :
  (0 < Player.max_health (Main.player w))%Z ->
  (0 < Player.health (Main.player w))%Z ->
  (0 < Player.health (Main.player (fold_left Main.contact_hit hits w)))%Z.
Proof.
  revert w. induction hits as [|g hits IH]; intros w Hm Hh; cbn [fold_left].
  - exact Hh.
  - destruct (contact_hit_fields w g) as (_ & _ & _ & _ & _ & Em & Eh).
    apply IH.
    + rewrite Em. exact Hm.
    + rewrite Eh. apply health_after_contact_pos, Hm.
Qed.

(** C6 (as amended).  After a hit, an actor that is still active has a
    health above 0: a hit that takes the health of the boss or of a ghost to
    0 or below destroys it at once, and in the Act I loop a contact hit that
    takes the player's health to 0 or below respawns the player at full
    health at once.  The stored health is the health minus the damage: it
    is not clamped at 0. *)
Theorem active_actor_health_positive :
  (forall (damage : Q) (b : Boss.t),
     let b' := fst (Boss.take_hit damage b) in
     Boss.health b' = Boss.health b - damage /\
     (Boss.health b' <= 0 -> Boss.alive b' = false) /\
     (Boss.alive b' = true -> 0 < Boss.health b')) /\
  (forall g : GhostEnemy.t,
     let g' := fst (GhostEnemy.take_hit g) in
     GhostEnemy.health g' = (GhostEnemy.health g - 1)%Z /\
     (GhostEnemy.health g' <= 0 -> GhostEnemy.alive g' = false)%Z /\
     (GhostEnemy.alive g' = true -> 0 < GhostEnemy.health g')%Z) /\
  (forall (w : Main.t) (g : GhostEnemy.t),
     (0 < Player.max_health (Main.player w))%Z ->
     (0 < Player.health (Main.player (Main.contact_hit w g)))%Z) /\
  (forall w : Main.t,
     (0 < Player.max_health (Main.player w))%Z ->
     (0 < Player.health (Main.player w))%Z ->
     (0 < Player.health (Main.player (Main.contact_phase w)))%Z).
Proof.
  split; [| split; [| split]].
  - intros damage b b'. subst b'.
    destruct (boss_take_hit_fields damage b) as (Eh & Hd & _).
    rewrite Eh. split; [reflexivity |]. split; [exact Hd |].
    intros Ha. apply Qnot_le_lt. intros Hle.
    rewrite (Hd Hle) in Ha. discriminate Ha.
  - intros g g'. subst g'.
    destruct (ghost_take_hit_fields g) as (_ & Eh & _ & Hd & _).
    rewrite Eh. split; [reflexivity |]. split; [exact Hd |].
    intros Ha.
    destruct (Z_le_gt_dec (GhostEnemy.health g - 1) 0) as [L | L]; [| lia].
    rewrite (Hd L) in Ha. discriminate Ha.
  - intros w g Hm.
    destruct (contact_hit_fields w g) as (_ & _ & _ & _ & _ & _ & ->).
    apply health_after_contact_pos, Hm.
  - intros w Hm Hh. unfold Main.contact_phase.
    destruct (Qle_bool (Player.invulnerable (Main.player w)) 0);
      [apply contact_loop_health; assumption | exact Hh].
Qed.

Lemma active_actor_health_positive_witness :
  (0 < Player.health (Main.player (Main.contact_phase Scenario.last_stand)))%Z.
Proof.
  destruct active_actor_health_positive as (_ & _ & _ & H).
  apply (H Scenario.last_stand); vm_compute; reflexivity.
Defined.

(** C6 as stated fails: health is not clamped at 0.  A boss hit once without
    and twenty-five times with the damage power-up, alive before the last
    hit, is left with a stored health of -1. *)
Lemma boss_health_goes_negative :
  Boss.alive (Scenario.boss_after (removelast Scenario.boss_hits)) = true /\
  Boss.health (Scenario.boss_after (removelast Scenario.boss_hits)) == 1 /\
  Boss.alive (Scenario.boss_after Scenario.boss_hits) = false /\
  Boss.health (Scenario.boss_after Scenario.boss_hits) == -1 /\
  ~ (0 <= Boss.health (Scenario.boss_after Scenario.boss_hits)).
Proof.
  repeat split. vm_compute. intros H. apply H. reflexivity.
Qed.

(** ** Invulnerability *)

Lemma contact_loop_invulnerable (hits : list GhostEnemy.t) (w : Main.t) :
  Player.invulnerable (Main.player w) = 1 \/ hits <> [] ->
  Player.invulnerable (Main.player (fold_left Main.contact_hit hits w)) = 1.
Proof.
  revert w. induction hits as [|g hits IH]; intros w H; cbn [fold_left].
  - destruct H as [H | H]; [exact H | contradiction].
  - apply IH. left.
    destruct (contact_hit_fields w g) as (_ & _ & _ & _ & E & _). exact E.
Qed.

(** C7 (as amended).  Enemy touching the player, Act I loop: when the
    player's invulnerability countdown is positive at the contact test of an
    iteration, the iteration applies no contact damage and destroys no
    ghost; when it is not positive and a ghost overlaps the player, the
    contact damage of the iteration leaves the countdown at 1.0; the update
    of the player lowers the countdown by [dt], not below 0.  Player
    attacking an enemy: a ghost has no invulnerability; every hit lowers its
    health by 1 and leaves its cooldown as it was. *)
Theorem contact_damage_gated :
  (forall w : Main.t,
     0 < Player.invulnerable (Main.player w) -> Main.contact_phase w = w) /\
  (forall w : Main.t,
     Player.invulnerable (Main.player w) <= 0 ->
     Group.spritecollide (Player.rect (Main.player w)) (Main.ghosts w) <> [] ->
     Player.invulnerable (Main.player (Main.contact_phase w)) = 1) /\
  (forall (dt : Q) (p : Player.t),
     Player.invulnerable (Player.invulnerable_phase dt p)
     = pymax 0 (Player.invulnerable p - dt)) /\
  (forall g : GhostEnemy.t,
     GhostEnemy.health (fst (GhostEnemy.take_hit g))
     = (GhostEnemy.health g - 1)%Z /\
     GhostEnemy.attack_cooldown (fst (GhostEnemy.take_hit g))
     = GhostEnemy.attack_cooldown g).
Proof.
  split; [| split; [| split]].
  - intros w H. unfold Main.contact_phase.
    assert (E : Qle_bool (Player.invulnerable (Main.player w)) 0 = false).
    { apply not_true_iff_false. rewrite Qle_bool_iff.
      apply Qlt_not_le, H. }
    rewrite E. reflexivity.
  - intros w H Hn. unfold Main.contact_phase.
    apply Qle_bool_iff in H. rewrite H.
    apply contact_loop_invulnerable. right. exact Hn.
  - intros dt p. reflexivity.
  - intros g. destruct (ghost_take_hit_fields g) as (_ & Eh & Ec & _).
    split; assumption.
Qed.

Lemma contact_damage_gated_witness :
  Main.contact_phase Scenario.striking = Scenario.striking /\
  Player.invulnerable (Main.player (Main.contact_phase Scenario.swarmed)) = 1.
Proof.
  destruct contact_damage_gated as (H1 & H2 & _).
  split.
  - apply (H1 Scenario.striking). vm_compute. reflexivity.
  - apply (H2 Scenario.swarmed).
    + vm_compute. discriminate.
    + vm_compute. discriminate.
Defined.

(** C7 as stated fails in both directions.  Enemy touching the player: the
    guard is tested once per iteration, so with two ghosts in contact the
    second hit lands while the countdown, just set to 1.0 by the first, is
    positive.  Player attacking an enemy: the attack loop hits the same
    ghost in two attack phases in a row, and the ghost's cooldown is still
    0 after each hit. *)
Lemma damage_despite_countdown :
  (let w1 := Main.contact_hit Scenario.swarmed Scenario.ghost0 in
   let w2 := Main.contact_hit w1 Scenario.ghost1 in
   Main.contact_phase Scenario.swarmed = w2 /\
   Player.health (Main.player Scenario.swarmed) = 100%Z /\
   Player.health (Main.player w1) = 90%Z /\
   0 < Player.invulnerable (Main.player w1) /\
   Player.health (Main.player w2) = 80%Z /\
   ~ (0 < Player.invulnerable (Main.player w1) ->
      Player.health (Main.player w2) = Player.health (Main.player w1))) /\
  (let w1 := Main.frame Scenario.quiet Scenario.striking in
   let w2 := Main.frame Scenario.quiet w1 in
   map GhostEnemy.health (Main.ghosts Scenario.striking) = [3%Z] /\
   map GhostEnemy.health (Main.ghosts w1) = [2%Z] /\
   map GhostEnemy.attack_cooldown (Main.ghosts w1) = [0] /\
   map GhostEnemy.health (Main.ghosts w2) = [1%Z]).
Proof.
  cbv zeta. repeat split.
  intros H. assert (E : 0 < 1) by reflexivity.
  specialize (H E). vm_compute in H. discriminate H.
Qed.

(** ** Contact damage destroys the ghost *)

Lemma NoDup_map_filter {A B : Type} (k : A -> B) (f : A -> bool)
  (l : list A) :
  NoDup (map k l) -> NoDup (map k (filter f l)).
Proof.
  induction l as [|a l IH]; cbn; intros H; [constructor |].
  inversion H as [|? ? Hn Hl]; subst.
  destruct (f a); cbn; [constructor |]; auto.
  intros Hin. apply Hn.
  apply in_map_iff in Hin. destruct Hin as (x & Ex & Hx).
  apply filter_In in Hx. apply in_map_iff. exists x. tauto.
Qed.

Lemma incl_map_filter {A B : Type} (k : A -> B) (f : A -> bool)
  (l : list A) :
  incl (map k (filter f l)) (map k l).
Proof.
  intros b Hb. apply in_map_iff in Hb. destruct Hb as (x & Ex & Hx).
  apply filter_In in Hx. apply in_map_iff. exists x. tauto.
Qed.

Lemma shrinks_refl (grp : Group.t) : shrinks grp grp.
Proof. split; [apply incl_refl | auto]. Qed.

Lemma shrinks_trans (a b c : Group.t) :
  shrinks a b -> shrinks b c -> shrinks a c.
Proof.
  intros [I1 N1] [I2 N2]. split; [eapply incl_tran; eassumption | auto].
Qed.

Lemma shrinks_filter (f : GhostEnemy.t -> bool) (grp : Group.t) :
  shrinks (filter f grp) grp.
Proof.
  split; [apply incl_map_filter | apply NoDup_map_filter].
Qed.

Lemma ghost_update_gid (dt : Q) (g : GhostEnemy.t) :
  GhostEnemy.gid (GhostEnemy.update dt g) = GhostEnemy.gid g.
Proof.
  unfold GhostEnemy.update. ghost_simpl. split_ifs; reflexivity.
Qed.

Lemma shrinks_update (dt : Q) (grp : Group.t) :
  shrinks (Group.update dt grp) grp.
Proof.
  unfold Group.update.
  assert (E : Group.ids (map (GhostEnemy.update dt) grp) = Group.ids grp).
  { unfold Group.ids. rewrite map_map. apply map_ext.
    intros g. apply ghost_update_gid. }
  destruct (shrinks_filter GhostEnemy.alive (map (GhostEnemy.update dt) grp))
    as [I N].
  rewrite E in I, N. split; assumption.
Qed.

Lemma same_iff (g h : GhostEnemy.t) :
  Group.same g h = true <-> GhostEnemy.gid g = GhostEnemy.gid h.
Proof. unfold Group.same. apply Nat.eqb_eq. Qed.

(** Writing back a sprite of the group keeps the identities, or drops one. *)
Lemma shrinks_put (g : GhostEnemy.t) (grp : Group.t) :
  shrinks (Group.put g grp) grp.
Proof.
  unfold Group.put. destruct (GhostEnemy.alive g).
  - assert (E : Group.ids (map (fun h => if Group.same g h then g else h) grp)
                = Group.ids grp).
    { unfold Group.ids. rewrite map_map. apply map_ext. intros h.
      destruct (Group.same g h) eqn:S; [apply same_iff, S | reflexivity]. }
    unfold shrinks. rewrite E. apply shrinks_refl.
  - apply shrinks_filter.
Qed.

(** A killed sprite is in the group no more. *)
Lemma put_killed (g : GhostEnemy.t) (grp : Group.t) :
  ~ In (GhostEnemy.gid g) (Group.ids (Group.put (GhostEnemy.kill g) grp)).
Proof.
  unfold Group.put. ghost_simpl. intros H.
  apply in_map_iff in H. destruct H as (h & Eh & Hh).
  apply filter_In in Hh. destruct Hh as [_ Hs].
  apply negb_true_iff in Hs.
  assert (T : Group.same (GhostEnemy.kill g) h = true)
    by (apply same_iff; ghost_simpl; symmetry; exact Eh).
  congruence.
Qed.

(** The other sprites stay. *)
Lemma put_killed_other (g : GhostEnemy.t) (grp : Group.t) (id : nat) :
  id <> GhostEnemy.gid g -> In id (Group.ids grp) ->
  In id (Group.ids (Group.put (GhostEnemy.kill g) grp)).
Proof.
  unfold Group.put. ghost_simpl. intros Hne H.
  apply in_map_iff in H. destruct H as (h & Eh & Hh).
  apply in_map_iff. exists h. split; [exact Eh |].
  apply filter_In. split; [exact Hh |].
  apply negb_true_iff, not_true_iff_false. intros T.
  apply same_iff in T. ghost_simpl. congruence.
Qed.

Lemma attack_hit_fields (w : Main.t) (g : GhostEnemy.t) :
  Main.ghosts (Main.attack_hit w g)
  = Group.put (fst (GhostEnemy.take_hit g)) (Main.ghosts w) /\
  Main.next_id (Main.attack_hit w g) = Main.next_id w /\
  Main.running (Main.attack_hit w g) = Main.running w.
Proof.
  unfold Main.attack_hit. destruct (GhostEnemy.take_hit g) as [g' points].
  world_simpl. repeat split.
Qed.

Lemma attack_phase_ids (w : Main.t) :
  shrinks (Main.ghosts (Main.attack_phase w)) (Main.ghosts w) /\
  Main.next_id (Main.attack_phase w) = Main.next_id w /\
  Main.running (Main.attack_phase w) = Main.running w.
Proof.
  unfold Main.attack_phase.
  destruct (is_attack _); [| split; [apply shrinks_refl | split; reflexivity]].
  generalize (Group.spritecollide (Player.rect (Main.player w))
                (Main.ghosts w)).
  intros hits.
  enough (H : forall v,
             shrinks (Main.ghosts (fold_left Main.attack_hit hits v))
               (Main.ghosts v) /\
             Main.next_id (fold_left Main.attack_hit hits v) = Main.next_id v /\
             Main.running (fold_left Main.attack_hit hits v) = Main.running v)
    by apply H.
  induction hits as [|g hits IH]; intros v; cbn [fold_left].
  - split; [apply shrinks_refl | split; reflexivity].
  - destruct (IH (Main.attack_hit v g)) as (S & N & R).
    destruct (attack_hit_fields v g) as (Eg & En & Er).
    split; [| split; congruence].
    eapply shrinks_trans; [exact S |]. rewrite Eg. apply shrinks_put.
Qed.

(** Up to the contact test, the group loses ghosts or gains the one new
    ghost of the spawner. *)
Lemma before_contact_ids (i : Main.Input) (w : Main.t) :
  distinct_ghosts w ->
  let wb := Main.before_contact i w in
  distinct_ghosts wb /\ (Main.next_id w <= Main.next_id wb)%nat /\
  (forall id, In id (Group.ids (Main.ghosts wb)) ->
     In id (Group.ids (Main.ghosts w)) \/ (Main.next_id w <= id)%nat) /\
  Main.running wb = Main.running (Main.event_phase i w).
Proof.
  intros [Hn Hb]. unfold Main.before_contact.
  set (w1 := Main.event_phase i (Main.combo_phase i w)).
  assert (H1 : Main.ghosts w1 = Main.ghosts w /\
               Main.next_id w1 = Main.next_id w /\
               Main.running w1 = Main.running (Main.event_phase i w)).
  { subst w1. unfold Main.event_phase, Main.combo_phase. world_simpl.
    split_ifs; world_simpl; repeat split. }
  destruct H1 as (G1 & N1 & R1). clearbody w1.
  set (w2 := Main.update_phase i w1).
  assert (H2 : shrinks (Main.ghosts w2) (Main.ghosts w) /\
               Main.next_id w2 = Main.next_id w /\
               Main.running w2 = Main.running w1).
  { subst w2. unfold Main.update_phase. world_simpl. rewrite G1, N1.
    split; [apply shrinks_update | split; reflexivity]. }
  destruct H2 as ([I2 D2] & N2 & R2). clearbody w2.
  set (w3 := Main.spawn_phase i w2).
  assert (H3 : NoDup (Group.ids (Main.ghosts w3)) /\
               (forall id, In id (Group.ids (Main.ghosts w3)) ->
                  (id < Main.next_id w3)%nat /\
                  (In id (Group.ids (Main.ghosts w)) \/
                   (Main.next_id w <= id)%nat)) /\
               (Main.next_id w <= Main.next_id w3)%nat /\
               Main.running w3 = Main.running w2).
  { subst w3. unfold Main.spawn_phase.
    destruct (Main.spawn i) as [[is_sword y] |]; world_simpl.
    - unfold Group.add, Group.ids. rewrite map_app. cbn [map].
      assert (Eg : GhostEnemy.gid
                     (GhostEnemy.init (Main.next_id w2) is_sword
                        (Main.ghost_sheet w2)
                        (Rect.x (Player.rect (Main.player w2)) + SCREEN_WIDTH)
                        y
                        (if is_sword
                         then AdaptiveEngine.espeed (Main.adaptive w2) * (8 # 10)
                         else AdaptiveEngine.espeed (Main.adaptive w2)))
                   = Main.next_id w2).
      { unfold GhostEnemy.init. destruct (GhostEnemy.frame_size _).
        reflexivity. }
      rewrite Eg, N2. repeat split.
      + apply NoDup_app; [apply D2, Hn | repeat constructor; intros [] |].
        intros a Ha [<- | []]. apply I2, Hb in Ha. lia.
      + apply in_app_iff in H. destruct H as [H | [<- | []]];
          [apply I2, Hb in H |]; lia.
      + apply in_app_iff in H. destruct H as [H | [<- | []]];
          [left; apply I2, H | right; lia].
      + lia.
    - rewrite N2. repeat split.
      + apply D2, Hn.
      + apply Hb, I2, H.
      + left. apply I2, H.
      + lia. }
  destruct H3 as (D3 & B3 & N3 & R3). clearbody w3.
  destruct (attack_phase_ids w3) as ([I4 D4] & N4 & R4).
  cbv zeta. unfold distinct_ghosts. rewrite N4. repeat split.
  - apply D4, D3.
  - intros id H. destruct (B3 id (I4 id H)) as [A _]. exact A.
  - exact N3.
  - intros id H. destruct (B3 id (I4 id H)) as [_ B]. exact B.
  - congruence.
Qed.

(** The contact loop shrinks the group by the ghosts it runs over. *)
Lemma contact_loop_ids (hits : list GhostEnemy.t) (w : Main.t) :
  let w' := fold_left Main.contact_hit hits w in
  shrinks (Main.ghosts w') (Main.ghosts w) /\
  Main.next_id w' = Main.next_id w /\ Main.running w' = Main.running w /\
  (forall id, In id (Group.ids hits) -> ~ In id (Group.ids (Main.ghosts w'))) /\
  (forall id, In id (Group.ids (Main.ghosts w)) -> ~ In id (Group.ids hits) ->
     In id (Group.ids (Main.ghosts w'))).
Proof.
  revert w. induction hits as [|g hits IH]; intros w; cbn [fold_left].
  - cbv zeta. split; [apply shrinks_refl |].
    repeat split; [intros id [] | intros id H _; exact H].
  - destruct (IH (Main.contact_hit w g)) as (S & N & R & Hk & Hs).
    destruct (contact_hit_fields w g) as (Eg & _ & En & Er & _).
    cbv zeta. rewrite N, R, En, Er. rewrite Eg in S, Hs.
    split; [| repeat split].
    + eapply shrinks_trans; [exact S | apply shrinks_put].
    + intros id [<- | H].
      * intros Hin. apply S in Hin. revert Hin. apply put_killed.
      * apply Hk, H.
    + intros id H Hn. cbn [Group.ids map In] in Hn. apply Hs.
      * apply put_killed_other; [| exact H]. intros ->. apply Hn. left.
        reflexivity.
      * intros Hin. apply Hn. right. exact Hin.
Qed.

Lemma contact_phase_ids (w : Main.t) :
  let w' := Main.contact_phase w in
  shrinks (Main.ghosts w') (Main.ghosts w) /\
  Main.next_id w' = Main.next_id w /\ Main.running w' = Main.running w /\
  (forall id, In id (Group.ids (Main.contact_hits w)) ->
     ~ In id (Group.ids (Main.ghosts w'))) /\
  (forall id, In id (Group.ids (Main.ghosts w)) ->
     ~ In id (Group.ids (Main.contact_hits w)) ->
     In id (Group.ids (Main.ghosts w'))).
Proof.
  unfold Main.contact_phase, Main.contact_hits.
  destruct (Qle_bool (Player.invulnerable (Main.player w)) 0).
  - apply contact_loop_ids.
  - cbv zeta. split; [apply shrinks_refl |].
    repeat split; [intros id [] | intros id H _; exact H].
Qed.

(** After the contact loop an iteration leaves the group alone. *)
Lemma frame_tail_ids (i : Main.Input) (w : Main.t) :
  Main.ghosts (Main.transition_phase i (Main.collect_phase i w))
  = Main.ghosts w /\
  Main.next_id (Main.transition_phase i (Main.collect_phase i w))
  = Main.next_id w.
Proof.
  unfold Main.transition_phase, Main.collect_phase. world_simpl.
  split_ifs; world_simpl; split; reflexivity.
Qed.

(** The ghosts that deal contact damage in an iteration are gone when it
    ends; the ghosts of the next iteration are distinct objects again. *)
Lemma frame_ids (i : Main.Input) (w : Main.t) :
  distinct_ghosts w ->
  distinct_ghosts (Main.frame i w) /\
  NoDup (damagers i w) /\
  (Main.next_id w <= Main.next_id (Main.frame i w))%nat /\
  (forall id, In id (damagers i w) ->
     ~ In id (Group.ids (Main.ghosts (Main.frame i w))) /\
     (id < Main.next_id (Main.frame i w))%nat /\
     (In id (Group.ids (Main.ghosts w)) \/ (Main.next_id w <= id)%nat)) /\
  (forall id, In id (Group.ids (Main.ghosts (Main.frame i w))) ->
     In id (Group.ids (Main.ghosts w)) \/ (Main.next_id w <= id)%nat).
Proof.
  intros Hw. unfold Main.frame, damagers.
  destruct (before_contact_ids i w Hw) as ([Db Bb] & Nb & Ob & _).
  set (wb := Main.before_contact i w) in *. clearbody wb.
  destruct (contact_phase_ids wb) as ([Ic Dc] & Nc & _ & Kc & _).
  destruct (frame_tail_ids i (Main.contact_phase wb)) as [Eg En].
  unfold distinct_ghosts. rewrite Eg, En, Nc.
  assert (Hd : incl (Group.ids (Main.contact_hits wb))
                 (Group.ids (Main.ghosts wb)) /\
               NoDup (Group.ids (Main.contact_hits wb))).
  { unfold Main.contact_hits.
    destruct (Qle_bool _ _).
    - destruct (shrinks_filter
                  (fun g => Rect.colliderect (Player.rect (Main.player wb))
                              (GhostEnemy.rect g)) (Main.ghosts wb))
        as [I N].
      split; [exact I | apply N, Db].
    - split; [intros id [] | constructor]. }
  destruct Hd as [Ih Nh].
  repeat split.
  - apply Dc, Db.
  - intros id H. apply Bb, Ic, H.
  - exact Nh.
  - exact Nb.
  - apply Kc, H.
  - apply Bb, Ih, H.
  - apply Ob, Ih, H.
  - intros id H. apply Ob, Ic, H.
Qed.

Lemma damage_log_fresh (inputs : list Main.Input) (w : Main.t) :
  distinct_ghosts w ->
  NoDup (concat (damage_log inputs w)) /\
  (forall id, In id (concat (damage_log inputs w)) ->
     In id (Group.ids (Main.ghosts w)) \/ (Main.next_id w <= id)%nat).
Proof.
  revert w. induction inputs as [|i rest IH]; intros w Hw; cbn [damage_log].
  - split; [constructor | intros id []].
  - destruct (Main.running w); [| split; [constructor | intros id []]].
    cbn [concat].
    destruct (frame_ids i w Hw) as (Hw' & Nd & Nn & Hd & Hg).
    destruct (IH (Main.frame i w) Hw') as (Nl & Hl).
    split.
    + apply NoDup_app; [exact Nd | exact Nl |].
      intros id Hin Hin'. destruct (Hd id Hin) as (Hout & Hlt & _).
      destruct (Hl id Hin') as [H | H]; [exact (Hout H) | lia].
    + intros id Hin. apply in_app_iff in Hin. destruct Hin as [Hin | Hin].
      * apply (Hd id Hin).
      * destruct (Hl id Hin) as [H | H]; [apply Hg, H | right; lia].
Qed.

(** C10.  Act I loop.  Every contact hit lowers the player's health (by 10,
    followed by the respawn when that reaches 0) and kills the ghost that
    touched, in the same pass of the loop.  A ghost that deals contact
    damage in an iteration is not in the group when the iteration ends, and
    the contact loop removes no other ghost.  In a run from a world whose
    ghosts are distinct objects, no ghost deals contact damage twice: not in
    two iterations and not twice in one. *)
Theorem contact_damage_destroys_ghost :
  (forall (w : Main.t) (g : GhostEnemy.t),
     Player.health (Main.player (Main.contact_hit w g))
     = health_after_contact w /\
     ~ In (GhostEnemy.gid g)
          (Group.ids (Main.ghosts (Main.contact_hit w g)))) /\
  (forall (i : Main.Input) (w : Main.t) (id : nat),
     In id (damagers i w) ->
     ~ In id (Group.ids (Main.ghosts (Main.frame i w)))) /\
  (forall (w : Main.t) (id : nat),
     In id (Group.ids (Main.ghosts w)) ->
     (In id (Group.ids (Main.ghosts (Main.contact_phase w)))
      <-> ~ In id (Group.ids (Main.contact_hits w)))) /\
  (forall (inputs : list Main.Input) (w : Main.t),
     distinct_ghosts w -> NoDup (concat (damage_log inputs w))).
Proof.
  split; [| split; [| split]].
  - intros w g.
    destruct (contact_hit_fields w g) as (Eg & _ & _ & _ & _ & _ & Eh).
    split; [exact Eh |]. rewrite Eg. apply put_killed.
  - intros i w id H. unfold Main.frame, damagers in *.
    destruct (frame_tail_ids i
                (Main.contact_phase (Main.before_contact i w))) as [-> _].
    destruct (contact_phase_ids (Main.before_contact i w))
      as (_ & _ & _ & Hk & _).
    apply Hk, H.
  - intros w id H.
    destruct (contact_phase_ids w) as (_ & _ & _ & Hk & Hs).
    split.
    + intros Hin Hd. exact (Hk id Hd Hin).
    + apply Hs, H.
  - intros inputs w Hw. apply (damage_log_fresh inputs w Hw).
Qed.

Lemma contact_damage_destroys_ghost_witness :
  damage_log [Scenario.quiet; Scenario.quiet] Scenario.swarmed
  = [[0%nat; 1%nat]; []] /\
  NoDup (concat (damage_log [Scenario.quiet; Scenario.quiet] Scenario.swarmed)).
Proof.
  split; [reflexivity |].
  destruct contact_damage_destroys_ghost as (_ & _ & _ & H).
  apply (H [Scenario.quiet; Scenario.quiet] Scenario.swarmed).
  split.
  - repeat constructor; cbn; intuition discriminate.
  - intros id H0. cbn in H0. destruct H0 as [<- | [<- | []]]; cbn; lia.
Defined.

(** ** The earlier player: the same three facts

    Companions of C2, C3 and of the end of an attack for
    Hamlet_descent0319.py, whose update has the same jump, gravity and floor
    statements. *)

Ltac player0319_simpl :=
  cbn [
    Player0319.rect Player0319.vx Player0319.vy Player0319.on_ground
    Player0319.state Player0319.frames Player0319.idx Player0319.timer
    Player0319.jump_buffer Player0319.coyote Player0319.anims
    Player0319.set_rect Player0319.set_vx Player0319.set_vy
    Player0319.set_on_ground Player0319.set_state Player0319.set_frames
    Player0319.set_idx Player0319.set_timer Player0319.set_jump_buffer
    Player0319.set_coyote
  ] in *.

Lemma tail_fields_0319 (keys : Keys) (dt : Q) (p : Player0319.t) :
  let q := Player0319.animate_phase dt
             (Player0319.state_phase keys (Player0319.horizontal_phase p)) in
  Player0319.vx q = Player0319.vx p /\ Player0319.vy q = Player0319.vy p /\
  Player0319.on_ground q = Player0319.on_ground p /\
  Player0319.rect q = Rect.add_x (Player0319.vx p) (Player0319.rect p) /\
  Player0319.jump_buffer q = Player0319.jump_buffer p.
Proof.
  unfold Player0319.animate_phase, Player0319.state_phase,
    Player0319.horizontal_phase.
  player0319_simpl. split_ifs; player0319_simpl; repeat split.
Qed.

Lemma jump_frame_velocity_0319 (keys : Keys) (dt : Q) (p : Player0319.t) :
  K_SPACE keys = true ->
  Player0319.on_ground p = true ->
  (Rect.bottom (Player0319.rect p) <= SCREEN_HEIGHT)%Z ->
  Player0319.vy (Player0319.update keys dt p) == - (23 # 2) /\
  Player0319.on_ground (Player0319.update keys dt p) = false.
Proof.
  intros Hk Hg Hb.
  unfold Player0319.update, Player0319.before_jump, Player0319.grace_phase,
    Player0319.move_phase.
  player0319_simpl. rewrite Hg, Hk.
  unfold Player0319.jump_phase, Player0319.jump_fires. player0319_simpl.
  change (Qltb 0 JUMP_BUFFER_TIME && Qltb 0 COYOTE_TIME) with true.
  cbv iota. unfold Player0319.after_jump, Player0319.gravity_phase.
  player0319_simpl.
  unfold Player0319.ground_phase. player0319_simpl.
  assert (Hlt : (SCREEN_HEIGHT
                 <=? Rect.bottom
                       (Rect.add_y (JUMP_STRENGTH + GRAVITY)
                          (Player0319.rect p)))%Z = false).
  { apply Z.leb_gt. unfold Rect.bottom in *. cbn.
    pose proof (to_int_rise (Rect.y (Player0319.rect p))). lia. }
  rewrite Hlt. unfold Player0319.variable_jump_phase. rewrite Hk, andb_false_r.
  match goal with
  | |- context [Player0319.animate_phase dt (Player0319.state_phase keys
                  (Player0319.horizontal_phase ?s))] =>
      destruct (tail_fields_0319 keys dt s) as (_ & -> & -> & _)
  end.
  player0319_simpl. split; reflexivity.
Qed.

Lemma rest_step_0319 (keys : Keys) (dt : Q) (p : Player0319.t) :
  0 <= dt -> idle_keys keys -> at_rest0319 p ->
  at_rest0319 (Player0319.update keys dt p) /\
  Player0319.rect (Player0319.update keys dt p) = Player0319.rect p /\
  Player0319.vx (Player0319.update keys dt p) = 0 /\
  Player0319.vy (Player0319.update keys dt p) = 0.
Proof.
  intros Hdt (Hl & Hr & Hs & _) (Hb & Hvx & Hvy & Hj).
  unfold Player0319.update, Player0319.before_jump, Player0319.grace_phase,
    Player0319.move_phase.
  player0319_simpl. rewrite Hl, Hr, Hs.
  assert (E : Qltb 0 (pymax 0 (Player0319.jump_buffer p - dt)) = false).
  { apply not_true_iff_false. rewrite Qltb_lt, pymax_0_pos. lra. }
  unfold Player0319.jump_phase, Player0319.jump_fires. player0319_simpl.
  rewrite E. cbn [andb].
  unfold Player0319.after_jump, Player0319.gravity_phase. player0319_simpl.
  unfold Player0319.ground_phase. player0319_simpl.
  assert (Hy : (Rect.y (Player0319.rect p)
                <= to_int (inject_Z (Rect.y (Player0319.rect p))
                           + (Player0319.vy p + GRAVITY)))%Z).
  { assert (F : inject_Z (Rect.y (Player0319.rect p))
                + (Player0319.vy p + GRAVITY)
                == inject_Z (Rect.y (Player0319.rect p)) + (0 + GRAVITY))
      by (rewrite Hvy; reflexivity).
    rewrite F. apply to_int_half. }
  assert (Hge : (SCREEN_HEIGHT
                 <=? Rect.bottom
                       (Rect.add_y (Player0319.vy p + GRAVITY)
                          (Player0319.rect p)))%Z = true).
  { apply Z.leb_le. unfold Rect.bottom, Rect.add_y in *.
    cbn [Rect.y Rect.h Rect.set_y]. lia. }
  rewrite Hge. unfold Player0319.variable_jump_phase. player0319_simpl.
  rewrite Qltb_irrefl. cbn [andb].
  match goal with
  | |- context [Player0319.animate_phase dt (Player0319.state_phase keys
                  (Player0319.horizontal_phase ?s))] =>
      destruct (tail_fields_0319 keys dt s) as (Tx & Tv & _ & Tr & Tj);
      set (r := Player0319.animate_phase dt (Player0319.state_phase keys
                  (Player0319.horizontal_phase s))) in *
  end.
  player0319_simpl. clearbody r.
  assert (Rr : Player0319.rect r = Player0319.rect p).
  { rewrite Tr. unfold Rect.add_x, Rect.add_y, Rect.set_bottom.
    cbn [Rect.x Rect.y Rect.w Rect.h Rect.set_x Rect.set_y].
    rewrite to_int_inject.
    destruct (Player0319.rect p) as [x y w h]. unfold Rect.bottom in Hb.
    unfold Rect.set_x, Rect.set_y.
    cbn [Rect.x Rect.y Rect.w Rect.h] in *. f_equal. lia. }
  unfold at_rest0319. rewrite Rr, Tx, Tv, Tj. repeat split.
  - exact Hb.
  - unfold pymax. destruct (Qltb 0 (Player0319.jump_buffer p - dt)) eqn:F.
    + apply Qltb_lt in F. lra.
    + apply Qle_refl.
Qed.

Lemma zero_dt_twice_at_rest_0319 (keys : Keys) (p : Player0319.t) :
  idle_keys keys -> at_rest0319 p ->
  let q := Player0319.update keys 0 (Player0319.update keys 0 p) in
  Player0319.rect q = Player0319.rect p /\
  Player0319.vx q == Player0319.vx p /\ Player0319.vy q == Player0319.vy p.
Proof.
  intros Hk Hr q. subst q.
  destruct (rest_step_0319 keys 0 p (Qle_refl 0) Hk Hr) as (Hr1 & E1 & _ & _).
  destruct (rest_step_0319 keys 0 _ (Qle_refl 0) Hk Hr1) as (_ & E2 & X2 & Y2).
  destruct Hr as (_ & Hx & Hy & _).
  split; [congruence |].
  rewrite X2, Y2, Hx, Hy. split; reflexivity.
Qed.

(** The same two runs as for the later player. *)
Example jump_frame_0319 :
  Player0319.vy
    (Player0319.update Scenario.hold_jump (1 # 60) Scenario.standing0319)
  == - (23 # 2).
Proof. reflexivity. Qed.

Example zero_dt_airborne_0319 :
  let q := Player0319.update no_keys 0
             (Player0319.update no_keys 0 Scenario.airborne0319) in
  Rect.y (Player0319.rect q) = 978%Z /\ Player0319.vy q == 1.
Proof. split; reflexivity. Qed.

(** * Further properties of the code *)

(** ** The player and the floor *)

Lemma bottom_set_bottom (b : Z) (r : Rect.t) :
  Rect.bottom (Rect.set_bottom b r) = b.
Proof. unfold Rect.bottom, Rect.set_bottom, Rect.set_y. cbn. lia. Qed.

Lemma bottom_add_x (v : Q) (r : Rect.t) :
  Rect.bottom (Rect.add_x v r) = Rect.bottom r.
Proof. reflexivity. Qed.

(** Landing: a player that the platform loop leaves on the ground has no
    vertical velocity and stands on the top edge of one of the platforms. *)
Lemma land_on_fold_landing (all pls : list Platform.t) (p : Player.t) :
  incl pls all ->
  (Player.on_ground p = true ->
   Player.vy p = 0 /\
   exists pl, In pl all /\
     Rect.bottom (Player.rect p) = Rect.top (Platform.rect pl)) ->
  let q := fold_left Player.land_on pls p in
  Player.on_ground q = true ->
  Player.vy q = 0 /\
  exists pl, In pl all /\
    Rect.bottom (Player.rect q) = Rect.top (Platform.rect pl).
Proof.
  revert p. induction pls as [|pl pls IH]; intros p Hi Hp; cbn [fold_left].
  - exact Hp.
  - apply IH; [intros a Ha; apply Hi; right; exact Ha |].
    unfold Player.land_on.
    destruct (Qltb 0 (Player.vy p) && _ && _ && _ && _); [| exact Hp].
    player_simpl. intros _. split; [reflexivity |].
    exists pl. split; [apply Hi; left; reflexivity |].
    apply bottom_set_bottom.
Qed.

(** From the floor test on, the update never leaves the player below the
    floor line. *)
Lemma ground_and_after (keys : Keys) (dt : Q) (p : Player.t) :
  let g := Player.ground_phase p in
  let q := Player.animate_phase dt
             (Player.state_phase keys
                (Player.horizontal_phase
                   (Player.variable_jump_phase keys g))) in
  (Rect.bottom (Player.rect q) <= SCREEN_HEIGHT)%Z /\
  (Player.on_ground p = true -> Player.vy p = 0 ->
   (Rect.bottom (Player.rect p) < SCREEN_HEIGHT)%Z ->
   Player.on_ground q = true /\ Player.vy q = 0 /\
   Rect.bottom (Player.rect q) = Rect.bottom (Player.rect p)) /\
  ((SCREEN_HEIGHT <= Rect.bottom (Player.rect p))%Z ->
   Player.on_ground q = true /\ Player.vy q = 0 /\
   Rect.bottom (Player.rect q) = SCREEN_HEIGHT) /\
  (Player.on_ground p = false ->
   (Rect.bottom (Player.rect p) < SCREEN_HEIGHT)%Z ->
   Player.on_ground q = false /\
   (Rect.bottom (Player.rect q) < SCREEN_HEIGHT)%Z).
Proof.
  cbv zeta.
  match goal with
  | |- context [Player.animate_phase dt (Player.state_phase keys
                  (Player.horizontal_phase ?s))] =>
      destruct (tail_fields keys dt s) as (_ & Tv & Tg & Tr & _);
      rewrite Tv, Tg, Tr, bottom_add_x; clear Tv Tg Tr
  end.
  unfold Player.ground_phase.
  destruct (SCREEN_HEIGHT <=? Rect.bottom (Player.rect p))%Z eqn:E;
    [apply Z.leb_le in E | apply Z.leb_gt in E].
  - unfold Player.variable_jump_phase. player_simpl.
    rewrite Qltb_irrefl. cbn [andb]. player_simpl.
    rewrite bottom_set_bottom.
    repeat split; intros; lia.
  - unfold Player.variable_jump_phase.
    split; [| split; [| split]].
    + destruct (Qltb (Player.vy p) 0 && negb (K_SPACE keys));
        player_simpl; lia.
    + intros Hg Hv _. rewrite Hv, Qltb_irrefl. cbn [andb].
      repeat split; assumption.
    + intros H. lia.
    + intros Hg _.
      destruct (Qltb (Player.vy p) 0 && negb (K_SPACE keys));
        player_simpl; split; assumption.
Qed.

(** X1.  After every update of the player of hamlets_descent034.py, whatever
    the input, the bottom edge of its box is not below the floor line; a
    player left on the ground has no vertical velocity and stands on the
    floor line or on the top edge of one of the platforms; a player left in
    the air is strictly above the floor line. *)
Theorem player_never_below_floor (keys : Keys) (dt : Q)
  (pls : list Platform.t) (p : Player.t) :
  let q := Player.update keys dt pls p in
  (Rect.bottom (Player.rect q) <= SCREEN_HEIGHT)%Z /\
  (Player.on_ground q = true ->
   Player.vy q = 0 /\
   (Rect.bottom (Player.rect q) = SCREEN_HEIGHT \/
    exists pl, In pl pls /\
      Rect.bottom (Player.rect q) = Rect.top (Platform.rect pl))) /\
  (Player.on_ground q = false ->
   (Rect.bottom (Player.rect q) < SCREEN_HEIGHT)%Z).
Proof.
  cbv zeta. unfold Player.update, Player.after_jump.
  set (g := Player.gravity_phase _). clearbody g.
  set (f := Player.platform_phase pls g).
  assert (Hf : Player.on_ground f = true ->
               Player.vy f = 0 /\
               exists pl, In pl pls /\
                 Rect.bottom (Player.rect f) = Rect.top (Platform.rect pl)).
  { subst f. unfold Player.platform_phase.
    apply (land_on_fold_landing pls pls); [apply incl_refl |].
    player_simpl. discriminate. }
  clearbody f.
  destruct (ground_and_after keys dt f) as (Hb & Hon & Hfloor & Hair).
  split; [exact Hb |].
  destruct (Z_lt_ge_dec (Rect.bottom (Player.rect f)) SCREEN_HEIGHT)
    as [L | L].
  - destruct (Player.on_ground f) eqn:Eg.
    + destruct (Hf eq_refl) as (Hv & pl & Hin & Hpl).
      destruct (Hon eq_refl Hv L) as (-> & -> & ->).
      split; [| discriminate]. intros _. split; [reflexivity |].
      right. exists pl. split; assumption.
    + destruct (Hair eq_refl L) as (-> & Hlt).
      split; [discriminate | intros _; exact Hlt].
  - destruct Hfloor as (-> & -> & ->); [lia |].
    split; [| discriminate]. intros _. split; [reflexivity | left; reflexivity].
Qed.

Lemma player_never_below_floor_witness :
  Player.vy (Player.update no_keys (1 # 60) [] Scenario.standing) = 0.
Proof.
  destruct (player_never_below_floor no_keys (1 # 60) [] Scenario.standing)
    as (_ & H & _).
  apply H. reflexivity.
Defined.

(** ** The animation of the player *)

Ltac same_animation_phase :=
  unfold same_animation; player_simpl; split_ifs; player_simpl;
  repeat split; reflexivity.

Lemma same_animation_refl (p : Player.t) : same_animation p p.
Proof. unfold same_animation. repeat split. Qed.

Lemma same_animation_trans (p q r : Player.t) :
  same_animation p q -> same_animation q r -> same_animation p r.
Proof.
  unfold same_animation.
  intros (a1 & a2 & a3 & a4 & a5 & a6 & a7) (b1 & b2 & b3 & b4 & b5 & b6 & b7).
  repeat split; congruence.
Qed.

Lemma land_on_animation (pls : list Platform.t) (p : Player.t) :
  same_animation p (fold_left Player.land_on pls p).
Proof.
  revert p. induction pls as [|pl pls IH]; intros p; cbn [fold_left].
  - apply same_animation_refl.
  - apply same_animation_trans with (Player.land_on p pl); [| apply IH].
    unfold Player.land_on. same_animation_phase.
Qed.

Lemma powerups_phase_animation (dt : Q) (p : Player.t) :
  same_animation p (Player.powerups_phase dt p).
Proof. unfold Player.powerups_phase. same_animation_phase. Qed.

Lemma dash_phase_animation (keys : Keys) (dt : Q) (p : Player.t) :
  same_animation p (Player.dash_phase keys dt p).
Proof. unfold Player.dash_phase. same_animation_phase. Qed.

Lemma move_phase_animation (keys : Keys) (dt : Q) (p : Player.t) :
  same_animation p (Player.move_phase keys dt p).
Proof. unfold Player.move_phase. same_animation_phase. Qed.

Lemma invulnerable_phase_animation (dt : Q) (p : Player.t) :
  same_animation p (Player.invulnerable_phase dt p).
Proof. unfold Player.invulnerable_phase. same_animation_phase. Qed.

Lemma grace_phase_animation (keys : Keys) (dt : Q) (p : Player.t) :
  same_animation p (Player.grace_phase keys dt p).
Proof. unfold Player.grace_phase. same_animation_phase. Qed.

Lemma jump_phase_animation (p : Player.t) :
  same_animation p (Player.jump_phase p).
Proof. unfold Player.jump_phase. same_animation_phase. Qed.

Lemma gravity_phase_animation (p : Player.t) :
  same_animation p (Player.gravity_phase p).
Proof. unfold Player.gravity_phase. same_animation_phase. Qed.

Lemma platform_phase_animation (pls : list Platform.t) (p : Player.t) :
  same_animation p (Player.platform_phase pls p).
Proof.
  unfold Player.platform_phase.
  apply same_animation_trans with (Player.set_on_ground false p);
    [same_animation_phase | apply land_on_animation].
Qed.

Lemma ground_phase_animation (p : Player.t) :
  same_animation p (Player.ground_phase p).
Proof. unfold Player.ground_phase. same_animation_phase. Qed.

Lemma variable_jump_phase_animation (keys : Keys) (p : Player.t) :
  same_animation p (Player.variable_jump_phase keys p).
Proof. unfold Player.variable_jump_phase. same_animation_phase. Qed.

Lemma horizontal_phase_animation (p : Player.t) :
  same_animation p (Player.horizontal_phase p).
Proof. unfold Player.horizontal_phase. same_animation_phase. Qed.

(** Up to the state logic the update writes neither the animation fields
    nor the health. *)
Lemma before_state_animation (keys : Keys) (dt : Q) (pls : list Platform.t)
  (p : Player.t) :
  same_animation p
    (Player.horizontal_phase
       (Player.variable_jump_phase keys
          (Player.ground_phase
             (Player.platform_phase pls
                (Player.gravity_phase
                   (Player.jump_phase (Player.before_jump keys dt p))))))).
Proof.
  unfold Player.before_jump.
  eapply same_animation_trans; [| apply horizontal_phase_animation].
  eapply same_animation_trans; [| apply variable_jump_phase_animation].
  eapply same_animation_trans; [| apply ground_phase_animation].
  eapply same_animation_trans; [| apply platform_phase_animation].
  eapply same_animation_trans; [| apply gravity_phase_animation].
  eapply same_animation_trans; [| apply jump_phase_animation].
  eapply same_animation_trans; [| apply grace_phase_animation].
  eapply same_animation_trans; [| apply invulnerable_phase_animation].
  eapply same_animation_trans; [| apply move_phase_animation].
  eapply same_animation_trans; [| apply dash_phase_animation].
  apply powerups_phase_animation.
Qed.

Lemma AnimState_eqb_eq (a b : AnimState) :
  AnimState_eqb a b = true -> a = b.
Proof. destruct a, b; (reflexivity || discriminate). Qed.

(** The state logic and the frame stepping keep the animation valid. *)
Lemma state_animate_valid (keys : Keys) (dt : Q) (p : Player.t) :
  (forall k, (1 <= Player.anims p k)%nat) ->
  anim_valid p ->
  let q := Player.animate_phase dt (Player.state_phase keys p) in
  anim_valid q /\ Player.anims q = Player.anims p /\
  Player.health q = Player.health p /\
  Player.max_health q = Player.max_health p.
Proof.
  intros Hn [Hf Hi]. cbv zeta.
  set (s := Player.state_phase keys p).
  assert (Hs : anim_valid s /\ Player.anims s = Player.anims p /\
               Player.health s = Player.health p /\
               Player.max_health s = Player.max_health p).
  { subst s. unfold Player.state_phase, anim_valid.
    destruct (AnimState_eqb (Player.select_state keys p) (Player.state p)).
    - repeat split; assumption.
    - player_simpl. repeat split.
      specialize (Hn (anims_get (Player.select_state keys p))). lia. }
  destruct Hs as ([Sf Si] & Sa & Sh & Sm). clearbody s.
  unfold Player.animate_phase, anim_valid. player_simpl.
  rewrite <- Sa in Hn.
  destruct (Qle_bool Player.adelay (Player.timer s + dt)).
  - player_simpl.
    destruct (is_attack (Player.state s)
              && Nat.eqb (Nat.modulo (S (Player.idx s))
                            (Player.anims s (Player.frames s)))
                         (Player.anims s (Player.frames s) - 1));
      player_simpl; repeat split; try assumption.
    + specialize (Hn KIdle). lia.
    + apply Nat.mod_upper_bound. specialize (Hn (Player.frames s)). lia.
  - player_simpl. repeat split; assumption.
Qed.

(** X2.  When every animation of the table has at least one frame, an
    update of the player keeps the animation valid: the frame list shown is
    the one of the state (the idle one for the dash state, which has none)
    and the frame index is an index into it.  The update changes neither
    the table nor the health. *)
Theorem update_keeps_animation_valid (keys : Keys) (dt : Q)
  (pls : list Platform.t) (p : Player.t) :
  (forall k, (1 <= Player.anims p k)%nat) ->
  anim_valid p ->
  let q := Player.update keys dt pls p in
  anim_valid q /\ Player.anims q = Player.anims p /\
  Player.health q = Player.health p /\
  Player.max_health q = Player.max_health p.
Proof.
  intros Hn Hv. cbv zeta. unfold Player.update, Player.after_jump.
  destruct (before_state_animation keys dt pls p)
    as (Es & Ef & Ei & _ & Ea & Eh & Em).
  set (r := Player.horizontal_phase _) in *. clearbody r.
  destruct (state_animate_valid keys dt r) as (Hq & Qa & Qh & Qm).
  - rewrite Ea. exact Hn.
  - destruct Hv as [Hf Hi]. unfold anim_valid.
    rewrite Ef, Es, Ei, Ea. split; assumption.
  - repeat split; try apply Hq; congruence.
Qed.

Lemma update_keeps_animation_valid_witness :
  anim_valid
    (Player.update (mkKeys false true false true false false) (1 # 5) []
       Scenario.standing).
Proof.
  apply (update_keeps_animation_valid
           (mkKeys false true false true false false) (1 # 5) []
           Scenario.standing).
  - intros k. vm_compute. lia.
  - split; [reflexivity | vm_compute; lia].
Defined.

(** ** One jump at a time *)

Lemma jump_leaves_ground (keys : Keys) (dt : Q) (pls : list Platform.t)
  (q : Player.t) :
  Player.vy q = JUMP_STRENGTH ->
  (Rect.bottom (Player.rect q) <= SCREEN_HEIGHT)%Z ->
  Player.on_ground (Player.after_jump keys dt pls q) = false.
Proof.
  intros Hv Hb. unfold Player.after_jump.
  set (g := Player.gravity_phase q).
  assert (Hgv : Player.vy g = JUMP_STRENGTH + GRAVITY)
    by (subst g; cbn; rewrite Hv; reflexivity).
  assert (Hgb : (Rect.bottom (Player.rect g) < SCREEN_HEIGHT)%Z).
  { subst g. cbn. rewrite Hv. unfold Rect.bottom in *. cbn.
    pose proof (to_int_rise (Rect.y (Player.rect q))). lia. }
  clearbody g. unfold Player.platform_phase.
  rewrite land_on_not_falling
    by (player_simpl; rewrite Hgv; discriminate).
  destruct (ground_and_after keys dt (Player.set_on_ground false g))
    as (_ & _ & _ & H).
  apply H; [reflexivity | exact Hgb].
Qed.

(** X3.  The jump cannot fire in two updates in a row: when it fires in an
    update of a player whose box is not below the floor line, it does not
    fire in the next update, whatever the keys, as long as time does not run
    backwards. *)
Theorem no_jump_twice_in_a_row (keys1 keys2 : Keys) (dt1 dt2 : Q)
  (pls : list Platform.t) (p : Player.t) :
  0 <= dt2 ->
  (Rect.bottom (Player.rect p) <= SCREEN_HEIGHT)%Z ->
  Player.jump_fires (Player.before_jump keys1 dt1 p) = true ->
  Player.jump_fires
    (Player.before_jump keys2 dt2 (Player.update keys1 dt1 pls p)) = false.
Proof.
  intros Hdt Hb Hf.
  destruct (before_jump_fields keys1 dt1 p) as (Hr & _).
  set (q := Player.before_jump keys1 dt1 p) in *.
  destruct (jump_contract_034 q) as (_ & H & _).
  destruct (H Hf) as (Hv & _ & Hc & _).
  assert (Hjr : Player.rect (Player.jump_phase q) = Player.rect q)
    by (unfold Player.jump_phase; rewrite Hf; reflexivity).
  assert (Hg : Player.on_ground (Player.update keys1 dt1 pls p) = false).
  { unfold Player.update. fold q. apply jump_leaves_ground; [exact Hv |].
    rewrite Hjr, Hr. exact Hb. }
  assert (Hc' : Player.coyote (Player.update keys1 dt1 pls p) = 0).
  { unfold Player.update. fold q.
    destruct (after_jump_timers keys1 dt1 pls (Player.jump_phase q))
      as [-> _]. exact Hc. }
  destruct (before_jump_fields keys2 dt2 (Player.update keys1 dt1 pls p))
    as (_ & _ & _ & Ec & _).
  unfold Player.jump_fires. rewrite Ec, Hg, Hc'.
  assert (E : Qltb 0 (pymax 0 (0 - dt2)) = false).
  { apply not_true_iff_false. rewrite Qltb_lt, pymax_0_pos. lra. }
  rewrite E. apply andb_false_r.
Qed.

Lemma no_jump_twice_in_a_row_witness :
  Player.jump_fires
    (Player.before_jump Scenario.hold_jump (1 # 60)
       (Player.update Scenario.hold_jump (1 # 60) [] Scenario.standing))
  = false.
Proof.
  apply (no_jump_twice_in_a_row Scenario.hold_jump Scenario.hold_jump
           (1 # 60) (1 # 60) [] Scenario.standing).
  - vm_compute. discriminate.
  - vm_compute. discriminate.
  - reflexivity.
Defined.

(** ** Countdowns and the dash *)

Ltac same_countdowns_phase :=
  unfold same_countdowns; player_simpl; split_ifs; player_simpl;
  repeat split; reflexivity.

Lemma same_countdowns_refl (p : Player.t) : same_countdowns p p.
Proof. unfold same_countdowns. repeat split. Qed.

Lemma same_countdowns_trans (p q r : Player.t) :
  same_countdowns p q -> same_countdowns q r -> same_countdowns p r.
Proof.
  unfold same_countdowns.
  intros (a1 & a2 & a3 & a4) (b1 & b2 & b3 & b4).
  repeat split; congruence.
Qed.

Lemma land_on_countdowns (pls : list Platform.t) (p : Player.t) :
  same_countdowns p (fold_left Player.land_on pls p).
Proof.
  revert p. induction pls as [|pl pls IH]; intros p; cbn [fold_left].
  - apply same_countdowns_refl.
  - apply same_countdowns_trans with (Player.land_on p pl); [| apply IH].
    unfold Player.land_on. same_countdowns_phase.
Qed.

(** After the invulnerability countdown, the update writes none of the
    four countdowns. *)
Lemma after_invulnerable_countdowns (keys : Keys) (dt : Q)
  (pls : list Platform.t) (p : Player.t) :
  same_countdowns p
    (Player.after_jump keys dt pls
       (Player.jump_phase (Player.grace_phase keys dt p))).
Proof.
  unfold Player.after_jump.
  apply same_countdowns_trans with (Player.grace_phase keys dt p);
    [unfold Player.grace_phase; same_countdowns_phase |].
  generalize (Player.grace_phase keys dt p). clear p. intros p.
  apply same_countdowns_trans with (Player.jump_phase p);
    [unfold Player.jump_phase; same_countdowns_phase |].
  generalize (Player.jump_phase p). clear p. intros p.
  apply same_countdowns_trans with (Player.gravity_phase p);
    [unfold Player.gravity_phase; same_countdowns_phase |].
  generalize (Player.gravity_phase p). clear p. intros p.
  apply same_countdowns_trans with (Player.platform_phase pls p).
  { unfold Player.platform_phase.
    apply same_countdowns_trans with (Player.set_on_ground false p);
      [same_countdowns_phase | apply land_on_countdowns]. }
  generalize (Player.platform_phase pls p). clear p. intros p.
  apply same_countdowns_trans with (Player.ground_phase p);
    [unfold Player.ground_phase; same_countdowns_phase |].
  generalize (Player.ground_phase p). clear p. intros p.
  apply same_countdowns_trans with (Player.variable_jump_phase keys p);
    [unfold Player.variable_jump_phase; same_countdowns_phase |].
  generalize (Player.variable_jump_phase keys p). clear p. intros p.
  apply same_countdowns_trans with (Player.horizontal_phase p);
    [unfold Player.horizontal_phase; same_countdowns_phase |].
  generalize (Player.horizontal_phase p). clear p. intros p.
  apply same_countdowns_trans with (Player.state_phase keys p);
    [unfold Player.state_phase; same_countdowns_phase |].
  generalize (Player.state_phase keys p). clear p. intros p.
  unfold Player.animate_phase. same_countdowns_phase.
Qed.

(** The four countdowns after an update, from the state before it. *)
Lemma update_countdowns (keys : Keys) (dt : Q) (pls : list Platform.t)
  (p : Player.t) :
  let q := Player.update keys dt pls p in
  Player.powerup_speed q = pymax 0 (Player.powerup_speed p - dt) /\
  Player.powerup_damage q = pymax 0 (Player.powerup_damage p - dt) /\
  Player.dash_cooldown q
  = (if dash_starts keys dt p then DASH_COOLDOWN
     else pymax 0 (Player.dash_cooldown p - dt)) /\
  Player.invulnerable q
  = pymax 0 ((if dash_starts keys dt p then DASH_DURATION
              else Player.invulnerable p) - dt).
Proof.
  cbv zeta. unfold Player.update, Player.before_jump.
  match goal with
  | |- context [Player.grace_phase keys dt ?s] =>
      destruct (after_invulnerable_countdowns keys dt pls s)
        as (-> & -> & -> & ->)
  end.
  unfold Player.invulnerable_phase. player_simpl.
  set (m := Player.move_phase keys dt _).
  match goal with
  | m := Player.move_phase keys dt ?d |- _ =>
      assert (Hm : same_countdowns d m)
        by (subst m; unfold Player.move_phase; same_countdowns_phase);
      set (d0 := d) in *
  end.
  destruct Hm as (-> & -> & -> & ->). clearbody m. clear m.
  subst d0. unfold Player.dash_phase, Player.powerups_phase, dash_starts.
  player_simpl.
  destruct (K_LSHIFT keys
            && Qeq_bool (pymax 0 (Player.dash_cooldown p - dt)) 0
            && negb (Player.dashing p));
    player_simpl; repeat split.
Qed.

Lemma pymax_0_le (a b : Q) : a <= b -> 0 <= b -> pymax 0 a <= b.
Proof.
  intros Ha Hb. unfold pymax. destruct (Qltb 0 a); assumption.
Qed.

Lemma update_grace_timers (keys : Keys) (dt : Q) (pls : list Platform.t)
  (p : Player.t) :
  let q := Player.update keys dt pls p in
  (Player.coyote q = 0 \/
   Player.coyote q
   = (if Player.on_ground p then COYOTE_TIME
      else pymax 0 (Player.coyote p - dt))) /\
  (Player.jump_buffer q = 0 \/
   Player.jump_buffer q
   = (if K_SPACE keys then JUMP_BUFFER_TIME
      else pymax 0 (Player.jump_buffer p - dt))).
Proof.
  cbv zeta. unfold Player.update.
  destruct (before_jump_fields keys dt p) as (_ & _ & _ & Ec & Ej).
  set (b := Player.before_jump keys dt p) in *. clearbody b.
  destruct (after_jump_timers keys dt pls (Player.jump_phase b)) as [-> ->].
  destruct (jump_contract_034 b) as (_ & Hy & Hn).
  destruct (Player.jump_fires b) eqn:F.
  - destruct (Hy eq_refl) as (_ & _ & -> & ->). split; left; reflexivity.
  - rewrite (proj1 Hn eq_refl). split; right; assumption.
Qed.

(** X4.  After every update of the player no countdown is negative: the
    coyote and jump-buffer timers, the invulnerability and dash cooldown and
    the two power-up timers.  With a nonnegative time step the coyote timer,
    the jump buffer and the dash cooldown stay at or below the constant they
    are reset to, if they were before. *)
Theorem countdowns_stay_in_range (keys : Keys) (dt : Q)
  (pls : list Platform.t) (p : Player.t) :
  let q := Player.update keys dt pls p in
  (0 <= Player.coyote q /\ 0 <= Player.jump_buffer q /\
   0 <= Player.invulnerable q /\ 0 <= Player.dash_cooldown q /\
   0 <= Player.powerup_speed q /\ 0 <= Player.powerup_damage q) /\
  (0 <= dt -> Player.coyote p <= COYOTE_TIME ->
   Player.coyote q <= COYOTE_TIME) /\
  (0 <= dt -> Player.jump_buffer p <= JUMP_BUFFER_TIME ->
   Player.jump_buffer q <= JUMP_BUFFER_TIME) /\
  (0 <= dt -> Player.dash_cooldown p <= DASH_COOLDOWN ->
   Player.dash_cooldown q <= DASH_COOLDOWN).
Proof.
  cbv zeta.
  destruct (update_grace_timers keys dt pls p) as (Hc & Hj).
  destruct (update_countdowns keys dt pls p) as (-> & -> & Hd & ->).
  assert (C0 : 0 <= COYOTE_TIME) by discriminate.
  assert (J0 : 0 <= JUMP_BUFFER_TIME) by discriminate.
  assert (D0 : 0 <= DASH_COOLDOWN) by discriminate.
  split; [repeat split |]; [| | | | | | repeat split].
  - destruct Hc as [-> | ->]; [apply Qle_refl |].
    destruct (Player.on_ground p); [exact C0 | apply pymax_0_nonneg].
  - destruct Hj as [-> | ->]; [apply Qle_refl |].
    destruct (K_SPACE keys); [exact J0 | apply pymax_0_nonneg].
  - apply pymax_0_nonneg.
  - rewrite Hd. destruct (dash_starts keys dt p);
      [exact D0 | apply pymax_0_nonneg].
  - apply pymax_0_nonneg.
  - apply pymax_0_nonneg.
  - intros Hdt Hp. destruct Hc as [-> | ->]; [exact C0 |].
    destruct (Player.on_ground p); [apply Qle_refl |].
    apply pymax_0_le; [lra | exact C0].
  - intros Hdt Hp. destruct Hj as [-> | ->]; [exact J0 |].
    destruct (K_SPACE keys); [apply Qle_refl |].
    apply pymax_0_le; [lra | exact J0].
  - intros Hdt Hp. rewrite Hd. destruct (dash_starts keys dt p);
      [apply Qle_refl |].
    apply pymax_0_le; [lra | exact D0].
Qed.

Lemma countdowns_stay_in_range_witness :
  Player.coyote (Player.update no_keys (1 # 60) [] Scenario.airborne)
  <= COYOTE_TIME.
Proof.
  destruct (countdowns_stay_in_range no_keys (1 # 60) [] Scenario.airborne)
    as (_ & H & _).
  apply H; vm_compute; discriminate.
Defined.

Lemma run_time_nonneg (inputs : list (Keys * Q * list Platform.t)) :
  forward_in_time inputs -> 0 <= run_time inputs.
Proof.
  intros H. induction H as [|[[keys dt] pls] rest Hd _ IH]; cbn [run_time].
  - apply Qle_refl.
  - cbn in Hd. lra.
Qed.

(** While the cooldown outlasts the run, no dash starts in it. *)
Lemma cooldown_blocks_dash (inputs : list (Keys * Q * list Platform.t))
  (p : Player.t) :
  forward_in_time inputs ->
  run_time inputs < Player.dash_cooldown p ->
  dash_starts_in_run inputs p = false.
Proof.
  intros H. revert p.
  induction H as [|[[keys dt] pls] rest Hd Hrest IH]; intros p Ht;
    cbn [dash_starts_in_run run_time] in *; [reflexivity |].
  cbn in Hd. pose proof (run_time_nonneg rest Hrest) as Hr.
  assert (Hpos : Qltb 0 (Player.dash_cooldown p - dt) = true)
    by (apply Qltb_lt; lra).
  assert (Hmax : pymax 0 (Player.dash_cooldown p - dt)
                 = Player.dash_cooldown p - dt)
    by (unfold pymax; rewrite Hpos; reflexivity).
  assert (Hs : dash_starts keys dt p = false).
  { unfold dash_starts. rewrite Hmax.
    assert (E : Qeq_bool (Player.dash_cooldown p - dt) 0 = false).
    { apply not_true_iff_false. rewrite Qeq_bool_iff.
      apply Qltb_lt in Hpos. lra. }
    rewrite E, andb_false_r. reflexivity. }
  rewrite Hs. cbn [orb]. apply IH.
  destruct (update_countdowns keys dt pls p) as (_ & _ & -> & _).
  rewrite Hs, Hmax. lra.
Qed.

(** X5.  A dash starts in an update exactly when the shift key is held, the
    cooldown has run out and no dash is in progress; it sets the cooldown
    to [DASH_COOLDOWN] (1 s).  After a dash has started, no other dash
    starts in any run of updates that takes less than [DASH_COOLDOWN]. *)
Theorem dash_waits_for_cooldown (keys : Keys) (dt : Q)
  (pls : list Platform.t) (p : Player.t)
  (inputs : list (Keys * Q * list Platform.t)) :
  dash_starts keys dt p = true ->
  forward_in_time inputs ->
  run_time inputs < DASH_COOLDOWN ->
  Player.dash_cooldown (Player.update keys dt pls p) = DASH_COOLDOWN /\
  dash_starts_in_run inputs (Player.update keys dt pls p) = false.
Proof.
  intros Hs Hf Ht.
  destruct (update_countdowns keys dt pls p) as (_ & _ & Hd & _).
  rewrite Hs in Hd. split; [exact Hd |].
  apply cooldown_blocks_dash; [exact Hf | rewrite Hd; exact Ht].
Qed.

(** ** The clamp of Hamlet_descent0318.py *)

(** The update never resizes the box. *)
Lemma update0319_width (keys : Keys) (dt : Q) (p : Player0319.t) :
  Rect.w (Player0319.rect (Player0319.update keys dt p))
  = Rect.w (Player0319.rect p).
Proof.
  unfold Player0319.update, Player0319.after_jump.
  match goal with
  | |- context [Player0319.animate_phase dt (Player0319.state_phase keys
                  (Player0319.horizontal_phase ?s))] =>
      destruct (tail_fields_0319 keys dt s) as (_ & _ & _ & -> & _)
  end.
  unfold Rect.add_x. cbn [Rect.w Rect.set_x].
  assert (V : forall q, Rect.w (Player0319.rect
                                  (Player0319.variable_jump_phase keys q))
                        = Rect.w (Player0319.rect q))
    by (intros q; unfold Player0319.variable_jump_phase;
        destruct (_ && _); reflexivity).
  assert (G : forall q, Rect.w (Player0319.rect (Player0319.ground_phase q))
                        = Rect.w (Player0319.rect q))
    by (intros q; unfold Player0319.ground_phase;
        destruct (_ <=? _)%Z; reflexivity).
  assert (J : forall q, Rect.w (Player0319.rect (Player0319.jump_phase q))
                        = Rect.w (Player0319.rect q))
    by (intros q; unfold Player0319.jump_phase;
        destruct (Player0319.jump_fires q); reflexivity).
  rewrite V, G. unfold Player0319.gravity_phase. player0319_simpl.
  unfold Rect.add_y. cbn [Rect.w Rect.set_y]. rewrite J. reflexivity.
Qed.

Lemma clamp_x_range (x w : Z) :
  (0 <= Player0318.clamp_x x w)%Z /\
  ((w <= Player0318.LEVEL_WIDTH)%Z ->
   (Player0318.clamp_x x w + w <= Player0318.LEVEL_WIDTH)%Z) /\
  ((0 <= x)%Z -> (x + w <= Player0318.LEVEL_WIDTH)%Z ->
   Player0318.clamp_x x w = x).
Proof.
  unfold Player0318.clamp_x, pyminZ.
  generalize Player0318.LEVEL_WIDTH. intros L.
  destruct (L - w <? x)%Z eqn:E1;
    [apply Z.ltb_lt in E1 | apply Z.ltb_ge in E1].
  - destruct (0 <? L - w)%Z eqn:E2;
      [apply Z.ltb_lt in E2 | apply Z.ltb_ge in E2];
      repeat split; intros; lia.
  - destruct (0 <? x)%Z eqn:E2;
      [apply Z.ltb_lt in E2 | apply Z.ltb_ge in E2];
      repeat split; intros; lia.
Qed.

Lemma clamp_phase_id (u : Player0319.t) :
  Player0318.clamp_x (Rect.x (Player0319.rect u)) (Rect.w (Player0319.rect u))
  = Rect.x (Player0319.rect u) ->
  Player0318.clamp_phase u = u.
Proof.
  unfold Player0318.clamp_phase. intros ->.
  destruct u as [[x y w h] vx vy og st fr ix tm jb co an]. reflexivity.
Qed.

Lemma clamp_phase_facts (u : Player0319.t) :
  (0 <= Rect.x (Player0319.rect (Player0318.clamp_phase u)))%Z /\
  ((Rect.w (Player0319.rect u) <= Player0318.LEVEL_WIDTH)%Z ->
   (Rect.right (Player0319.rect (Player0318.clamp_phase u))
    <= Player0318.LEVEL_WIDTH)%Z) /\
  ((0 <= Rect.x (Player0319.rect u))%Z ->
   (Rect.right (Player0319.rect u) <= Player0318.LEVEL_WIDTH)%Z ->
   Player0318.clamp_phase u = u) /\
  Rect.y (Player0319.rect (Player0318.clamp_phase u))
  = Rect.y (Player0319.rect u) /\
  Player0319.vx (Player0318.clamp_phase u) = Player0319.vx u /\
  Player0319.vy (Player0318.clamp_phase u) = Player0319.vy u /\
  Player0319.state (Player0318.clamp_phase u) = Player0319.state u.
Proof.
  destruct (clamp_x_range (Rect.x (Player0319.rect u))
              (Rect.w (Player0319.rect u))) as (H0 & H1 & H2).
  split; [exact H0 |]. split; [exact H1 |].
  split; [| repeat split].
  intros Hx Hr. apply clamp_phase_id, H2; assumption.
Qed.

Lemma update0318_unfold (keys : Keys) (dt : Q) (p : Player0319.t) :
  Player0318.update keys dt p
  = Player0318.clamp_phase (Player0319.update keys dt p).
Proof. reflexivity. Qed.

(** X6.  After every update of the player of Hamlet_descent0318.py the left
    edge of its box is at or right of 0, and, for a box not wider than the
    level, its right edge is at or left of [LEVEL_WIDTH]; the clamp moves
    nothing else and leaves alone a box that is inside the level. *)
Theorem update0318_stays_in_level (keys : Keys) (dt : Q) (p : Player0319.t) :
  let u := Player0319.update keys dt p in
  let q := Player0318.update keys dt p in
  (0 <= Rect.x (Player0319.rect q))%Z /\
  ((Rect.w (Player0319.rect p) <= Player0318.LEVEL_WIDTH)%Z ->
   (Rect.right (Player0319.rect q) <= Player0318.LEVEL_WIDTH)%Z) /\
  ((0 <= Rect.x (Player0319.rect u))%Z ->
   (Rect.right (Player0319.rect u) <= Player0318.LEVEL_WIDTH)%Z -> q = u) /\
  Rect.y (Player0319.rect q) = Rect.y (Player0319.rect u) /\
  Player0319.vx q = Player0319.vx u /\ Player0319.vy q = Player0319.vy u /\
  Player0319.state q = Player0319.state u.
Proof.
  cbv zeta. rewrite update0318_unfold.
  pose proof (clamp_phase_facts (Player0319.update keys dt p)) as H.
  rewrite (update0319_width keys dt p) in H. exact H.
Qed.

Lemma update0318_stays_in_level_witness :
  (0 <= Rect.x (Player0319.rect
                  (Player0318.update
                     (mkKeys true false false false false false) (1 # 60)
                     (Player0319.set_rect (Rect.mk 2 1077 123 123)
                        Scenario.standing0319))))%Z /\
  Rect.x (Player0319.rect
            (Player0319.update
               (mkKeys true false false false false false) (1 # 60)
               (Player0319.set_rect (Rect.mk 2 1077 123 123)
                  Scenario.standing0319))) = (-3)%Z.
Proof.
  split; [| reflexivity].
  apply (update0318_stays_in_level
           (mkKeys true false false false false false) (1 # 60)
           (Player0319.set_rect (Rect.mk 2 1077 123 123)
              Scenario.standing0319)).
Defined.

(** ** Ghosts: hits, frames, leaving the screen *)

Lemma ghost_take_hit_points (g : GhostEnemy.t) :
  snd (GhostEnemy.take_hit g)
  = (if (0 <? GhostEnemy.health g - 1)%Z then 10 else 20)%Z.
Proof.
  unfold GhostEnemy.take_hit. ghost_simpl.
  destruct (0 <? GhostEnemy.health g - 1)%Z; reflexivity.
Qed.

Lemma take_hits_spec (n : nat) (g : GhostEnemy.t) :
  GhostEnemy.alive g = true -> (0 < GhostEnemy.health g)%Z ->
  (Z.of_nat n < GhostEnemy.health g ->
   GhostEnemy.alive (fst (take_hits n g)) = true /\
   GhostEnemy.health (fst (take_hits n g))
   = GhostEnemy.health g - Z.of_nat n /\
   snd (take_hits n g) = 10 * Z.of_nat n)%Z /\
  (GhostEnemy.health g <= Z.of_nat n ->
   GhostEnemy.alive (fst (take_hits n g)) = false /\
   GhostEnemy.health (fst (take_hits n g)) = 0 /\
   snd (take_hits n g) = 10 * GhostEnemy.health g + 10)%Z.
Proof.
  intros Ha Hh. induction n as [|k [IH1 IH2]].
  - cbn [take_hits fst snd].
    split; [intros _; repeat split; try assumption; lia | lia].
  - cbn [take_hits]. destruct (take_hits k g) as [g1 points].
    cbn [fst snd] in *.
    destruct (Z_lt_ge_dec (Z.of_nat k) (GhostEnemy.health g)) as [L | L].
    + destruct (IH1 L) as (A1 & H1 & P1). rewrite A1.
      pose proof (ghost_take_hit_fields g1) as (_ & Eh & _ & Ed & Es).
      pose proof (ghost_take_hit_points g1) as Ep.
      destruct (GhostEnemy.take_hit g1) as [g2 more]. cbn [fst snd] in *.
      rewrite H1 in *. split.
      * intros L'. rewrite Es by lia.
        assert (E : (0 <? GhostEnemy.health g - Z.of_nat k - 1)%Z = true)
          by (apply Z.ltb_lt; lia).
        rewrite E in Ep. repeat split; [exact A1 | lia | lia].
      * intros L'. rewrite Ed by lia.
        assert (E : (0 <? GhostEnemy.health g - Z.of_nat k - 1)%Z = false)
          by (apply Z.ltb_ge; lia).
        rewrite E in Ep. repeat split; lia.
    + destruct (IH2 ltac:(lia)) as (A1 & H1 & P1). rewrite A1.
      cbn [fst snd]. split; [lia |]. intros _. repeat split; assumption.
Qed.

(** X7.  A live ghost with health [h] survives its first [h - 1] hits,
    each worth 10 points, and is killed by hit number [h], worth 20: after
    [n < h] hits it is alive with health [h - n]; after [h] hits or more
    (a killed ghost is hit no more) it is dead with health 0, and the hits
    returned [10 * h + 10] points in all. *)
Theorem ghost_dies_on_last_hit (n : nat) (g : GhostEnemy.t) :
  GhostEnemy.alive g = true -> (0 < GhostEnemy.health g)%Z ->
  (Z.of_nat n < GhostEnemy.health g ->
   GhostEnemy.alive (fst (take_hits n g)) = true /\
   GhostEnemy.health (fst (take_hits n g))
   = GhostEnemy.health g - Z.of_nat n /\
   snd (take_hits n g) = 10 * Z.of_nat n)%Z /\
  (GhostEnemy.health g <= Z.of_nat n ->
   GhostEnemy.alive (fst (take_hits n g)) = false /\
   GhostEnemy.health (fst (take_hits n g)) = 0 /\
   snd (take_hits n g) = 10 * GhostEnemy.health g + 10)%Z.
Proof. exact (take_hits_spec n g). Qed.

Lemma ghost_dies_on_last_hit_witness :
  GhostEnemy.alive (fst (take_hits 3 Scenario.ghost0)) = false /\
  GhostEnemy.health (fst (take_hits 3 Scenario.ghost0)) = 0%Z /\
  snd (take_hits 3 Scenario.ghost0) = 40%Z.
Proof.
  destruct (ghost_dies_on_last_hit 3 Scenario.ghost0) as [_ H];
    [reflexivity | reflexivity |].
  apply H. vm_compute. discriminate.
Defined.

(** X8.  The frame lookup of a ghost never leaves the sheet: a ghost as
    created (health 3, or 5 for a sword ghost) has a row index between -1
    and 2 and a frame index below 5, and every update and every hit keeps
    it so. *)
Theorem ghost_frame_lookup_in_range :
  (forall (id : nat) (is_sword sheet : bool) (x y : Z) (spd : Q),
     ghost_frame_ok (GhostEnemy.init id is_sword sheet x y spd)) /\
  (forall (dt : Q) (g : GhostEnemy.t),
     ghost_frame_ok g -> ghost_frame_ok (GhostEnemy.update dt g)) /\
  (forall g : GhostEnemy.t,
     ghost_frame_ok g -> ghost_frame_ok (fst (GhostEnemy.take_hit g))).
Proof.
  unfold ghost_frame_ok. split; [| split].
  - intros id is_sword sheet x y spd. unfold GhostEnemy.init.
    destruct (GhostEnemy.frame_size sheet). cbn.
    destruct is_sword; lia.
  - intros dt g (Hi & Hr & Hh). unfold GhostEnemy.update. ghost_simpl.
    assert (M : (S (GhostEnemy.idx g) mod 5 < 5)%nat)
      by (apply Nat.mod_upper_bound; discriminate).
    split_ifs; ghost_simpl; repeat split; lia.
  - intros g (Hi & Hr & Hh). unfold GhostEnemy.take_hit, pyminZ. ghost_simpl.
    destruct (0 <? GhostEnemy.health g - 1)%Z eqn:E;
      [apply Z.ltb_lt in E |]; cbn [fst]; ghost_simpl.
    + destruct (3 - (GhostEnemy.health g - 1) <? 2)%Z eqn:F;
        [apply Z.ltb_lt in F | apply Z.ltb_ge in F]; repeat split; lia.
    + repeat split; lia.
Qed.

Lemma ghost_frame_lookup_in_range_witness :
  ghost_frame_ok
    (fst (GhostEnemy.take_hit
            (GhostEnemy.update (1 # 60)
               (GhostEnemy.init 0 true true 1700 1100 (16 # 10))))) /\
  GhostEnemy.row
    (fst (GhostEnemy.take_hit
            (GhostEnemy.update (1 # 60)
               (GhostEnemy.init 0 true true 1700 1100 (16 # 10))))) = (-1)%Z.
Proof.
  split; [| reflexivity].
  destruct ghost_frame_lookup_in_range as (H0 & H1 & H2).
  apply H2, H1, H0.
Defined.

Lemma to_int_Z (z : Z) : to_int (inject_Z z) = z.
Proof. unfold to_int. cbn. apply Z.quot_1_r. Qed.

Lemma to_int_mono (a b : Q) : a <= b -> (to_int a <= to_int b)%Z.
Proof.
  intros H. rewrite !to_int_floor_ceiling.
  destruct (Qle_bool 0 a) eqn:Ea, (Qle_bool 0 b) eqn:Eb.
  - apply Qfloor_resp_le, H.
  - apply Qle_bool_iff in Ea.
    assert (Hb : Qle_bool 0 b = true) by (apply Qle_bool_iff; lra).
    congruence.
  - assert (Ha : a < 0).
    { apply Qnot_le_lt. intros C. apply Qle_bool_iff in C. congruence. }
    apply Qle_bool_iff in Eb.
    apply Z.le_trans with 0%Z.
    + change 0%Z with (Qceiling 0). apply Qceiling_resp_le. lra.
    + change 0%Z with (Qfloor 0). apply Qfloor_resp_le, Eb.
  - apply Qceiling_resp_le, H.
Qed.

Lemma ghost_update_fields (dt : Q) (g : GhostEnemy.t) :
  let u := GhostEnemy.update dt g in
  GhostEnemy.speed u = GhostEnemy.speed g /\
  Rect.w (GhostEnemy.rect u) = Rect.w (GhostEnemy.rect g) /\
  Rect.x (GhostEnemy.rect u)
  = to_int (inject_Z (Rect.x (GhostEnemy.rect g)) + - GhostEnemy.speed g) /\
  GhostEnemy.alive u
  = (if (Rect.right (GhostEnemy.rect u) <? 0)%Z then false
     else GhostEnemy.alive g).
Proof.
  unfold GhostEnemy.update. ghost_simpl. cbv zeta.
  unfold Rect.add_x, Rect.add_y, Rect.right.
  cbn [Rect.x Rect.y Rect.w Rect.h Rect.set_x Rect.set_y].
  split_ifs; ghost_simpl; cbn [Rect.x Rect.w] in *; repeat split;
    congruence.
Qed.

Lemma dead_ghost_stays_dead (dts : list Q) (g : GhostEnemy.t) :
  GhostEnemy.alive g = false ->
  GhostEnemy.alive (ghost_updates dts g) = false.
Proof.
  revert g. induction dts as [|dt rest IH]; intros g H; cbn [ghost_updates].
  - exact H.
  - apply IH. destruct (ghost_update_fields dt g) as (_ & _ & _ & ->).
    rewrite H. destruct (_ <? _)%Z; reflexivity.
Qed.

Lemma ghost_update_step (dt : Q) (g : GhostEnemy.t) :
  1 <= GhostEnemy.speed g ->
  GhostEnemy.speed (GhostEnemy.update dt g) = GhostEnemy.speed g /\
  (Rect.right (GhostEnemy.rect (GhostEnemy.update dt g))
   <= Rect.right (GhostEnemy.rect g) - 1)%Z /\
  ((Rect.right (GhostEnemy.rect (GhostEnemy.update dt g)) < 0)%Z ->
   GhostEnemy.alive (GhostEnemy.update dt g) = false).
Proof.
  intros Hs. destruct (ghost_update_fields dt g) as (Es & Ew & Ex & Ea).
  split; [exact Es |]. split.
  - unfold Rect.right. rewrite Ew, Ex.
    assert (Hx : (to_int (inject_Z (Rect.x (GhostEnemy.rect g))
                          + - GhostEnemy.speed g)
                  <= Rect.x (GhostEnemy.rect g) - 1)%Z).
    { rewrite <- (to_int_Z (Rect.x (GhostEnemy.rect g) - 1)).
      apply to_int_mono. unfold Z.sub. rewrite inject_Z_plus, inject_Z_opp.
      change (inject_Z 1) with 1. lra. }
    lia.
  - intros L. rewrite Ea. apply Z.ltb_lt in L. rewrite L. reflexivity.
Qed.

(** X9.  Off-screen cleanup happens: a ghost whose speed is at least 1
    moves left by at least one pixel per update, and is killed by the update
    that takes its right edge below 0; a ghost whose right edge is at
    [r >= 0] is dead after any [r + 1] updates or more. *)
Theorem ghost_leaves_screen (dts : list Q) (g : GhostEnemy.t) :
  1 <= GhostEnemy.speed g ->
  (0 <= Rect.right (GhostEnemy.rect g))%Z ->
  (Rect.right (GhostEnemy.rect g) < Z.of_nat (length dts))%Z ->
  GhostEnemy.alive (ghost_updates dts g) = false.
Proof.
  revert g. induction dts as [|dt rest IH]; intros g Hs H0 Hn.
  - cbn [length] in Hn. lia.
  - change (ghost_updates (dt :: rest) g)
      with (ghost_updates rest (GhostEnemy.update dt g)).
    change (length (dt :: rest)) with (S (length rest)) in Hn.
    destruct (ghost_update_step dt g Hs) as (Es & Hr & Hk).
    destruct (Z_lt_ge_dec (Rect.right (GhostEnemy.rect
                                         (GhostEnemy.update dt g))) 0)
      as [L | L].
    + apply dead_ghost_stays_dead, Hk, L.
    + apply IH; [rewrite Es; exact Hs | lia | lia].
Qed.

Lemma ghost_leaves_screen_witness :
  GhostEnemy.alive
    (ghost_updates (repeat (1 # 60) 5)
       (GhostEnemy.set_rect (Rect.mk (-58) 1098 61 102) Scenario.ghost0))
  = false.
Proof.
  apply ghost_leaves_screen.
  - vm_compute. discriminate.
  - vm_compute. discriminate.
  - vm_compute. reflexivity.
Defined.

(** ** The difficulty knobs stay in range *)

Lemma pymax_bounds (lo x hi : Q) :
  lo <= hi -> x <= hi -> lo <= pymax lo x /\ pymax lo x <= hi.
Proof.
  intros H1 H2. unfold pymax. destruct (Qltb lo x) eqn:E.
  - apply Qltb_lt in E. split; [lra | exact H2].
  - split; [apply Qle_refl | exact H1].
Qed.

Lemma pymin_bounds (hi x lo : Q) :
  lo <= hi -> lo <= x -> lo <= pymin hi x /\ pymin hi x <= hi.
Proof.
  intros H1 H2. unfold pymin. destruct (Qltb x hi) eqn:E.
  - apply Qltb_lt in E. split; [exact H2 | lra].
  - split; [exact H1 | apply Qle_refl].
Qed.

Lemma adaptive_update_in_range (perf : AdaptiveEngine.Perf)
  (a : AdaptiveEngine.t) :
  adaptive_in_range a -> adaptive_in_range (AdaptiveEngine.update perf a).
Proof.
  unfold adaptive_in_range, AdaptiveEngine.update.
  intros ((D1 & D2) & (E1 & E2) & (S1 & S2)).
  destruct (3 <? AdaptiveEngine.perf_deaths perf)%Z;
    [| destruct ((AdaptiveEngine.perf_deaths perf =? 0)%Z
                 && Qltb (AdaptiveEngine.perf_time perf) 60)];
    cbn [AdaptiveEngine.diff AdaptiveEngine.espeed AdaptiveEngine.spawn_rate].
  - split; [| split]; apply pymax_bounds; lra.
  - split; [| split]; apply pymin_bounds; lra.
  - tauto.
Qed.

Lemma adaptive_init_in_range : adaptive_in_range AdaptiveEngine.init.
Proof.
  unfold adaptive_in_range. cbn.
  split; [| split]; split; discriminate.
Qed.

(** X10.  The difficulty knobs never leave the bounds written in the
    update: the engine as created is within them ([diff] in 0.5..2,
    [espeed] in 1..5, [spawn_rate] in 0.005..0.02), and any sequence of
    updates of an engine within them ends within them. *)
Theorem adaptive_knobs_stay_in_range :
  adaptive_in_range AdaptiveEngine.init /\
  (forall (perfs : list AdaptiveEngine.Perf) (a : AdaptiveEngine.t),
     adaptive_in_range a -> adaptive_in_range (adaptive_updates perfs a)).
Proof.
  split.
  - exact adaptive_init_in_range.
  - intros perfs. induction perfs as [|perf rest IH]; intros a H;
      cbn [adaptive_updates]; [exact H |].
    apply IH, adaptive_update_in_range, H.
Qed.

Lemma adaptive_knobs_stay_in_range_witness :
  adaptive_in_range
    (adaptive_updates
       (repeat (AdaptiveEngine.mkPerf 9 300) 12) AdaptiveEngine.init) /\
  AdaptiveEngine.espeed
    (adaptive_updates
       (repeat (AdaptiveEngine.mkPerf 9 300) 12) AdaptiveEngine.init) == 1.
Proof.
  destruct adaptive_knobs_stay_in_range as [H0 H].
  split; [apply H, H0 | reflexivity].
Defined.

(** X11.  An update of an engine within its bounds moves each knob in one
    direction only: with more than 3 deaths no knob goes up, and with no
    death in less than 60 seconds no knob goes down. *)
Theorem adaptive_update_direction (perf : AdaptiveEngine.Perf)
  (a : AdaptiveEngine.t) :
  adaptive_in_range a ->
  let a' := AdaptiveEngine.update perf a in
  ((3 < AdaptiveEngine.perf_deaths perf)%Z ->
   AdaptiveEngine.diff a' <= AdaptiveEngine.diff a /\
   AdaptiveEngine.espeed a' <= AdaptiveEngine.espeed a /\
   AdaptiveEngine.spawn_rate a' <= AdaptiveEngine.spawn_rate a) /\
  (AdaptiveEngine.perf_deaths perf = 0%Z ->
   AdaptiveEngine.perf_time perf < 60 ->
   AdaptiveEngine.diff a <= AdaptiveEngine.diff a' /\
   AdaptiveEngine.espeed a <= AdaptiveEngine.espeed a' /\
   AdaptiveEngine.spawn_rate a <= AdaptiveEngine.spawn_rate a').
Proof.
  unfold adaptive_in_range, AdaptiveEngine.update.
  intros ((D1 & D2) & (E1 & E2) & (S1 & S2)). cbv zeta. split.
  - intros H. apply Z.ltb_lt in H. rewrite H.
    cbn [AdaptiveEngine.diff AdaptiveEngine.espeed AdaptiveEngine.spawn_rate].
    split; [| split];
      (eapply proj2; apply pymax_bounds; lra).
  - intros H0 Ht. rewrite H0. apply Qltb_lt in Ht. rewrite Ht.
    cbn [Z.ltb Z.compare Z.eqb andb].
    cbn [AdaptiveEngine.diff AdaptiveEngine.espeed AdaptiveEngine.spawn_rate].
    split; [| split];
      (eapply proj1; apply pymin_bounds; lra).
Qed.

Lemma adaptive_update_direction_witness :
  AdaptiveEngine.diff
    (AdaptiveEngine.update (AdaptiveEngine.mkPerf 0 30) AdaptiveEngine.init)
  == 11 # 10 /\
  AdaptiveEngine.diff AdaptiveEngine.init
  <= AdaptiveEngine.diff
       (AdaptiveEngine.update (AdaptiveEngine.mkPerf 0 30)
          AdaptiveEngine.init).
Proof.
  split; [reflexivity |].
  destruct (adaptive_update_direction (AdaptiveEngine.mkPerf 0 30)
              AdaptiveEngine.init adaptive_init_in_range) as [_ H].
  apply H; reflexivity.
Defined.

(** ** Health, score and combo along the Act I loop *)

(** The update of the player writes neither its health nor its maximum. *)
Lemma update_health (keys : Keys) (dt : Q) (pls : list Platform.t)
  (p : Player.t) :
  Player.health (Player.update keys dt pls p) = Player.health p /\
  Player.max_health (Player.update keys dt pls p) = Player.max_health p.
Proof.
  unfold Player.update, Player.after_jump.
  destruct (before_state_animation keys dt pls p)
    as (_ & _ & _ & _ & _ & Eh & Em).
  set (r := Player.horizontal_phase _) in *. clearbody r.
  rewrite <- Eh, <- Em.
  unfold Player.animate_phase, Player.state_phase. player_simpl.
  split_ifs; player_simpl; split; reflexivity.
Qed.

Lemma attack_loop_fields (hits : list GhostEnemy.t) (w : Main.t) :
  let w' := fold_left Main.attack_hit hits w in
  Main.player w' = Main.player w /\ Main.deaths w' = Main.deaths w /\
  ((0 <= Main.combo_count w)%Z ->
   (0 <= Main.combo_count w')%Z /\ (Main.score w <= Main.score w')%Z).
Proof.
  revert w. induction hits as [|g hits IH]; intros w; cbn [fold_left].
  - cbv zeta. repeat split; lia.
  - destruct (IH (Main.attack_hit w g)) as (Ep & Ed & Hc).
    cbv zeta. rewrite Ep, Ed.
    pose proof (ghost_take_hit_points g) as Hp.
    unfold Main.attack_hit in *.
    destruct (GhostEnemy.take_hit g) as [g' points]. cbn [snd] in Hp.
    world_simpl. split; [reflexivity |]. split; [reflexivity |].
    intros H0.
    assert (P : (10 <= points)%Z)
      by (rewrite Hp; destruct (0 <? GhostEnemy.health g - 1)%Z; lia).
    destruct Hc as [C S]; [lia |]. split; [exact C | nia].
Qed.

(** Up to the contact test: the health is untouched, the score does not go
    down, the combo counter does not go below 0. *)
Lemma before_contact_fields (i : Main.Input) (w : Main.t) :
  let wb := Main.before_contact i w in
  Player.health (Main.player wb) = Player.health (Main.player w) /\
  Player.max_health (Main.player wb) = Player.max_health (Main.player w) /\
  Main.deaths wb = Main.deaths w /\
  ((0 <= Main.combo_count w)%Z ->
   (0 <= Main.combo_count wb)%Z /\ (Main.score w <= Main.score wb)%Z).
Proof.
  cbv zeta. unfold Main.before_contact, Main.attack_phase.
  set (w3 := Main.spawn_phase i _).
  assert (H3 : Player.health (Main.player w3) = Player.health (Main.player w) /\
               Player.max_health (Main.player w3)
               = Player.max_health (Main.player w) /\
               Main.deaths w3 = Main.deaths w /\
               Main.score w3 = Main.score w /\
               ((0 <= Main.combo_count w)%Z -> (0 <= Main.combo_count w3)%Z)).
  { subst w3. unfold Main.spawn_phase, Main.update_phase, Main.event_phase,
      Main.combo_phase.
    destruct (update_health (Main.keys i) (Main.dt i) (Main.platforms w)
                (Main.player w)) as [Eh Em].
    destruct (Main.spawn i) as [[is_sword y] |]; world_simpl;
      destruct (Qeq_bool (pymax 0 (Main.combo_timer w - Main.dt i)) 0);
      destruct (Main.quit i); world_simpl;
      (repeat split; [exact Eh | exact Em | lia]). }
  destruct H3 as (Eh & Em & Ed & Es & Hc). clearbody w3.
  destruct (attack_loop_fields
              (Group.spritecollide (Player.rect (Main.player w3))
                 (Main.ghosts w3)) w3) as (Ap & Ad & Ac).
  destruct (is_attack (Player.state (Main.player w3))).
  - rewrite Ap, Ad.
    split; [exact Eh |]. split; [exact Em |]. split; [exact Ed |].
    intros H. destruct (Ac (Hc H)) as [C S]. split; [exact C | lia].
  - split; [exact Eh |]. split; [exact Em |]. split; [exact Ed |].
    intros H. split; [apply Hc, H | lia].
Qed.

Lemma contact_loop_fields (hits : list GhostEnemy.t) (w : Main.t) :
  let w' := fold_left Main.contact_hit hits w in
  Main.score w' = Main.score w /\
  Player.max_health (Main.player w') = Player.max_health (Main.player w) /\
  ((0 <= Main.combo_count w)%Z -> (0 <= Main.combo_count w')%Z) /\
  (health_in_range (Main.player w) -> health_in_range (Main.player w')).
Proof.
  revert w. induction hits as [|g hits IH]; intros w; cbn [fold_left].
  - cbv zeta. split; [reflexivity |]. split; [reflexivity |]. split; auto.
  - destruct (IH (Main.contact_hit w g)) as (Es & Em & Hc & Hh).
    destruct (contact_hit_fields w g) as (_ & _ & _ & _ & _ & Fm & Fh).
    cbv zeta. rewrite Es, Em, Fm.
    assert (S1 : Main.score (Main.contact_hit w g) = Main.score w /\
                 ((0 <= Main.combo_count w)%Z ->
                  (0 <= Main.combo_count (Main.contact_hit w g))%Z)).
    { unfold Main.contact_hit, Main.respawn. player_simpl. world_simpl.
      destruct (Player.health (Main.player w) - 10 <=? 0)%Z; world_simpl;
        (split; [reflexivity | intros; lia]). }
    destruct S1 as [S1 C1].
    split; [exact S1 |]. split; [reflexivity |]. split.
    + intros H. apply Hc, C1, H.
    + intros H. apply Hh. unfold health_in_range in *.
      rewrite Fh, Fm. unfold health_after_contact.
      destruct (Player.health (Main.player w) - 10 <=? 0)%Z eqn:E;
        [| apply Z.leb_gt in E]; lia.
Qed.

Lemma collect_loop_fields (ks : list PowerUpType) (p : Player.t) :
  Player.max_health (fold_left Main.collect ks p) = Player.max_health p /\
  (health_in_range p -> health_in_range (fold_left Main.collect ks p)).
Proof.
  revert p. induction ks as [|k ks IH]; intros p; cbn [fold_left].
  - split; auto.
  - destruct (IH (Main.collect p k)) as [Em Hh].
    assert (C : Player.max_health (Main.collect p k) = Player.max_health p /\
                (health_in_range p -> health_in_range (Main.collect p k))).
    { unfold Main.collect, health_in_range, pyminZ.
      destruct k; player_simpl; split; try reflexivity; try tauto.
      intros H.
      destruct (Player.health p + 30 <? Player.max_health p)%Z eqn:E;
        [apply Z.ltb_lt in E | apply Z.ltb_ge in E]; lia. }
    destruct C as [Cm Ch]. rewrite Em. split; [exact Cm |].
    intros H. apply Hh, Ch, H.
Qed.

(** One iteration of the loop. *)
Lemma frame_health_score (i : Main.Input) (w : Main.t) :
  let w' := Main.frame i w in
  Player.max_health (Main.player w') = Player.max_health (Main.player w) /\
  (health_in_range (Main.player w) -> health_in_range (Main.player w')) /\
  (Main.deaths w <= Main.deaths w')%Z /\
  ((0 <= Main.combo_count w)%Z ->
   (0 <= Main.combo_count w')%Z /\ (Main.score w <= Main.score w')%Z).
Proof.
  cbv zeta. unfold Main.frame.
  destruct (before_contact_fields i w) as (Bh & Bm & Bd & Bc).
  set (wb := Main.before_contact i w) in *. clearbody wb.
  set (wc := Main.contact_phase wb).
  assert (Hc : Main.score wc = Main.score wb /\
               Player.max_health (Main.player wc)
               = Player.max_health (Main.player wb) /\
               ((0 <= Main.combo_count wb)%Z ->
                (0 <= Main.combo_count wc)%Z) /\
               (health_in_range (Main.player wb) ->
                health_in_range (Main.player wc)) /\
               (Main.deaths wb <= Main.deaths wc)%Z).
  { subst wc. unfold Main.contact_phase.
    destruct (Qle_bool (Player.invulnerable (Main.player wb)) 0).
    - destruct (contact_loop_fields
                  (Group.spritecollide (Player.rect (Main.player wb))
                     (Main.ghosts wb)) wb) as (A & B & C & D).
      split; [exact A |]. split; [exact B |]. split; [exact C |].
      split; [exact D |].
      apply contact_loop_respawn; [reflexivity | lia | lia].
    - split; [reflexivity |]. split; [reflexivity |]. split; [auto |].
      split; [auto | lia]. }
  destruct Hc as (Cs & Cm & Cc & Ch & Cd). clearbody wc.
  destruct (collect_loop_fields (Main.collected i) (Main.player wc))
    as [Km Kh].
  unfold Main.transition_phase, Main.collect_phase. world_simpl.
  assert (Hw : health_in_range (Main.player w) ->
               health_in_range (Main.player wb))
    by (unfold health_in_range; rewrite Bh, Bm; tauto).
  destruct (_ <=? _)%Z; world_simpl; rewrite Km, Cm, Bm, Cs;
    (split; [reflexivity |]); (split; [intros H; apply Kh, Ch, Hw, H |]);
    (split; [lia |]); intros H; (split; [apply Cc, Bc, H | apply Bc, H]).
Qed.

(** X12.  Along any run of the Act I loop the player's health stays
    positive and at most its maximum, which never changes, and the death
    counter never goes down: contact damage that would empty the health is
    followed by the respawn, and a health power-up is capped at the
    maximum. *)
Theorem act1_health_stays_in_range (inputs : list Main.Input) (w : Main.t) :
  health_in_range (Main.player w) ->
  health_in_range (Main.player (Main.run inputs w)) /\
  Player.max_health (Main.player (Main.run inputs w))
  = Player.max_health (Main.player w) /\
  (Main.deaths w <= Main.deaths (Main.run inputs w))%Z.
Proof.
  revert w. induction inputs as [|i rest IH]; intros w H; cbn [Main.run].
  - split; [exact H |]. split; [reflexivity | lia].
  - destruct (Main.running w); [| split; [exact H |]; split;
                                    [reflexivity | lia]].
    destruct (frame_health_score i w) as (Fm & Fh & Fd & _).
    destruct (IH (Main.frame i w) (Fh H)) as (Rh & Rm & Rd).
    split; [exact Rh |]. split; [congruence | lia].
Qed.

Lemma act1_health_stays_in_range_witness :
  Player.health
    (Main.player
       (Main.run [Scenario.quiet; Scenario.quiet] Scenario.last_stand))
  = 100%Z /\
  health_in_range
    (Main.player
       (Main.run [Scenario.quiet; Scenario.quiet] Scenario.last_stand)).
Proof.
  split; [reflexivity |].
  apply (act1_health_stays_in_range [Scenario.quiet; Scenario.quiet]
           Scenario.last_stand).
  unfold health_in_range. vm_compute. split; [reflexivity | discriminate].
Defined.

(** X13.  Along any run of the Act I loop that starts with a combo counter
    at or above 0, the combo counter never goes below 0 and the score never
    goes down: every hit on a ghost adds its points, 10 or 20, times the
    combo counter plus one. *)
Theorem act1_score_never_drops (inputs : list Main.Input) (w : Main.t) :
  (0 <= Main.combo_count w)%Z ->
  (0 <= Main.combo_count (Main.run inputs w))%Z /\
  (Main.score w <= Main.score (Main.run inputs w))%Z.
Proof.
  revert w. induction inputs as [|i rest IH]; intros w H; cbn [Main.run].
  - split; [exact H | lia].
  - destruct (Main.running w); [| split; [exact H | lia]].
    destruct (frame_health_score i w) as (_ & _ & _ & Fc).
    destruct (Fc H) as [C S].
    destruct (IH (Main.frame i w) C) as (Rc & Rs).
    split; [exact Rc | lia].
Qed.

Lemma act1_score_never_drops_witness :
  Main.score (Main.run [Scenario.quiet; Scenario.quiet] Scenario.striking)
  = 30%Z /\
  (Main.score Scenario.striking
   <= Main.score
        (Main.run [Scenario.quiet; Scenario.quiet] Scenario.striking))%Z.
Proof.
  split; [reflexivity |].
  apply (act1_score_never_drops [Scenario.quiet; Scenario.quiet]
           Scenario.striking).
  vm_compute. discriminate.
Defined.

(** ** The boss-battle player: attack lock and jump counter *)

Ltac player101_simpl :=
  cbn [
    BossBattle101.health BossBattle101.state BossBattle101.current_frame
    BossBattle101.rect BossBattle101.world_x BossBattle101.world_y
    BossBattle101.vel_x BossBattle101.vel_y BossBattle101.on_ground
    BossBattle101.jump_pressed BossBattle101.jump_count
    BossBattle101.max_jumps BossBattle101.animation_timer
    BossBattle101.animations BossBattle101.set_state
    BossBattle101.set_current_frame BossBattle101.set_rect
    BossBattle101.set_world_x BossBattle101.set_world_y
    BossBattle101.set_vel_x BossBattle101.set_vel_y
    BossBattle101.set_on_ground BossBattle101.set_jump_pressed
    BossBattle101.set_jump_count BossBattle101.set_animation_timer
  ] in *.

(** The last three phases write neither the velocity, the jump counter,
    the jump limit nor the health. *)
Lemma tail101_fields (keys : Keys) (dt : Q) (p : BossBattle101.t) :
  let q := BossBattle101.sync_phase
             (BossBattle101.animate_phase dt
                (BossBattle101.state_phase keys p)) in
  BossBattle101.vel_x q = BossBattle101.vel_x p /\
  BossBattle101.vel_y q = BossBattle101.vel_y p /\
  BossBattle101.jump_count q = BossBattle101.jump_count p /\
  BossBattle101.max_jumps q = BossBattle101.max_jumps p /\
  BossBattle101.health q = BossBattle101.health p.
Proof.
  cbv zeta. unfold BossBattle101.sync_phase. player101_simpl.
  set (s := BossBattle101.state_phase keys p).
  assert (Hs : BossBattle101.vel_x s = BossBattle101.vel_x p /\
               BossBattle101.vel_y s = BossBattle101.vel_y p /\
               BossBattle101.jump_count s = BossBattle101.jump_count p /\
               BossBattle101.max_jumps s = BossBattle101.max_jumps p /\
               BossBattle101.health s = BossBattle101.health p).
  { subst s. unfold BossBattle101.state_phase.
    destruct (BossBattle101.State_eqb _ _); repeat split. }
  destruct Hs as (<- & <- & <- & <- & <-). clearbody s.
  unfold BossBattle101.animate_phase. player101_simpl.
  destruct (Qle_bool _ _); [| repeat split].
  destruct (nth _ _ _) as [width height]. repeat split.
Qed.

(** One update of a player that is in an attack state. *)
Lemma attack_step101 (keys : Keys) (dt : Q) (p : BossBattle101.t) :
  BossBattle101.in_attack (BossBattle101.state p) = true ->
  BossBattle101.state (BossBattle101.update keys dt p)
  = BossBattle101.state p /\
  BossBattle101.vel_x (BossBattle101.update keys dt p)
  = BossBattle101.vel_x p.
Proof.
  intros Ha. split.
  - rewrite update101_state. unfold BossBattle101.select_state.
    rewrite pre_select101_state, Ha. reflexivity.
  - unfold BossBattle101.update.
    match goal with
    | |- context [BossBattle101.state_phase keys ?s] =>
        destruct (tail101_fields keys dt s) as (-> & _)
    end.
    assert (Hb : BossBattle101.in_attack_or_block (BossBattle101.state p)
                 = true)
      by (destruct (BossBattle101.state p); (reflexivity || discriminate Ha)).
    unfold BossBattle101.jump_phase, BossBattle101.gravity_phase,
      BossBattle101.move_phase.
    rewrite Hb. cbn [negb]. player101_simpl.
    split_ifs; reflexivity.
Qed.

(** X14.  In bossbattle101.py an attack never ends: from a player in an
    attack state, after any sequence of updates, whatever the keys and time
    steps, the state is still that attack state and the horizontal velocity
    is the one the player had when the attack began; the left and right
    keys have no effect any more. *)
Theorem attack_locks_player101 (inputs : list (Keys * Q))
  (p : BossBattle101.t) :
  BossBattle101.in_attack (BossBattle101.state p) = true ->
  BossBattle101.state (BossBattle101.updates inputs p)
  = BossBattle101.state p /\
  BossBattle101.vel_x (BossBattle101.updates inputs p)
  = BossBattle101.vel_x p.
Proof.
  revert p. induction inputs as [|[keys dt] rest IH]; intros p Ha;
    cbn [BossBattle101.updates].
  - split; reflexivity.
  - destruct (attack_step101 keys dt p Ha) as [Es Ev].
    destruct (IH (BossBattle101.update keys dt p)) as [Rs Rv].
    + rewrite Es. exact Ha.
    + split; congruence.
Qed.

(** X15.  The jump counter of the boss-battle player stays between 0 and
    the jump limit: an update of a player whose counter is in that range
    leaves it there, lands it at 0 or 1 when the player ends the update on
    the floor, and never changes the limit. *)
Theorem jump_count_stays_in_range101 (keys : Keys) (dt : Q)
  (p : BossBattle101.t) :
  (0 <= BossBattle101.jump_count p <= BossBattle101.max_jumps p)%Z ->
  let q := BossBattle101.update keys dt p in
  (0 <= BossBattle101.jump_count q <= BossBattle101.max_jumps q)%Z /\
  BossBattle101.max_jumps q = BossBattle101.max_jumps p /\
  (BossBattle101.on_ground q = true ->
   (BossBattle101.jump_count q <= 1)%Z).
Proof.
  intros H. cbv zeta. unfold BossBattle101.update.
  match goal with
  | |- context [BossBattle101.state_phase keys ?s] =>
      destruct (tail101_fields keys dt s) as (_ & _ & Ec & Em & _);
      rewrite Ec, Em;
      assert (Eg : BossBattle101.on_ground
                     (BossBattle101.sync_phase
                        (BossBattle101.animate_phase dt
                           (BossBattle101.state_phase keys s)))
                   = BossBattle101.on_ground s)
  end.
  { unfold BossBattle101.sync_phase, BossBattle101.animate_phase,
      BossBattle101.state_phase. player101_simpl.
    destruct (BossBattle101.State_eqb _ _); player101_simpl;
      destruct (Qle_bool _ _); try reflexivity;
      destruct (nth _ _ _) as [width height]; reflexivity. }
  rewrite Eg. clear Ec Em Eg.
  unfold BossBattle101.jump_phase, BossBattle101.gravity_phase,
    BossBattle101.move_phase.
  player101_simpl.
  destruct (negb (BossBattle101.in_attack_or_block (BossBattle101.state p)));
    player101_simpl;
    destruct (Qle_bool _ _); player101_simpl;
    destruct (K_SPACE keys); player101_simpl;
    try (destruct (BossBattle101.jump_pressed p); cbn [negb andb]);
    try (destruct (0 <? BossBattle101.max_jumps p)%Z eqn:E0;
         [apply Z.ltb_lt in E0 | apply Z.ltb_ge in E0]);
    try (destruct (BossBattle101.jump_count p
                   <? BossBattle101.max_jumps p)%Z eqn:E1;
         [apply Z.ltb_lt in E1 | apply Z.ltb_ge in E1]);
    player101_simpl; repeat split; try lia; try discriminate.
Qed.

Lemma dash_waits_for_cooldown_witness :
  dash_starts_in_run
    (repeat (mkKeys false false false false false true, 1 # 60, []) 30)
    (Player.update (mkKeys false false false false false true) (1 # 60) []
       Scenario.standing)
  = false.
Proof.
  apply (dash_waits_for_cooldown
           (mkKeys false false false false false true) (1 # 60) []
           Scenario.standing
           (repeat (mkKeys false false false false false true, 1 # 60, [])
              30)).
  - reflexivity.
  - unfold forward_in_time. apply Forall_forall. intros x Hx.
    apply repeat_spec in Hx. subst x. cbn. discriminate.
  - vm_compute. reflexivity.
Defined.

Lemma attack_locks_player101_witness :
  BossBattle101.vel_x
    (BossBattle101.updates
       [(mkKeys true false false false false false, 1 # 60);
        (mkKeys false true false false false false, 1 # 5)]
       (BossBattle101.set_state BossBattle101.attack1 Scenario.blocking))
  = 0.
Proof.
  apply (attack_locks_player101
           [(mkKeys true false false false false false, 1 # 60);
            (mkKeys false true false false false false, 1 # 5)]
           (BossBattle101.set_state BossBattle101.attack1 Scenario.blocking)).
  reflexivity.
Defined.

Lemma jump_count_stays_in_range101_witness :
  (BossBattle101.jump_count
     (BossBattle101.update Scenario.hold_jump (1 # 60) Scenario.blocking)
   <= 1)%Z.
Proof.
  destruct (jump_count_stays_in_range101 Scenario.hold_jump (1 # 60)
              Scenario.blocking) as (_ & _ & H).
  - vm_compute. split; discriminate.
  - apply H. reflexivity.
Defined.

(** ** Act II: crows *)

Ltac level2_simpl :=
  cbn [
    Level2.player Level2.enemies Level2.platforms Level2.adaptive
    Level2.score Level2.combo_count Level2.combo_timer Level2.combo_master
    Level2.next_id Level2.ghost_sheet Level2.crow_width Level2.crow_height
    Level2.set_player Level2.set_enemies Level2.set_platforms
    Level2.set_score Level2.set_combo_count Level2.set_combo_timer
    Level2.set_combo_master Level2.set_next_id
  ] in *.

Ltac crow_simpl :=
  cbn [
    EnemyCrow.gid EnemyCrow.rect EnemyCrow.speed EnemyCrow.idx
    EnemyCrow.timer EnemyCrow.dive_speed EnemyCrow.diving EnemyCrow.alive
    EnemyCrow.set_rect EnemyCrow.set_idx EnemyCrow.set_timer
    EnemyCrow.set_dive_speed EnemyCrow.set_diving EnemyCrow.set_alive
  ] in *.

Lemma attack_loop_raises (hits : list Enemy) (w : Level2.t) :
  Level2.attack_loop hits w = AttributeError <->
  existsb Enemies.is_crow hits = true.
Proof.
  revert w. induction hits as [|e hits IH]; intros w; cbn [Level2.attack_loop existsb].
  - split; discriminate.
  - unfold Level2.attack_hit. destruct e as [g|c]; cbn [Enemies.take_hit Enemies.is_crow orb].
    + destruct (GhostEnemy.take_hit g) as [g' points]. apply IH.
    + split; reflexivity.
Qed.

Lemma existsb_is_crow (l : list Enemy) :
  existsb Enemies.is_crow l = true <-> exists c, In (Crow c) l.
Proof.
  rewrite existsb_exists. split.
  - intros (e & Hin & He). destruct e as [g|c]; [discriminate |].
    exists c. exact Hin.
  - intros (c & Hin). exists (Crow c). split; [exact Hin | reflexivity].
Qed.

(** X16.  Attacking a crow raises.  [EnemyCrow] has no [take_hit], and the
    attack loop of Act II calls [enemy.take_hit()] on every enemy whose box
    overlaps the player's: the attack phase raises [AttributeError] exactly
    when the player is in an attack state and a crow is among the enemies
    overlapping it, and an iteration of the loop is left by that exception
    exactly when no QUIT event came first and its attack phase raises. *)
Theorem crow_attack_raises (w : Level2.t) :
  (Level2.attack_phase w = AttributeError <->
   is_attack (Player.state (Level2.player w)) = true /\
   exists c, In (Crow c)
               (Enemies.spritecollide (Player.rect (Level2.player w))
                  (Level2.enemies w))) /\
  (forall i, Level2.frame i w = Raised <->
             Level2.quit i = false /\
             Level2.attack_phase (Level2.before_attack i w) = AttributeError).
Proof.
  split.
  - unfold Level2.attack_phase.
    destruct (is_attack (Player.state (Level2.player w))).
    + rewrite attack_loop_raises, existsb_is_crow. tauto.
    + split; [discriminate | intros [H _]; discriminate].
  - intros i. unfold Level2.frame, Level2.before_attack.
    destruct (Level2.quit i).
    + split; [discriminate | intros [H _]; discriminate].
    + destruct (Level2.attack_phase _) as [w'|].
      * split; [| intros [_ H]; discriminate].
        destruct (Player.health _ <=? 0)%Z; discriminate.
      * split; [intros _; split; reflexivity | reflexivity].
Qed.

Lemma crow_attack_raises_witness :
  Level2.frame Scenario2.strike Scenario2.act2 = Raised.
Proof.
  apply (proj2 (crow_attack_raises Scenario2.act2) Scenario2.strike).
  split; [reflexivity | vm_compute; reflexivity].
Defined.

Lemma dive_phase_inv (roll : bool) (c : EnemyCrow.t) :
  crow_inv c ->
  crow_inv (EnemyCrow.dive_phase roll c) /\
  (EnemyCrow.diving c = true ->
   EnemyCrow.dive_speed (EnemyCrow.dive_phase roll c) ==
   EnemyCrow.dive_speed c - (3 # 10)) /\
  (EnemyCrow.diving c = true ->
   EnemyCrow.diving (EnemyCrow.dive_phase roll c) = false ->
   EnemyCrow.dive_speed (EnemyCrow.dive_phase roll c) < -7) /\
  (EnemyCrow.diving c = false -> roll = false ->
   EnemyCrow.dive_phase roll c = c).
Proof.
  unfold crow_inv, EnemyCrow.dive_phase. intros [[Hlo Hhi] Hd].
  destruct (EnemyCrow.diving c) eqn:D; cbn [negb andb]; crow_simpl.
  - rewrite D. specialize (Hd eq_refl).
    assert (P : pymax (-8) (EnemyCrow.dive_speed c - (3 # 10)) ==
                EnemyCrow.dive_speed c - (3 # 10)).
    { unfold pymax, Qltb.
      destruct (Qle_bool _ _) eqn:E; cbn [negb]; [| reflexivity].
      apply Qle_bool_iff in E. lra. }
    unfold Qltb.
    destruct (Qle_bool (-7) (pymax (-8) (EnemyCrow.dive_speed c - (3 # 10))))
      eqn:E; cbn [negb]; crow_simpl.
    + apply Qle_bool_iff in E. rewrite P in E. rewrite D.
      split; [split; [split; lra | intros _; lra] |].
      split; [intros _; exact P |].
      split; [intros _ H; discriminate H | discriminate].
    + assert (E' : ~ -7 <= pymax (-8) (EnemyCrow.dive_speed c - (3 # 10))).
      { intros H. apply Qle_bool_iff in H. congruence. }
      rewrite P in E'.
      split; [split; [split; lra | discriminate] |].
      split; [intros _; exact P |].
      split; [intros _ _; lra | discriminate].
  - destruct roll; crow_simpl.
    + assert (P : pymax (-8) (8 - (3 # 10)) == 77 # 10) by reflexivity.
      assert (F : Qltb (pymax (-8) (8 - (3 # 10))) (-7) = false) by reflexivity.
      rewrite F. crow_simpl.
      split; [split; [split; lra | intros _; lra] |].
      split; [discriminate |]. split; [discriminate | intros _ H; discriminate H].
    + rewrite D.
      split; [split; [split; assumption | intros; congruence] |].
      split; [discriminate |]. split; [discriminate | reflexivity].
Qed.

Lemma crow_update_dive (roll : bool) (dt : Q) (c : EnemyCrow.t) :
  let d := EnemyCrow.dive_phase roll
             (EnemyCrow.set_rect
                (Rect.add_x (- EnemyCrow.speed c) (EnemyCrow.rect c)) c) in
  EnemyCrow.dive_speed (EnemyCrow.update roll dt c) = EnemyCrow.dive_speed d /\
  EnemyCrow.diving (EnemyCrow.update roll dt c) = EnemyCrow.diving d.
Proof.
  cbv zeta. unfold EnemyCrow.update, EnemyCrow.kill.
  set (d := EnemyCrow.dive_phase _ _). clearbody d.
  crow_simpl. split_ifs; crow_simpl; split; reflexivity.
Qed.

(** X17.  The dive of a crow.  A new crow has dive speed 0 and does not
    dive; every update keeps the dive speed at most 8 and above -8, and not
    below -7 while the crow dives.  While a dive goes on the speed falls by
    0.3 per update, so the lower bound -8 of line 323 is never what [max]
    returns, and the update that ends a dive leaves the speed below -7. *)
Theorem crow_dive_speed_in_range (roll : bool) (dt : Q) (c : EnemyCrow.t) :
  crow_inv c ->
  let c' := EnemyCrow.update roll dt c in
  crow_inv c' /\
  -8 < EnemyCrow.dive_speed c' /\
  (EnemyCrow.diving c = true ->
   EnemyCrow.dive_speed c' == EnemyCrow.dive_speed c - (3 # 10)) /\
  (EnemyCrow.diving c = true -> EnemyCrow.diving c' = false ->
   EnemyCrow.dive_speed c' < -7).
Proof.
  intros H. cbv zeta.
  destruct (crow_update_dive roll dt c) as [Es Ed].
  set (c0 := EnemyCrow.set_rect _ c) in *.
  assert (H0 : crow_inv c0) by exact H.
  destruct (dive_phase_inv roll c0 H0) as (I & S & F & _).
  unfold crow_inv in *. rewrite Es, Ed.
  split; [exact I |]. split; [lra |]. split; [exact S | exact F].
Qed.

Lemma crow_dive_speed_in_range_witness :
  -8 < EnemyCrow.dive_speed
         (EnemyCrow.update false (1 # 60) Scenario2.diving_crow).
Proof.
  refine (proj1 (proj2
    (crow_dive_speed_in_range false (1 # 60) Scenario2.diving_crow _))).
  unfold crow_inv. vm_compute. intuition discriminate.
Defined.

Lemma enemies_put_killed (e : Enemy) (grp : list Enemy) :
  Enemies.put (Enemies.kill e) grp =
  filter (fun f => negb (Enemies.same f e)) grp.
Proof.
  unfold Enemies.put.
  assert (A : Enemies.alive (Enemies.kill e) = false)
    by (destruct e; reflexivity).
  rewrite A. apply filter_ext. intros f. unfold Enemies.same.
  assert (G : Enemies.gid (Enemies.kill e) = Enemies.gid e)
    by (destruct e; reflexivity).
  rewrite G, Nat.eqb_sym. reflexivity.
Qed.

Lemma filter_twice {A : Type} (f g : A -> bool) (l : list A) :
  filter f (filter g l) = filter (fun x => g x && f x) l.
Proof.
  induction l as [|a l IH]; cbn [filter]; [reflexivity |].
  destruct (g a); cbn [filter andb]; [destruct (f a) |]; rewrite IH; reflexivity.
Qed.

Lemma filter_all {A : Type} (l : list A) : filter (fun _ => true) l = l.
Proof.
  induction l as [|a l IH]; cbn [filter]; [reflexivity |].
  rewrite IH. reflexivity.
Qed.

Lemma act2_contact_loop (hits : list Enemy) (w : Level2.t) :
  let w' := fold_left Level2.contact_hit hits w in
  Player.health (Level2.player w') =
    (Player.health (Level2.player w) - 10 * Z.of_nat (length hits))%Z /\
  Player.rect (Level2.player w') = Player.rect (Level2.player w) /\
  Player.max_health (Level2.player w') = Player.max_health (Level2.player w) /\
  Level2.enemies w' = spared hits (Level2.enemies w) /\
  Level2.score w' = Level2.score w /\
  (hits <> [] -> Player.invulnerable (Level2.player w') == 1) /\
  (hits = [] -> w' = w).
Proof.
  cbv zeta. revert w.
  induction hits as [|e hits IH]; intros w; cbn [fold_left].
  - unfold spared. cbn [existsb negb length Z.of_nat].
    split; [lia |]. split; [reflexivity |]. split; [reflexivity |].
    split.
    { symmetry. apply filter_all. }
    split; [reflexivity |]. split; [congruence | reflexivity].
  - destruct (IH (Level2.contact_hit w e)) as (Eh & Er & Em & Ee & Es & Ei & En).
    rewrite Eh, Er, Em, Ee, Es.
    unfold Level2.contact_hit at 1 2 3 4 5. level2_simpl. player_simpl.
    rewrite enemies_put_killed.
    split; [cbn [length]; lia |]. split; [reflexivity |].
    split; [reflexivity |].
    split.
    { unfold spared. rewrite filter_twice. apply filter_ext. intros f.
      cbn [existsb]. rewrite negb_orb. reflexivity. }
    split; [reflexivity |]. split; [| discriminate].
    intros _. destruct hits as [|e2 hits].
    + cbn [fold_left]. unfold Level2.contact_hit. level2_simpl. player_simpl.
      reflexivity.
    + apply Ei. discriminate.
Qed.

(** X18.  Contact damage in Act II.  Every enemy the contact loop runs
    over, ghost or crow, takes 10 from the player's health and is removed
    from the group; nothing else leaves the group.  There is no respawn:
    the health is the one before minus 10 per enemy, below 0 if need be,
    the player's box and the score stay as they are, and an iteration that
    ends with health at 0 or below returns from the level. *)
Theorem act2_contact_without_respawn (w : Level2.t) :
  let hits := Level2.contact_hits w in
  let w' := Level2.contact_phase w in
  Player.health (Level2.player w') =
    (Player.health (Level2.player w) - 10 * Z.of_nat (length hits))%Z /\
  Player.rect (Level2.player w') = Player.rect (Level2.player w) /\
  Level2.enemies w' = spared hits (Level2.enemies w) /\
  Level2.score w' = Level2.score w /\
  (hits <> [] -> Player.invulnerable (Level2.player w') == 1) /\
  (forall i w2, Level2.frame i w = Running w2 ->
     (0 < Player.health (Level2.player w2))%Z) /\
  (forall i w2, Level2.frame i w = GameOver w2 ->
     (Player.health (Level2.player w2) <= 0)%Z).
Proof.
  cbv zeta. unfold Level2.contact_phase.
  destruct (act2_contact_loop (Level2.contact_hits w) w)
    as (Eh & Er & _ & Ee & Es & Ei & _).
  split; [exact Eh |]. split; [exact Er |]. split; [exact Ee |].
  split; [exact Es |]. split; [exact Ei |].
  split; intros i w2; unfold Level2.frame;
    destruct (Level2.quit i); try discriminate;
    destruct (Level2.attack_phase _) as [w1|]; try discriminate;
    destruct (Player.health _ <=? 0)%Z eqn:E; try discriminate;
    intros H; injection H as <-.
  - apply Z.leb_gt in E. exact E.
  - apply Z.leb_le in E. exact E.
Qed.

(** ** The boss fight *)

Ltac bossfight_simpl :=
  cbn [
    BossFight.player BossFight.boss BossFight.boss_grouped BossFight.enemies
    BossFight.projectiles BossFight.platforms BossFight.adaptive
    BossFight.score BossFight.combo_count BossFight.boss_defeated
    BossFight.next_id BossFight.ghost_sheet BossFight.set_player
    BossFight.set_boss BossFight.set_enemies BossFight.set_projectiles
    BossFight.set_platforms BossFight.set_score BossFight.set_boss_defeated
    BossFight.set_next_id
  ] in *.

Ltac boss_simpl :=
  cbn [
    Boss.health Boss.max_health Boss.phase Boss.attack_timer
    Boss.attack_pattern Boss.alive BossAI.boss BossAI.rect fst snd
  ] in *.

Lemma execute_attack_shape (octant : nat -> Q * Q) (s : BossAI.t) :
  (0 <= Boss.attack_pattern (BossAI.boss s) < 3)%Z ->
  volley_shape (Boss.attack_pattern (BossAI.boss s))
    (BossAI.execute_attack octant s).
Proof.
  intros H. unfold volley_shape, BossAI.execute_attack.
  destruct (Boss.attack_pattern (BossAI.boss s) =? 0)%Z eqn:E0.
  - apply Z.eqb_eq in E0. left. split; [exact E0 |].
    split; reflexivity.
  - apply Z.eqb_neq in E0.
    destruct (Boss.attack_pattern (BossAI.boss s) =? 1)%Z eqn:E1.
    + apply Z.eqb_eq in E1. right. left. split; [exact E1 |].
      split; reflexivity.
    + apply Z.eqb_neq in E1. right. right. split; [lia | reflexivity].
Qed.

Lemma fire_facts (patterns : Z) (octant : nat -> Q * Q) (s : BossAI.t) :
  (0 < patterns <= 3)%Z ->
  let r := BossAI.fire patterns octant s in
  Boss.attack_timer (BossAI.boss (fst r)) == 0 /\
  (0 <= Boss.attack_pattern (BossAI.boss (fst r)) < patterns)%Z /\
  volley_shape (Boss.attack_pattern (BossAI.boss (fst r))) (snd r) /\
  Boss.phase (BossAI.boss (fst r)) = Boss.phase (BossAI.boss s) /\
  Boss.health (BossAI.boss (fst r)) = Boss.health (BossAI.boss s) /\
  Boss.max_health (BossAI.boss (fst r)) = Boss.max_health (BossAI.boss s) /\
  Boss.alive (BossAI.boss (fst r)) = Boss.alive (BossAI.boss s).
Proof.
  intros H. cbv zeta. unfold BossAI.fire. boss_simpl.
  assert (M : (0 <= (Boss.attack_pattern (BossAI.boss s) + 1) mod patterns
               < patterns)%Z) by (apply Z.mod_pos_bound; lia).
  split; [reflexivity |]. split; [exact M |].
  split; [| repeat split].
  apply (execute_attack_shape octant
           (BossAI.mk (Boss.mk _ _ _ 0 _ _) (BossAI.rect s))).
  boss_simpl. destruct M as [M1 M2].
  split; [exact M1 | apply Z.lt_le_trans with patterns; [exact M2 | lia]].
Qed.

Lemma phase_step_facts (b : Boss.t) :
  let b' := BossAI.phase_step b in
  Boss.health b' = Boss.health b /\
  Boss.max_health b' = Boss.max_health b /\
  Boss.attack_timer b' = Boss.attack_timer b /\
  Boss.attack_pattern b' = Boss.attack_pattern b /\
  Boss.alive b' = Boss.alive b /\
  (Boss.phase b' = Boss.phase b \/
   Boss.phase b = 1%Z /\ Boss.phase b' = 2%Z /\
   Boss.health b < Boss.max_health b * (1 # 2)) /\
  (Boss.phase b' = 1%Z -> Boss.max_health b * (1 # 2) <= Boss.health b).
Proof.
  cbv zeta. unfold BossAI.phase_step, Qltb.
  destruct (Qle_bool (Boss.max_health b * (1 # 2)) (Boss.health b)) eqn:E;
    cbn [negb andb].
  - apply Qle_bool_iff in E. repeat split; auto.
  - assert (L : Boss.health b < Boss.max_health b * (1 # 2)).
    { apply Qnot_le_lt. intros H. apply Qle_bool_iff in H. congruence. }
    destruct (Boss.phase b =? 1)%Z eqn:P; boss_simpl.
    + apply Z.eqb_eq in P. repeat split; auto. discriminate.
    + apply Z.eqb_neq in P. repeat split; auto. intros H. contradiction.
Qed.

(** X19.  The volleys of the boss.  [Boss.update] returns attacks only in
    an update that finds the attack timer, advanced by [dt], above 3 s
    (phase 1) or above 2 s (phase 2), and that update puts the timer back
    to 0.  What it returns then is fixed by the new pattern: eight shots
    for pattern 0, three summons for pattern 1, and nothing for pattern 2,
    which phase 2 reaches and [execute_attack] has no branch for.  The
    update never changes health, max_health or the kill flag, and the phase
    never goes back from 2 to 1: it goes from 1 to 2 when the health is
    below half of max_health. *)
Theorem boss_volleys (dt hover : Q) (octant : nat -> Q * Q) (s : BossAI.t) :
  let r := BossAI.update dt hover octant s in
  let b := BossAI.boss s in
  let b' := BossAI.boss (fst r) in
  (snd r = [] \/
   Boss.attack_timer b' == 0 /\
   volley_shape (Boss.attack_pattern b') (snd r) /\
   (Boss.phase b' = 1%Z -> 3 < Boss.attack_timer b + dt /\
                            (Boss.attack_pattern b' < 2)%Z) /\
   2 < Boss.attack_timer b + dt) /\
  (snd r = [] ->
   Boss.attack_timer b' == 0 \/
   Boss.attack_timer b' == Boss.attack_timer b + dt /\
   Boss.attack_pattern b' = Boss.attack_pattern b) /\
  Boss.health b' = Boss.health b /\
  Boss.max_health b' = Boss.max_health b /\
  Boss.alive b' = Boss.alive b /\
  (Boss.phase b' = Boss.phase b \/
   Boss.phase b = 1%Z /\ Boss.phase b' = 2%Z /\
   Boss.health b < Boss.max_health b * (1 # 2)) /\
  (Boss.phase b' = 1%Z -> Boss.max_health b * (1 # 2) <= Boss.health b).
Proof.
  cbv zeta. unfold BossAI.update.
  set (b1 := Boss.mk _ _ _ (Boss.attack_timer (BossAI.boss s) + dt) _ _).
  destruct (phase_step_facts b1) as (Eh & Em & Et & Ep & Ea & Hph & Hhalf).
  set (b2 := BossAI.phase_step b1) in *.
  set (s2 := BossAI.mk b2 _).
  assert (T : Boss.attack_timer b2 = Boss.attack_timer (BossAI.boss s) + dt)
    by exact Et.
  assert (B2 : BossAI.boss s2 = b2) by reflexivity.
  clearbody s2. clearbody b2.
  destruct (Boss.phase b2 =? 1)%Z eqn:P1.
  - apply Z.eqb_eq in P1. unfold Qltb.
    destruct (Qle_bool (Boss.attack_timer b2) 3) eqn:E; cbn [negb].
    + cbn [fst snd]. rewrite B2. split; [left; reflexivity |].
      split; [intros _; right; split; [rewrite T; reflexivity | exact Ep] |].
      split; [exact Eh |]. split; [exact Em |]. split; [exact Ea |].
      split; [exact Hph | exact Hhalf].
    + assert (L : 3 < Boss.attack_timer b2).
      { apply Qnot_le_lt. intros H. apply Qle_bool_iff in H. congruence. }
      destruct (fire_facts 2 octant s2) as (F0 & Fp & Fv & Fph & Fh & Fm & Fa);
        [lia |].
      rewrite B2 in *. rewrite T in L.
      split.
      { right. split; [exact F0 |]. split; [exact Fv |].
        split; [intros _; split; [exact L | lia] | lra]. }
      split; [intros _; left; exact F0 |].
      rewrite Fh, Fm, Fa, Fph.
      split; [exact Eh |]. split; [exact Em |]. split; [exact Ea |].
      split; [exact Hph | exact Hhalf].
  - apply Z.eqb_neq in P1. unfold Qltb.
    destruct (Qle_bool (Boss.attack_timer b2) 2) eqn:E; cbn [negb].
    + cbn [fst snd]. rewrite B2. split; [left; reflexivity |].
      split; [intros _; right; split; [rewrite T; reflexivity | exact Ep] |].
      split; [exact Eh |]. split; [exact Em |]. split; [exact Ea |].
      split; [exact Hph | exact Hhalf].
    + assert (L : 2 < Boss.attack_timer b2).
      { apply Qnot_le_lt. intros H. apply Qle_bool_iff in H. congruence. }
      destruct (fire_facts 3 octant s2) as (F0 & Fp & Fv & Fph & Fh & Fm & Fa);
        [lia |].
      rewrite B2 in *. rewrite T in L.
      split.
      { right. split; [exact F0 |]. split; [exact Fv |].
        split; [intros H; rewrite Fph in H; contradiction | exact L]. }
      split; [intros _; left; exact F0 |].
      rewrite Fh, Fm, Fa, Fph.
      split; [exact Eh |]. split; [exact Em |]. split; [exact Ea |].
      split; [exact Hph | exact Hhalf].
Qed.

Lemma ungrouped_not_alive (w : BossFight.t) :
  BossFight.boss_grouped w = false -> BossFight.boss_alive w = false.
Proof.
  intros H. unfold BossFight.boss_alive. rewrite H. reflexivity.
Qed.

Lemma damage_phase_fields (w : BossFight.t) :
  let w' := BossFight.damage_phase w in
  BossFight.enemies w' = BossFight.enemies w /\
  BossFight.boss w' = BossFight.boss w /\
  BossFight.boss_grouped w' = BossFight.boss_grouped w /\
  BossFight.boss_defeated w' = BossFight.boss_defeated w /\
  BossFight.score w' = BossFight.score w /\
  Player.rect (BossFight.player w') = Player.rect (BossFight.player w) /\
  (Player.health (BossFight.player w) - 30 <=
   Player.health (BossFight.player w') <=
   Player.health (BossFight.player w))%Z.
Proof.
  cbv zeta. unfold BossFight.damage_phase.
  destruct (Qle_bool (Player.invulnerable (BossFight.player w)) 0).
  2: { repeat split; lia. }
  set (eh := Group.spritecollide _ _).
  set (ph := filter (BossFight.hits_player w) (BossFight.projectiles w)).
  set (w1 := BossFight.set_projectiles _ w).
  set (w2 := match eh, ph with
             | [], [] => w1
             | _, _ => BossFight.hurt 10 1 w1
             end).
  clearbody eh ph.
  assert (H2 : BossFight.enemies w2 = BossFight.enemies w /\
               BossFight.boss w2 = BossFight.boss w /\
               BossFight.boss_grouped w2 = BossFight.boss_grouped w /\
               BossFight.boss_defeated w2 = BossFight.boss_defeated w /\
               BossFight.score w2 = BossFight.score w /\
               Player.rect (BossFight.player w2) =
                 Player.rect (BossFight.player w) /\
               (Player.health (BossFight.player w) - 10 <=
                Player.health (BossFight.player w2) <=
                Player.health (BossFight.player w))%Z).
  { subst w2.
    destruct eh; destruct ph;
      subst w1; unfold BossFight.hurt; bossfight_simpl; player_simpl;
      repeat split; lia. }
  clearbody w2. clear w1.
  destruct H2 as (Ee & Eb & Eg & Ed & Es & Er & Eh).
  destruct (BossFight.boss_alive w2 && BossFight.touches_boss w2);
    unfold BossFight.hurt; bossfight_simpl; player_simpl;
    repeat split; try assumption; lia.
Qed.

Lemma damage_phase_gate (w : BossFight.t) :
  let w' := BossFight.damage_phase w in
  (~ Player.invulnerable (BossFight.player w) <= 0 -> w' = w) /\
  ((Player.health (BossFight.player w') <
    Player.health (BossFight.player w))%Z ->
   Player.invulnerable (BossFight.player w) <= 0 /\
   (Player.invulnerable (BossFight.player w') == 1 \/
    Player.invulnerable (BossFight.player w') == 15 # 10)) /\
  (Player.invulnerable (BossFight.player w) <= 0 ->
   BossFight.projectiles w' =
   filter (fun p => negb (BossFight.hits_player w p))
     (BossFight.projectiles w)).
Proof.
  cbv zeta. unfold BossFight.damage_phase.
  destruct (Qle_bool (Player.invulnerable (BossFight.player w)) 0) eqn:G.
  2: { split; [reflexivity |]. split; [lia |].
       intros H. apply Qle_bool_iff in H. congruence. }
  apply Qle_bool_iff in G.
  split; [intros H; contradiction |].
  set (eh := Group.spritecollide _ _).
  set (ph := filter (BossFight.hits_player w) (BossFight.projectiles w)).
  set (w1 := BossFight.set_projectiles _ w).
  set (w2 := match eh, ph with
             | [], [] => w1
             | _, _ => BossFight.hurt 10 1 w1
             end).
  clearbody eh ph.
  assert (H2 : BossFight.projectiles w2 = BossFight.projectiles w1 /\
               (Player.health (BossFight.player w2) =
                Player.health (BossFight.player w) \/
                Player.invulnerable (BossFight.player w2) == 1)).
  { subst w2.
    destruct eh; destruct ph;
      subst w1; unfold BossFight.hurt; bossfight_simpl; player_simpl;
      (split; [reflexivity |]); first [left; reflexivity | right; reflexivity]. }
  destruct H2 as (Ep & Eh). clearbody w2.
  destruct (BossFight.boss_alive w2 && BossFight.touches_boss w2);
    unfold BossFight.hurt; bossfight_simpl; player_simpl.
  - split; [intros _; split; [exact G | right; reflexivity] |].
    intros _. rewrite Ep. reflexivity.
  - split; [| intros _; rewrite Ep; reflexivity].
    intros H. split; [exact G |]. destruct Eh as [Eh | Eh]; [lia | left; exact Eh].
Qed.

(** X20.  Damage to the player in the boss fight.  One iteration takes at
    most 30 from the player's health (10 for enemies and projectiles
    together, however many touch, and 20 for the boss), and nothing while
    the invulnerability countdown is above 0, when the phase changes
    nothing at all.  A loss of health leaves the countdown at 1 or 1.5.
    Unlike the contact loops of the two acts, the phase removes no enemy;
    the projectiles that overlap the player are removed, hit or not, when
    the countdown is at 0 or below.  Boss, score and the player's box are
    not touched. *)
Theorem boss_fight_damage_bounded (w : BossFight.t) :
  let w' := BossFight.damage_phase w in
  (Player.health (BossFight.player w) - 30 <=
   Player.health (BossFight.player w') <=
   Player.health (BossFight.player w))%Z /\
  (~ Player.invulnerable (BossFight.player w) <= 0 -> w' = w) /\
  ((Player.health (BossFight.player w') <
    Player.health (BossFight.player w))%Z ->
   Player.invulnerable (BossFight.player w') == 1 \/
   Player.invulnerable (BossFight.player w') == 15 # 10) /\
  BossFight.enemies w' = BossFight.enemies w /\
  (Player.invulnerable (BossFight.player w) <= 0 ->
   BossFight.projectiles w' =
   filter (fun p => negb (BossFight.hits_player w p))
     (BossFight.projectiles w)) /\
  BossFight.boss w' = BossFight.boss w /\
  BossFight.score w' = BossFight.score w /\
  Player.rect (BossFight.player w') = Player.rect (BossFight.player w).
Proof.
  cbv zeta.
  destruct (damage_phase_fields w) as (Ee & Eb & _ & _ & Es & Er & Eh).
  destruct (damage_phase_gate w) as (Hg & Hl & Hp).
  split; [exact Eh |]. split; [exact Hg |].
  split; [intros H; apply Hl, H |].
  split; [exact Ee |]. split; [exact Hp |].
  split; [exact Eb |]. split; [exact Es | exact Er].
Qed.

Lemma boss_fight_damage_bounded_witness :
  Player.health
    (BossFight.player (BossFight.damage_phase Scenario2.arena)) = 70%Z /\
  Player.invulnerable
    (BossFight.player (BossFight.damage_phase Scenario2.arena)) == 15 # 10.
Proof.
  destruct (boss_fight_damage_bounded Scenario2.arena) as (_ & _ & H & _).
  split; [reflexivity |].
  destruct H as [H | H]; [vm_compute; reflexivity | | exact H].
  vm_compute in H. discriminate H.
Defined.

Lemma ungrouped_boss_phase (i : BossFight.Input) (w : BossFight.t) :
  BossFight.boss_grouped w = false ->
  BossFight.boss_phase i w = BossFight.set_boss_defeated true w.
Proof.
  intros H. unfold BossFight.boss_phase.
  rewrite (ungrouped_not_alive w H). reflexivity.
Qed.

Lemma ungrouped_combat_phase (w : BossFight.t) :
  BossFight.boss_grouped w = false ->
  BossFight.enemies w = [] ->
  BossFight.combat_phase w = w.
Proof.
  intros Hg He. unfold BossFight.combat_phase, BossFight.strike_boss.
  rewrite (ungrouped_not_alive w Hg). cbn [andb]. rewrite He.
  destruct (is_attack _); reflexivity.
Qed.

Lemma ungrouped_damage_phase (w : BossFight.t) :
  BossFight.boss_grouped w = false ->
  BossFight.enemies w = [] ->
  BossFight.projectiles w = [] ->
  BossFight.damage_phase w = w.
Proof.
  intros Hg He Hp. unfold BossFight.damage_phase.
  destruct (Qle_bool _ _); [| reflexivity].
  rewrite He, Hp. cbn [Group.spritecollide filter].
  assert (E : BossFight.set_projectiles [] w = w).
  { destruct w. cbn in Hp. subst. reflexivity. }
  rewrite E. rewrite (ungrouped_not_alive w Hg). reflexivity.
Qed.

Lemma ungrouped_body (i : BossFight.Input) (w : BossFight.t) :
  BossFight.quit i = false ->
  BossFight.boss_grouped w = false ->
  BossFight.enemies w = [] ->
  BossFight.projectiles w = [] ->
  let w' := BossFight.set_boss_defeated true (BossFight.update_phase i w) in
  BossFight.body i w =
  if (Player.health (BossFight.player w) <=? 0)%Z
  then GameOver w' else Running w'.
Proof.
  intros Hq Hg He Hp. cbv zeta. unfold BossFight.body. rewrite Hq.
  set (w1 := BossFight.update_phase i w).
  assert (F : BossFight.boss_grouped w1 = false /\
              BossFight.enemies w1 = [] /\
              BossFight.projectiles w1 = [] /\
              Player.health (BossFight.player w1) =
                Player.health (BossFight.player w)).
  { subst w1. unfold BossFight.update_phase. bossfight_simpl.
    rewrite He, Hp.
    split; [exact Hg |]. split; [reflexivity |]. split; [reflexivity |].
    apply update_health. }
  clearbody w1. destruct F as (Fg & Fe & Fp & Fh).
  rewrite (ungrouped_boss_phase i w1 Fg).
  set (w2 := BossFight.set_boss_defeated true w1).
  assert (G : BossFight.boss_grouped w2 = false /\
              BossFight.enemies w2 = [] /\
              BossFight.projectiles w2 = [] /\
              Player.health (BossFight.player w2) =
                Player.health (BossFight.player w)).
  { subst w2. bossfight_simpl. auto. }
  clearbody w2. destruct G as (Gg & Ge & Gp & Gh).
  rewrite (ungrouped_combat_phase w2 Gg Ge).
  rewrite (ungrouped_damage_phase w2 Gg Ge Gp).
  rewrite Gh. reflexivity.
Qed.

(** X21.  The boss fight is over after one iteration.  [Boss(...)] is
    created in no sprite group and [boss_fight] adds it to none, so
    [boss.alive()] is false from the start: the first iteration never calls
    [boss.update] or [boss.take_hit], sets [boss_defeated], and the loop
    ends.  For every player, score and input without a QUIT event the
    function returns after that one iteration, with [(score, True)] when
    the player's health is positive and [(score, False)] otherwise; score,
    health and the boss (health 50, phase 1) are as they were, and no enemy
    or projectile was created. *)
Theorem boss_fight_ends_after_one_frame (p : Player.t) (sc cc : Z)
  (a : AdaptiveEngine.t) (sheet : bool) (i : BossFight.Input)
  (rest : list BossFight.Input) :
  BossFight.quit i = false ->
  exists w',
    BossFight.run (i :: rest) (BossFight.init p sc cc a sheet) =
      (if (Player.health p <=? 0)%Z then GameOver w' else Victory w') /\
    BossFight.score w' = sc /\
    Player.health (BossFight.player w') = Player.health p /\
    BossFight.boss w' = BossFight.boss (BossFight.init p sc cc a sheet) /\
    BossFight.enemies w' = [] /\
    BossFight.projectiles w' = [].
Proof.
  intros Hq.
  set (w0 := BossFight.init p sc cc a sheet).
  exists (BossFight.set_boss_defeated true (BossFight.update_phase i w0)).
  split.
  - cbn [BossFight.run]. change (BossFight.boss_defeated w0) with false.
    cbv iota.
    rewrite (ungrouped_body i w0 Hq eq_refl eq_refl eq_refl).
    change (Player.health (BossFight.player w0)) with (Player.health p).
    destruct (Player.health p <=? 0)%Z; [reflexivity |].
    destruct rest; reflexivity.
  - unfold BossFight.update_phase. bossfight_simpl.
    split; [reflexivity |]. split; [apply update_health |].
    split; [reflexivity |]. split; reflexivity.
Qed.

Lemma boss_fight_ends_after_one_frame_witness :
  exists w',
    BossFight.run [Scenario2.boss_input; Scenario2.boss_input]
      (BossFight.init Scenario.standing 120 0 AdaptiveEngine.init true) =
      Victory w' /\
    BossFight.score w' = 120%Z.
Proof.
  destruct (boss_fight_ends_after_one_frame Scenario.standing 120 0
              AdaptiveEngine.init true Scenario2.boss_input
              [Scenario2.boss_input] eq_refl)
    as (w' & E & Es & _).
  exists w'. split; [exact E | exact Es].
Defined.
